(** * AI-Applications: the API routes, embedded and verified

    A shallow embedding of the route handlers of the application
    (the [route.ts] files under [src/app/api]): the summarization route
    with its provider fallback loop, the classification route, the Q&A
    route, the enhanced-chat route and the document (RAG) route with its
    process-wide store.

    Conventions of the embedding.
    - A JavaScript string is a Rocq [string]; each character stands for
      one UTF-16 code unit (in the range 0..255), so [String.length] is
      the [.length] of the source.  The strings of the source that have
      code units above 255 (the persona names) are lists of code units.
    - A JavaScript number is a binary64 [float] (Rocq's primitive floats
      follow IEEE 754 as JavaScript does).
    - [await]ed code is sequential inside one request; a handler is a
      function from the process state to a completion and a new state.
      A completion is normal or a thrown exception, as in ECMAScript.
      Requests overlap where a handler awaits a remote call between
      reading and writing the module-level state: the uploads of the
      document route, which [Interleaved] takes in two steps.
    - Remote services (inference API, Gemini, embeddings, chat
      completion) are oracles that see the history of the calls made so
      far; every call is recorded in the history. *)

From Stdlib Require Import String Ascii List Bool Arith Lia ZArith.
From Stdlib Require Import PrimFloat Uint63 DecimalString.
From Stdlib Require FloatAxioms.
Import ListNotations.
Local Open Scope list_scope.
Local Open Scope string_scope.
Set Warnings "-register-all".

(** ** JavaScript values and built-ins used by the routes *)
Module JS.

(** What [JSON.parse] can produce, plus [undefined] and the members an
    object literal inherits from [Object.prototype] ([VNative]). *)
Inductive value : Type :=
| VUndefined
| VNull
| VBool (b : bool)
| VNum (x : float)
| VStr (s : string)
| VArr (elems : list value)
| VObj (fields : list (string * value))
| VNative (name : string).

(** ToBoolean. *)
Definition truthy (v : value) : bool :=
  match v with
  | VUndefined | VNull => false
  | VBool b => b
  | VNum x => negb (PrimFloat.eqb x 0 || PrimFloat.is_nan x)
  | VStr s => negb (s =? EmptyString)
  | VArr _ | VObj _ | VNative _ => true
  end.

Definition falsy (v : value) : bool := negb (truthy v).

(** [typeof v === "string"] *)
Definition is_string (v : value) : bool :=
  match v with VStr _ => true | _ => false end.

(** [Array.isArray(v)] *)
Definition isArray (v : value) : bool :=
  match v with VArr _ => true | _ => false end.

(** Own property of an object built by [JSON.parse] (one entry per key). *)
Fixpoint assoc (key : string) (fields : list (string * value)) : value :=
  match fields with
  | [] => VUndefined
  | (k, v) :: rest => if k =? key then v else assoc key rest
  end.

(** [v[0]] for a value that came out of [JSON.parse]; the caller has
    checked [Array.isArray(v)] first. *)
Definition first_elem (v : value) : value :=
  match v with
  | VArr (x :: _) => x
  | _ => VUndefined
  end.

(** [v?.key] with a key that no prototype defines: [undefined] on
    [undefined], [null], primitives and arrays. *)
Definition opt_member (v : value) (key : string) : value :=
  match v with
  | VObj fields => assoc key fields
  | _ => VUndefined
  end.

(** The names every object literal inherits from [Object.prototype]. *)
Definition Object_prototype_names : list string :=
  [ "constructor"; "__defineGetter__"; "__defineSetter__"; "hasOwnProperty";
    "__lookupGetter__"; "__lookupSetter__"; "isPrototypeOf";
    "propertyIsEnumerable"; "toString"; "valueOf"; "__proto__";
    "toLocaleString" ].

Definition inherited (key : string) : value :=
  if existsb (String.eqb key) Object_prototype_names then VNative key
  else VUndefined.

(** *** Strings *)

(** The white space and line terminators of ECMAScript that fit in one
    code unit below 256: TAB, LF, VT, FF, CR, SP and NBSP.  [trim] and
    the class [\s] use the same set. *)
Definition isWhiteSpace (c : ascii) : bool :=
  match nat_of_ascii c with
  | 9 | 10 | 11 | 12 | 13 | 32 | 160 => true
  | _ => false
  end.

Fixpoint trimStart (s : string) : string :=
  match s with
  | EmptyString => EmptyString
  | String c rest => if isWhiteSpace c then trimStart rest else s
  end.

Fixpoint trimEnd (s : string) : string :=
  match s with
  | EmptyString => EmptyString
  | String c rest =>
      match trimEnd rest with
      | EmptyString => if isWhiteSpace c then EmptyString else String c EmptyString
      | r => String c r
      end
  end.

(** A piece of text of the source between its double quotes. *)
Definition quoted (s : string) : string :=
  String (ascii_of_nat 34) s ++ String (ascii_of_nat 34) EmptyString.

(** A count inside a template literal. *)
Definition decimal (n : nat) : string :=
  NilEmpty.string_of_uint (Nat.to_uint n).

(** [s.length] *)
Definition length (s : string) : Z := Z.of_nat (String.length s).

(** [s.trim()] *)
Definition trim (s : string) : string := trimEnd (trimStart s).

(** [s.split(/\s+/)]: the fields between maximal runs of white space;
    [in_sep] says that the previous code unit belonged to a separator.
    A leading or trailing separator leaves an empty field, and the empty
    string splits into one empty field. *)
Fixpoint split_from (in_sep : bool) (s : string) : list string :=
  match s with
  | EmptyString => [EmptyString]
  | String c rest =>
      if isWhiteSpace c then
        if in_sep then split_from true rest
        else EmptyString :: split_from true rest
      else
        match split_from false rest with
        | field :: fields => String c field :: fields
        | [] => [String c EmptyString]
        end
  end.

Definition split_whitespace (s : string) : list string := split_from false s.

(** *** Strings with code units above 255 *)

(** The UTF-16 code units of a string that a [string] of this file
    cannot hold. *)
Definition CodeUnits : Type := list N.

Definition units_of (s : string) : CodeUnits :=
  List.map N_of_ascii (list_ascii_of_string s).

Definition string_of_units (s : CodeUnits) : string :=
  string_of_list_ascii (List.map ascii_of_N s).

(** The first code unit above 255 and its index, from index [i] on. *)
Fixpoint first_above_255 (i : nat) (s : CodeUnits) : option (nat * N) :=
  match s with
  | [] => None
  | c :: rest => if (255 <? c)%N then Some (i, c) else first_above_255 (S i) rest
  end.

(** *** Numbers *)

(** A length or count as a Number (exact below 2^53). *)
Definition Number_of_nat (n : nat) : float :=
  PrimFloat.of_uint63 (Uint63.of_Z (Z.of_nat n)).

Definition two52 : float := 4503599627370496%float.

(** The largest integral Number not above [x], for finite [x] of
    magnitude below 2^52: adding and subtracting 2^52 rounds [x] to an
    integer, one too high when it rounded up. *)
Definition floor_small (x : float) : float :=
  let t := if PrimFloat.ltb x 0 then ((x - two52) + two52)%float
           else ((x + two52) - two52)%float in
  if PrimFloat.ltb x t then (t - 1)%float else t.

(** [Math.round(x)]: NaN, the infinities and integral Numbers are
    returned unchanged; otherwise the nearest integer, the one towards
    +infinity on a tie, with -0 for [-0.5 <= x < 0]. *)
Definition Math_round (x : float) : float :=
  if PrimFloat.is_nan x || PrimFloat.is_infinity x then x
  else if PrimFloat.leb two52 (PrimFloat.abs x) then x
  else
    let f := floor_small x in
    if PrimFloat.eqb f x then x
    else if PrimFloat.ltb x 0 && PrimFloat.leb (-0.5)%float x then PrimFloat.neg_zero
    else if PrimFloat.leb 0.5%float (x - f)%float then (f + 1)%float else f.

End JS.

(** ** Completions and the handler monad *)
Module Eff.

(** The [message] of a thrown [Error]. *)
Definition Exception : Type := string.

Inductive Completion (A : Type) : Type :=
| Normal (a : A)
| Throw (e : Exception).
Arguments Normal {A} a.
Arguments Throw {A} e.

(** A computation over a process state [W]. *)
Definition M (W A : Type) : Type := W -> Completion A * W.

Definition ret {W A} (a : A) : M W A := fun w => (Normal a, w).

Definition throw {W A} (e : Exception) : M W A := fun w => (Throw e, w).

Definition bind {W A B} (c : M W A) (k : A -> M W B) : M W B :=
  fun w =>
    match c w with
    | (Normal a, w') => k a w'
    | (Throw e, w') => (Throw e, w')
    end.

(** [try { c } catch (error) { handler(error) }]; the effects of [c] up
    to the throw stay. *)
Definition try_catch {W A} (c : M W A) (handler : Exception -> M W A) : M W A :=
  fun w =>
    match c w with
    | (Normal a, w') => (Normal a, w')
    | (Throw e, w') => handler e w'
    end.

Definition get {W} : M W W := fun w => (Normal w, w).

Definition modify {W} (f : W -> W) : M W unit := fun w => (Normal tt, f w).

(** Lifts a completion computed outside the state. *)
Definition lift {W A} (c : Completion A) : M W A := fun w => (c, w).

End Eff.

Declare Scope eff_scope.
Delimit Scope eff_scope with eff.
Notation "x <- c ;; k" := (Eff.bind c (fun x => k))
  (at level 61, c at next level, right associativity) : eff_scope.
Notation "c ;;; k" := (Eff.bind c (fun _ => k))
  (at level 61, right associativity) : eff_scope.

(** ** The process environment and HTTP responses *)
Module Http.

(** [process.env]: the three secrets the routes read. *)
Record Env : Type := mkEnv {
  HUGGINGFACE_API_TOKEN : option string;
  GOOGLE_GEMINI_API_KEY : option string;
  OPENROUTER_API_KEY : option string
}.

(** [!v || v === placeholder]: the credential is absent, empty or still
    the placeholder of the sample configuration. *)
Definition not_configured (v : option string) (placeholder : string) : bool :=
  match v with
  | None => true
  | Some s => (s =? EmptyString) || (s =? placeholder)
  end.

(** The body of a [Response]: [Response.json({success: true, data})],
    [Response.json({success: false, error})], a plain-text body, or a
    stream of text fragments that ends closed or with an error. *)
Inductive Body (D : Type) : Type :=
| JsonData (data : D)
| JsonError (error : string)
| PlainText (text : string)
| TextStream (fragments : list string) (failure : option string).
Arguments JsonData {D} data.
Arguments JsonError {D} error.
Arguments PlainText {D} text.
Arguments TextStream {D} fragments failure.

(** A [Response]: its status, the headers the handler sets itself, and
    its body. *)
Record Response (D : Type) : Type := mkResponse {
  status : nat;
  headers : list (string * string);
  body : Body D
}.
Arguments mkResponse {D} status headers body.
Arguments status {D} r.
Arguments headers {D} r.
Arguments body {D} r.

(** The conversion to a [ByteString] that the [Headers] of a [Response]
    apply to every name and value: a [TypeError] for a string with a
    code unit above 255. *)
Definition ByteString (s : JS.CodeUnits) : Eff.Completion string :=
  match JS.first_above_255 0 s with
  | Some (index, unit) =>
      Eff.Throw ("Cannot convert argument to a ByteString because the character at index "
                 ++ JS.decimal index ++ " has a value of " ++ JS.decimal (N.to_nat unit)
                 ++ " which is greater than 255.")
  | None => Eff.Normal (JS.string_of_units s)
  end.

(** [Response.json(payload, { status })] *)
Definition json_data {D} (data : D) : Response D :=
  mkResponse 200 [] (JsonData data).

Definition json_error {D} (status : nat) (error : string) : Response D :=
  mkResponse status [] (JsonError error).

(** [new Response(text, { status })] *)
Definition plain_text {D} (status : nat) (text : string) : Response D :=
  mkResponse status [] (PlainText text).

(** The status the client sees when a handler completes; a handler
    that throws has produced no response. *)
Definition status_of {D W} (run : Eff.Completion (Response D) * W) : option nat :=
  match fst run with
  | Eff.Normal r => Some (status r)
  | Eff.Throw _ => None
  end.

(** The [success] flag of a JSON body. *)
Definition success {D} (r : Response D) : option bool :=
  match body r with
  | JsonData _ => Some true
  | JsonError _ => Some false
  | PlainText _ | TextStream _ _ => None
  end.

End Http.

(** ** The summarization route ([api/summarize/route.ts]) *)
Module Summarize.
Import JS Eff Http.
Local Open Scope eff_scope.

(** [HUGGINGFACE_MODELS[key]]: the three models of the table, and what
    the object literal inherits for any other key. *)
Definition HUGGINGFACE_MODELS (key : string) : value :=
  if key =? "bart-cnn" then VStr "facebook/bart-large-cnn"
  else if key =? "t5-small" then VStr "t5-small"
  else if key =? "pegasus" then VStr "google/pegasus-large"
  else inherited key.

(** The keys of the table ([ModelKey]). *)
Definition model_keys : list string := ["bart-cnn"; "t5-small"; "pegasus"].

(** The trace of the handler, in order: an entry into
    [tryHuggingFaceSummarization] or [tryGeminiSummarization], a call
    that leaves the process ([fetch], [generateContent]), a line of
    [console.log]. *)
Inductive Event : Type :=
| TryHuggingFace (modelKey : string)
| FetchInference (model : value) (text : string)
| TryGemini (summaryType : string)
| GenerateContent (prompt : string)
| ConsoleLog (line : string) (error : Exception).

(** The outcome of the [fetch] to the inference API and of reading its
    body: a rejection (network failure, unreadable or non-JSON body), a
    response that is not [ok] with its text, or the parsed JSON. *)
Inductive FetchReply : Type :=
| Rejects (e : Exception)
| HttpError (bodyText : string)
| Json (result : value).

(** The outcome of [generateContent] followed by [response.text()]. *)
Inductive GeminiReply : Type :=
| GeminiRejects (e : Exception)
| GeminiText (text : string).

(** The remote services, as functions of the history so far. *)
Record Remote : Type := mkRemote {
  inference : list Event -> value -> string -> FetchReply;
  gemini : list Event -> string -> GeminiReply
}.

Record World : Type := mkWorld {
  env : Env;
  history : list Event
}.

Definition record (e : Event) : M World unit :=
  modify (fun w => mkWorld (env w) (history w ++ [e])%list).

Record SummarizationResult : Type := mkResult {
  originalText : string;
  summary : string;
  wordCount : nat;
  compressionRatio : float
}.

(** The destructured request body; [text] is whatever JSON value the
    caller sent ([VUndefined] when missing), [model] and [summaryType]
    are strings when present. *)
Record Input : Type := mkInput {
  text : value;
  model : option string;
  summaryType : option string
}.

(** A request whose body [req.json()] cannot deliver (not JSON, or
    [null], which cannot be destructured), or a destructured body. *)
Inductive Request : Type :=
| Unparsable (e : Exception)
| Parsed (input : Input).

Definition with_default (d : string) (o : option string) : string :=
  match o with Some s => s | None => d end.

(** The string behind a value that passed [typeof v === "string"]. *)
Definition string_of (v : value) : string :=
  match v with VStr s => s | _ => EmptyString end.

Definition countWords (text : string) : nat :=
  List.length
    (List.filter (fun word => (0 <? String.length word)%nat)
                 (split_whitespace (trim text))).

Definition calculateCompressionRatio (originalText summary : string) : float :=
  let originalWords := Number_of_nat (countWords originalText) in
  let summaryWords := Number_of_nat (countWords summary) in
  Math_round ((1 - summaryWords / originalWords) * 100)%float.

Section Handlers.
Variable remote : Remote.

Definition fetch_inference (model : value) (text : string) : M World FetchReply :=
  w <- get ;;
  record (FetchInference model text) ;;;
  ret (inference remote (history w) model text).

Definition generateContent (prompt : string) : M World GeminiReply :=
  w <- get ;;
  record (GenerateContent prompt) ;;;
  ret (gemini remote (history w) prompt).

Definition callHuggingFaceAPI (text : string) (model : value) : M World value :=
  w <- get ;;
  if not_configured (HUGGINGFACE_API_TOKEN (env w)) "your_huggingface_token_here"
  then throw "Hugging Face API token not configured"
  else
    reply <- fetch_inference model text ;;
    match reply with
    | Rejects e => throw e
    | HttpError error => throw ("Hugging Face API error: " ++ error)
    | Json result =>
        if isArray result && truthy (opt_member (first_elem result) "summary_text")
        then ret (opt_member (first_elem result) "summary_text")
        else if isArray result && truthy (opt_member (first_elem result) "generated_text")
        then ret (opt_member (first_elem result) "generated_text")
        else if is_string result then ret result
        else throw "Unexpected response format from Hugging Face"
    end.

Definition tryHuggingFaceSummarization (text : string) (model : string) : M World value :=
  record (TryHuggingFace model) ;;;
  try_catch
    (callHuggingFaceAPI text (HUGGINGFACE_MODELS model))
    (fun error =>
       record (ConsoleLog ("Hugging Face " ++ model ++ " failed:") error) ;;;
       ret VNull).

Definition gemini_prompt (text summaryType : string) : string :=
  "Please provide a " ++ summaryType ++
  " summary of the following text. The summary should be concise, informative, and capture the main points:

Text to summarize:
" ++ text ++ "

Summary:".

Definition tryGeminiSummarization (text summaryType : string) : M World value :=
  record (TryGemini summaryType) ;;;
  try_catch
    (w <- get ;;
     if not_configured (GOOGLE_GEMINI_API_KEY (env w)) "your_gemini_api_key_here"
     then throw "Gemini API key not configured"
     else
       reply <- generateContent (gemini_prompt text summaryType) ;;
       match reply with
       | GeminiRejects e => throw e
       | GeminiText t => ret (VStr t)
       end)
    (fun error =>
       record (ConsoleLog "Gemini summarization failed:" error) ;;;
       ret VNull).

(** The [for (const modelKey of modelOrder)] loop, with the variable
    [summary] it assigns; returning early is the [break]. *)
Fixpoint for_modelOrder (text : string) (modelOrder : list string) (summary : value)
  : M World value :=
  match modelOrder with
  | [] => ret summary
  | modelKey :: rest =>
      if truthy (HUGGINGFACE_MODELS modelKey) then
        summary' <- tryHuggingFaceSummarization text modelKey ;;
        if truthy summary' then ret summary'
        else for_modelOrder text rest summary'
      else for_modelOrder text rest summary
  end.

(** [summary.trim()]: a [TypeError] when the provider's value is not a
    string. *)
Definition summary_trim (summary : value) : M World string :=
  match summary with
  | VStr s => ret (trim s)
  | _ => throw "summary.trim is not a function"
  end.

Definition bad_request (error : string) : Response SummarizationResult :=
  json_error 400 error.

Definition POST (req : Request) : M World (Response SummarizationResult) :=
  try_catch
    (input <- (match req with
               | Unparsable e => throw e
               | Parsed input => ret input
               end) ;;
     let text := text input in
     let model := with_default "bart-cnn" (model input) in
     let summaryType := with_default "concise" (summaryType input) in
     if falsy text || negb (is_string text) then
       ret (bad_request "Text is required and must be a string")
     else
       let text := string_of text in
       if (length text <? 50)%Z then
         ret (bad_request "Text must be at least 50 characters long")
       else if (10000 <? length text)%Z then
         ret (bad_request "Text is too long. Maximum 10,000 characters allowed.")
       else
         let modelOrder := [model; "bart-cnn"; "t5-small"] in
         summary <- for_modelOrder text modelOrder VNull ;;
         summary <- (if falsy summary
                     then tryGeminiSummarization text summaryType
                     else ret summary) ;;
         if falsy summary then
           ret (json_error 503
             "All summarization services are currently unavailable. Please check your API keys and try again later.")
         else
           trimmed <- summary_trim summary ;;
           ret (json_data
             {| originalText := text;
                summary := trimmed;
                wordCount := countWords trimmed;
                compressionRatio := calculateCompressionRatio text trimmed |}))
    (fun error =>
       ret (json_error 500 ("Server error: " ++ error))).

End Handlers.

End Summarize.

(** ** The Q&A route (the handler around [qaChain]) *)
Module QnA.
Import JS Eff Http.
Local Open Scope eff_scope.

(** The calls that leave the process. *)
Inductive Event : Type :=
| ChainInvoke (question : string) (context : value).

(** [qaChain.invoke]: the [content] of the model's message, or a
    rejection. *)
Record Remote : Type := mkRemote {
  qaChain : list Event -> string -> value -> Completion value
}.

Record World : Type := mkWorld {
  env : Env;
  history : list Event
}.

Record QnAResult : Type := mkResult {
  question : string;
  answer : value;
  context : value;
  confidence : nat
}.

(** The destructured body; a missing field is [VUndefined]. *)
Record Input : Type := mkInput {
  input_question : value;
  input_context : value
}.

Inductive Request : Type :=
| Unparsable (e : Exception)
| Parsed (input : Input).

Definition string_of (v : value) : string :=
  match v with VStr s => s | _ => EmptyString end.

Section Handlers.
Variable remote : Remote.

Definition invoke (question : string) (context : value) : M World value :=
  w <- get ;;
  modify (fun w => mkWorld (env w) (history w ++ [ChainInvoke question context])%list) ;;;
  lift (qaChain remote (history w) question context).

Definition POST (req : Request) : M World (Response QnAResult) :=
  try_catch
    (input <- (match req with
               | Unparsable e => throw e
               | Parsed input => ret input
               end) ;;
     let question := input_question input in
     let context := match input_context input with
                    | VUndefined => VStr EmptyString
                    | c => c
                    end in
     if falsy question || negb (is_string question) then
       ret (json_error 400 "Question is required")
     else
       w <- get ;;
       if not_configured (OPENROUTER_API_KEY (env w)) "your_openrouter_api_key_here" then
         ret (plain_text 400 "OpenRouter API key not configured")
       else
         let question := string_of question in
         content <- invoke question context ;;
         ret (json_data {| question := question;
                           answer := content;
                           context := context;
                           confidence := 95 |}))
    (fun error => ret (json_error 500 ("Server error: " ++ error))).

End Handlers.

End QnA.

(** ** The classification route ([api/classify/route.ts]) *)
Module Classify.
Import JS Eff Http.
Local Open Scope eff_scope.

Definition HUGGINGFACE_CLASSIFICATION_MODELS (key : string) : value :=
  if key =? "sentiment-analysis"
  then VStr "cardiffnlp/twitter-roberta-base-sentiment-latest"
  else if key =? "topic-classification" then VStr "facebook/bart-large-mnli"
  else if key =? "emotion-detection"
  then VStr "joeddav/distilbert-base-uncased-go-emotions-student"
  else inherited key.

(** The trace of the handler, as for the summarization route. *)
Inductive Event : Type :=
| TryHuggingFace (model : string)
| FetchInference (model : value) (text : string) (candidateLabels : option (list string))
| TryGemini (model : string)
| GenerateContent (prompt : string)
| ConsoleLog (line : string) (error : Exception).

(** The [fetch] and the reading of its body: a rejection, a response
    that is not [ok], or the parsed JSON. *)
Inductive FetchReply : Type :=
| Rejects (e : Exception)
| HttpError (bodyText : string)
| Json (result : value).

Inductive GeminiReply : Type :=
| GeminiRejects (e : Exception)
| GeminiText (text : string).

Record Remote : Type := mkRemote {
  inference : list Event -> value -> string -> option (list string) -> FetchReply;
  gemini : list Event -> string -> GeminiReply
}.

Record World : Type := mkWorld {
  env : Env;
  history : list Event
}.

Definition record (e : Event) : M World unit :=
  modify (fun w => mkWorld (env w) (history w ++ [e])%list).

Record Category : Type := mkCategory {
  name : string;
  score : float
}.

Record ClassificationResult : Type := mkResult {
  label : string;
  confidence : float;
  categories : list Category
}.

(** The destructured body: [text] as sent, [model] a string when
    present, [customLabels] an array of strings when present. *)
Record Input : Type := mkInput {
  text : value;
  model : option string;
  customLabels : option (list string)
}.

Inductive Request : Type :=
| Unparsable (e : Exception)
| Parsed (input : Input).

Definition string_of (v : value) : string :=
  match v with VStr s => s | _ => EmptyString end.

(** [!model] *)
Definition model_missing (model : option string) : bool :=
  match model with
  | None => true
  | Some m => m =? EmptyString
  end.

(** [labels.join(", ")] *)
Fixpoint join (labels : list string) : string :=
  match labels with
  | [] => EmptyString
  | [l] => l
  | l :: rest => l ++ ", " ++ join rest
  end.

(** [s.replace(/```json\n|```/g, '')]: every code fence, with its
    [json] tag and line break when it has them, is removed; [skip]
    counts the code units of a match still to drop. *)
Fixpoint strip_fences_from (skip : nat) (s : string) : string :=
  match s with
  | EmptyString => EmptyString
  | String c rest =>
      match skip with
      | S k => strip_fences_from k rest
      | O =>
          if prefix "```json
" s then strip_fences_from 7 rest
          else if prefix "```" s then strip_fences_from 2 rest
          else String c (strip_fences_from 0 rest)
      end
  end.

Definition strip_fences (s : string) : string := strip_fences_from 0 s.

Section Handlers.
Variable remote : Remote.

(** [JSON.parse]: the value, or the [SyntaxError] it throws. *)
Variable JSON_parse : string -> Completion value.

(** The block that shapes a provider's result into a
    [ClassificationResult] (the last [if]/[else] chain of the handler):
    a function of the model key and of the provider's value only, which
    returns or throws.  Nothing below depends on what it computes. *)
Variable normalize : string -> value -> Completion ClassificationResult.

Definition callHuggingFaceClassificationAPI
  (text : string) (model : value) (candidateLabels : option (list string))
  : M World value :=
  w <- get ;;
  if not_configured (HUGGINGFACE_API_TOKEN (env w)) "your_huggingface_token_here"
  then throw "Hugging Face API token not configured"
  else
    record (FetchInference model text candidateLabels) ;;;
    match inference remote (history w) model text candidateLabels with
    | Rejects e => throw e
    | HttpError error => throw ("Hugging Face API error: " ++ error)
    | Json result => ret result
    end.

Definition tryHuggingFaceClassification
  (text : string) (model : string) (customLabels : option (list string))
  : M World value :=
  record (TryHuggingFace model) ;;;
  try_catch
    (let modelName := HUGGINGFACE_CLASSIFICATION_MODELS model in
     let candidateLabels :=
       if model =? "topic-classification" then customLabels else None in
     callHuggingFaceClassificationAPI text modelName candidateLabels)
    (fun error =>
       record (ConsoleLog ("Hugging Face classification (" ++ model ++ ") failed:") error) ;;;
       ret VNull).

Definition analyze (text : string) : string :=
  "Analyze the following text: " ++ quoted text ++ ".

".

(** [{"label": "<kind>", "score": 0.99}] *)
Definition label_score_format (kind : string) : string :=
  "{" ++ quoted "label" ++ ": " ++ quoted kind ++ ", " ++ quoted "score" ++ ": 0.99}".

(** The prompt for the model key, or [None] where the source returns
    [null] without calling Gemini. *)
Definition gemini_prompt (text model : string) (customLabels : option (list string))
  : option string :=
  if model =? "sentiment-analysis" then
    Some (analyze text ++
      "Classify the sentiment as positive, negative, or neutral. Provide the result in JSON format: "
      ++ label_score_format "sentiment")
  else if model =? "topic-classification" then
    match customLabels with
    | Some labels =>
        Some (analyze text ++ "Classify the text into one of these categories: "
              ++ join labels ++
              ". Provide the result in JSON format: {" ++ quoted "labels" ++ ": ["
              ++ quoted "..." ++ "], " ++ quoted "scores" ++ ": [...]}")
    | None => None
    end
  else if model =? "emotion-detection" then
    Some (analyze text ++
      "Detect the primary emotion. Provide the result in JSON format: "
      ++ label_score_format "emotion")
  else None.

Definition tryGeminiClassification
  (text : string) (model : string) (customLabels : option (list string))
  : M World value :=
  record (TryGemini model) ;;;
  try_catch
    (w <- get ;;
     if not_configured (GOOGLE_GEMINI_API_KEY (env w)) "your_gemini_api_key_here"
     then throw "Gemini API key not configured"
     else
       match gemini_prompt text model customLabels with
       | None => ret VNull
       | Some prompt =>
           record (GenerateContent prompt) ;;;
           match gemini remote (history w) prompt with
           | GeminiRejects e => throw e
           | GeminiText t => lift (JSON_parse (strip_fences t))
           end
       end)
    (fun error =>
       record (ConsoleLog "Gemini classification failed:" error) ;;;
       ret VNull).

Definition POST (req : Request) : M World (Response ClassificationResult) :=
  try_catch
    (input <- (match req with
               | Unparsable e => throw e
               | Parsed input => ret input
               end) ;;
     let text := text input in
     let customLabels := customLabels input in
     if falsy text || negb (is_string text) || model_missing (model input) then
       ret (json_error 400 "Invalid request body")
     else
       let text := string_of text in
       let model := match model input with Some m => m | None => EmptyString end in
       classificationResult <- tryHuggingFaceClassification text model customLabels ;;
       classificationResult <-
         (if falsy classificationResult
          then tryGeminiClassification text model customLabels
          else ret classificationResult) ;;
       if falsy classificationResult then
         ret (json_error 503 "All classification services are currently unavailable.")
       else
         normalizedResult <- lift (normalize model classificationResult) ;;
         ret (json_data normalizedResult))
    (fun error => ret (json_error 500 ("Server error: " ++ error))).

End Handlers.

(** The remote calls a history shows. *)
Definition remote_calls (events : list Event) : list Event :=
  List.filter (fun e => match e with
                        | FetchInference _ _ _ | GenerateContent _ => true
                        | _ => false
                        end) events.

End Classify.

(** ** The enhanced-chat route ([api/chat-enhanced/route.ts]) *)
Module ChatEnhanced.
Import JS Eff Http.
Local Open Scope eff_scope.

(** The keys of [AI_PERSONAS]; [createPromptTemplate] takes one of them. *)
Inductive Persona : Type := developer | creative | analyst | general.

(** [AI_PERSONAS[persona].name]: every name starts with an emoji, which
    is one or more pairs of surrogate code units. *)
Definition AI_PERSONAS_name (persona : Persona) : CodeUnits :=
  match persona with
  | developer => [55357; 56424; 8205; 55357; 56507]%N ++ units_of " Developer Assistant"
  | creative => [55356; 57256]%N ++ units_of " Creative Assistant"
  | analyst => [55357; 56522]%N ++ units_of " Business Analyst"
  | general => [55358; 56598]%N ++ units_of " AI Assistant"
  end%list.

(** The prompt of [createPromptTemplate]: the system prompt of the
    persona, the history placeholder and the human input. *)
Record PromptTemplate : Type := mkPrompt {
  system_of : Persona
}.

Definition createPromptTemplate (persona : Persona) : PromptTemplate :=
  mkPrompt persona.

(** A [ConversationSummaryBufferMemory] object is identified by the
    order of its creation, a [nat]. *)

(** The calls that leave the process: [chain.stream] of a chain built
    with the prompt and the memory object ([None] for [undefined]). *)
Inductive Event : Type :=
| ChainStream (prompt : PromptTemplate) (memory : option nat) (input : value).

(** What [chain.stream] yields: the [response] of every chunk in order,
    and the error that ends the iteration when there is one. *)
Record StreamScript : Type := mkScript {
  chunks : list string;
  failure : option Exception
}.

Record Remote : Type := mkRemote {
  stream : list Event -> PromptTemplate -> option nat -> value
           -> Completion StreamScript
}.

(** The process state: the environment, the [Map] [conversationMemories]
    from session identifiers to memory objects, in insertion order, and
    the calls made. *)
Record World : Type := mkWorld {
  env : Env;
  conversationMemories : list (string * nat);
  history : list Event
}.

(** The destructured body: [messages] as sent ([VUndefined] when
    missing), [persona] one of the four keys when present and
    [sessionId] a string when present. *)
Record Input : Type := mkInput {
  messages : value;
  persona : option Persona;
  sessionId : option string
}.

Inductive Request : Type :=
| Unparsable (e : Exception)
| Parsed (input : Input).

(** [map.has(key)] and [map.get(key)] *)
Definition Map_has (key : string) (map : list (string * nat)) : bool :=
  existsb (fun entry => key =? fst entry) map.

Fixpoint Map_get (key : string) (map : list (string * nat)) : option nat :=
  match map with
  | [] => None
  | (k, memory) :: rest => if key =? k then Some memory else Map_get key rest
  end.

Definition getOrCreateMemory (sessionId : string) : M World (option nat) :=
  w <- get ;;
  (if Map_has sessionId (conversationMemories w) then ret tt
   else modify (fun w => mkWorld (env w)
                           (conversationMemories w
                            ++ [(sessionId, List.length (conversationMemories w))])%list
                           (history w))) ;;;
  w <- get ;;
  ret (Map_get sessionId (conversationMemories w)).

(** [messages[messages.length - 1]] of an array. *)
Definition last_message (messages : value) : value :=
  match messages with
  | VArr elems => List.last elems VUndefined
  | _ => VUndefined
  end.

(** [lastMessage.content] *)
Definition content_of (lastMessage : value) : Completion value :=
  match lastMessage with
  | VUndefined => Throw "Cannot read properties of undefined (reading 'content')"
  | VNull => Throw "Cannot read properties of null (reading 'content')"
  | VObj fields => Normal (assoc "content" fields)
  | _ => Normal VUndefined
  end.

Section Handlers.
Variable remote : Remote.

Definition chain_stream (prompt : PromptTemplate) (memory : option nat) (input : value)
  : M World StreamScript :=
  w <- get ;;
  modify (fun w => mkWorld (env w) (conversationMemories w)
                           (history w ++ [ChainStream prompt memory input])%list) ;;;
  lift (stream remote (history w) prompt memory input).

(** The handler.  The response is constructed once [chain.stream] has
    resolved; its headers are converted one after the other, and a
    [TypeError] of the conversion is thrown inside the [try]. *)
Definition POST (req : Request) : M World (Response unit) :=
  try_catch
    (input <- (match req with
               | Unparsable e => throw e
               | Parsed input => ret input
               end) ;;
     let messages := messages input in
     let persona := match persona input with Some p => p | None => general end in
     let sessionId := match sessionId input with Some s => s | None => "default" end in
     w <- get ;;
     if not_configured (OPENROUTER_API_KEY (env w)) "your_openrouter_api_key_here" then
       ret (plain_text 400
         "OpenRouter API key not configured. Please add your API key to .env.local")
     else if falsy messages || negb (isArray messages) then
       ret (plain_text 400 "Invalid messages format")
     else
       memory <- getOrCreateMemory sessionId ;;
       let prompt := createPromptTemplate persona in
       let lastMessage := last_message messages in
       content <- lift (content_of lastMessage) ;;
       script <- chain_stream prompt memory content ;;
       personaName <- lift (ByteString (AI_PERSONAS_name persona)) ;;
       ret (mkResponse 200
              [("Content-Type", "text/plain; charset=utf-8");
               ("Cache-Control", "no-cache");
               ("X-AI-Persona", personaName)]
              (TextStream
                 (List.filter (fun response => negb (response =? EmptyString))
                              (chunks script))
                 (failure script))))
    (fun error => ret (plain_text 500 ("Error: " ++ error))).

End Handlers.

(** The session a body belongs to. *)
Definition session_of (input : Input) : string :=
  match sessionId input with Some s => s | None => "default" end.

Definition persona_of (input : Input) : Persona :=
  match persona input with Some p => p | None => general end.

(** The memories are distinct objects bound to distinct sessions: the
    keys of the map are distinct and its values are the objects created
    so far, in order. *)
Definition kept_apart (map : list (string * nat)) : Prop :=
  NoDup (List.map fst map) /\ List.map snd map = List.seq 0 (List.length map).

End ChatEnhanced.

(** ** The document route: the in-memory store and its handlers
    ([extractTextFromFile], [processDocument], [queryDocuments] and the
    [POST] with an [action], [GET]) *)
Module Rag.
Import JS Eff Http.
Local Open Scope eff_scope.

Definition Vector : Type := list float.

(** An entry of the [MemoryVectorStore]: the chunk, its embedding and
    the [source] of its metadata. *)
Record MemoryVector : Type := mkMemoryVector {
  content : string;
  embedding : Vector;
  source : string
}.

(** A [Document] of the text splitter. *)
Record Document : Type := mkDocument {
  pageContent : string;
  metadata_source : string
}.

(** An uploaded [File]. *)
Record File : Type := mkFile {
  file_name : string;
  file_type : string;
  file_bytes : string
}.

(** The calls that leave the process: to the embedding service and to
    the chat-completion model. *)
Inductive Event : Type :=
| EmbedDocuments (texts : list string)
| EmbedQuery (text : string)
| ChatInvoke (prompt : string).

(** The libraries the route delegates to; they run in the process and
    are functions of their arguments: the PDF and DOCX extractors (which
    may throw), the UTF-8 decoder, the recursive splitter configured
    with [chunkSize: 1000] and [chunkOverlap: 200], and the similarity
    search of the store. *)
Record Library : Type := mkLibrary {
  pdf_parse : string -> Completion string;
  mammoth_extractRawText : string -> Completion string;
  toString_utf8 : string -> string;
  splitText : string -> list string;
  similaritySearch : list MemoryVector -> Vector -> nat -> list MemoryVector
}.

(** The remote capabilities: embeddings and chat completion. *)
Record Remote : Type := mkRemote {
  embedDocuments : list Event -> list string -> Completion (list Vector);
  embedQuery : list Event -> string -> Completion Vector;
  chat : list Event -> string -> Completion value
}.

(** The module-level variables [vectorStore] and [documentCount], with
    the environment and the remote calls made. *)
Record World : Type := mkWorld {
  env : Env;
  vectorStore : option (list MemoryVector);
  documentCount : nat;
  history : list Event
}.

Definition initial (e : Env) : World := mkWorld e None 0 [].

Definition record (e : Event) : M World unit :=
  modify (fun w => mkWorld (env w) (vectorStore w) (documentCount w)
                           (history w ++ [e])%list).

Inductive Data : Type :=
| Uploaded (filename : string) (chunkCount totalDocuments : nat) (message : string)
| Answered (question : string) (answer : value) (totalDocuments : nat)
| Cleared (message : string)
| Status (totalDocuments : nat) (hasDocuments : bool) (status : string).

(** A request: the [action] of the query string, and what
    [req.formData()] and [req.json()] deliver for its body: the [file]
    field of the form ([None]: no such field), the [question] field of
    the JSON body ([VUndefined]: missing), or a rejection. *)
Record Request : Type := mkRequest {
  action : option string;
  formData : Completion (option File);
  json_question : Completion value
}.

Definition string_of (v : value) : string :=
  match v with VStr s => s | _ => EmptyString end.

(** [action === name] *)
Definition action_is (action : option string) (name : string) : bool :=
  match action with
  | Some a => a =? name
  | None => false
  end.

(** The page contents of the documents, joined by an empty line. *)
Fixpoint formatDocumentsAsString (docs : list MemoryVector) : string :=
  match docs with
  | [] => EmptyString
  | [d] => content d
  | d :: rest => content d ++ "

" ++ formatDocumentsAsString rest
  end.

Definition ragPrompt (context question : string) : string :=
  "
Answer the question based only on the following context. If you cannot answer the question based on the context, say "
  ++ quoted "I don't have enough information in the provided documents to answer this question."
  ++ "

Context: " ++ context ++ "

Question: " ++ question ++ "

Answer:".

Section Handlers.
Variable library : Library.
Variable remote : Remote.

Definition extractTextFromFile (file : File) : M World string :=
  if file_type file =? "application/pdf" then
    lift (pdf_parse library (file_bytes file))
  else if file_type file =?
          "application/vnd.openxmlformats-officedocument.wordprocessingml.document" then
    lift (mammoth_extractRawText library (file_bytes file))
  else if file_type file =? "text/plain" then
    ret (toString_utf8 library (file_bytes file))
  else throw "Unsupported file type. Please upload PDF, DOCX, or TXT files.".

(** The embedding step shared by [MemoryVectorStore.fromDocuments] and
    [addDocuments]: the texts are embedded in one call, and the entries
    exist once the vectors are there. *)
Definition embed_entries (docs : list Document) : M World (list MemoryVector) :=
  w <- get ;;
  record (EmbedDocuments (List.map pageContent docs)) ;;;
  vectors <- lift (embedDocuments remote (history w) (List.map pageContent docs)) ;;
  ret (List.map (fun dv => mkMemoryVector (pageContent (fst dv)) (snd dv)
                                           (metadata_source (fst dv)))
                (List.combine docs vectors)).

Definition set_vectorStore (store : option (list MemoryVector)) : M World unit :=
  modify (fun w => mkWorld (env w) store (documentCount w) (history w)).

Definition set_documentCount (n : nat) : M World unit :=
  modify (fun w => mkWorld (env w) (vectorStore w) n (history w)).

Definition processDocument (text filename : string) : M World nat :=
  let docs := List.map (fun chunk => mkDocument chunk filename) (splitText library text) in
  w <- get ;;
  match vectorStore w with
  | None =>
      memoryVectors <- embed_entries docs ;;
      set_vectorStore (Some memoryVectors)
  | Some memoryVectors =>
      added <- embed_entries docs ;;
      set_vectorStore (Some (memoryVectors ++ added)%list)
  end ;;;
  w <- get ;;
  set_documentCount (documentCount w + 1) ;;;
  ret (List.length docs).

(** [OpenAIEmbeddings.embedQuery(text)]: the line breaks of the text are
    replaced with [text.replace] before the request is made, which
    throws for a value that has no such method. *)
Definition embedQuery_of (text : value) : M World Vector :=
  match text with
  | VStr s =>
      w <- get ;;
      record (EmbedQuery s) ;;;
      lift (embedQuery remote (history w) s)
  | VUndefined => throw "Cannot read properties of undefined (reading 'replace')"
  | VNull => throw "Cannot read properties of null (reading 'replace')"
  | _ => throw "text.replace is not a function"
  end.

(** [input.question] of the second entry of the map. *)
Definition question_of (input : value) : value :=
  match input with
  | VObj fields => assoc "question" fields
  | _ => VUndefined
  end.

(** [ragChain.invoke(input)].  The first step of the sequence is a map
    whose entries each get the input of the chain: the retriever takes
    it as its query and embeds it, and the documents it finds are
    formatted into the context; then the prompt is filled in and the
    chat model is called. *)
Definition ragChain_invoke (memoryVectors : list MemoryVector) (input : value)
  : M World value :=
  queryVector <- embedQuery_of input ;;
  let retrieved := similaritySearch library memoryVectors queryVector 4 in
  let prompt :=
    ragPrompt (formatDocumentsAsString retrieved) (string_of (question_of input)) in
  w' <- get ;;
  record (ChatInvoke prompt) ;;;
  lift (chat remote (history w') prompt).

(** [queryDocuments]: the chain is invoked with the object
    [{ question }]. *)
Definition queryDocuments (question : string) : M World value :=
  w <- get ;;
  match vectorStore w with
  | None => throw "No documents have been uploaded yet."
  | Some memoryVectors =>
      if not_configured (OPENROUTER_API_KEY (env w)) "your_openrouter_api_key_here"
      then throw "OpenRouter API key not configured"
      else ragChain_invoke memoryVectors (VObj [("question", VStr question)])
  end.

Definition POST (req : Request) : M World (Response Data) :=
  try_catch
    (let action := action req in
     if action_is action "upload" then
       file <- lift (formData req) ;;
       match file with
       | None => ret (json_error 400 "No file uploaded")
       | Some file =>
           text <- extractTextFromFile file ;;
           chunkCount <- processDocument text (file_name file) ;;
           w <- get ;;
           ret (json_data
                  (Uploaded (file_name file) chunkCount (documentCount w)
                     ("Successfully processed " ++ file_name file ++ " into "
                      ++ decimal chunkCount ++ " chunks.")))
       end
     else if action_is action "query" then
       question <- lift (json_question req) ;;
       if falsy question || negb (is_string question) then
         ret (json_error 400 "Question is required")
       else
         let question := string_of question in
         answer <- queryDocuments question ;;
         w <- get ;;
         ret (json_data (Answered question answer (documentCount w)))
     else if action_is action "clear" then
       set_vectorStore None ;;;
       set_documentCount 0 ;;;
       ret (json_data (Cleared "All documents cleared from memory."))
     else ret (json_error 400 "Invalid action"))
    (fun error => ret (json_error 500 ("Server error: " ++ error))).

Definition GET : M World (Response Data) :=
  w <- get ;;
  ret (json_data
         (Status (documentCount w)
                 (match vectorStore w with Some _ => true | None => false end)
                 (match vectorStore w with
                  | Some _ => "Ready to answer questions"
                  | None => "No documents uploaded"
                  end))).

(** The calls a client can make, and the server answering a sequence of
    them one after the other, each request answered before the next
    arrives ([Interleaved.run] takes the requests as they overlap). *)
Inductive Call : Type :=
| CallPOST (req : Request)
| CallGET.

Definition handler (c : Call) : M World (Response Data) :=
  match c with
  | CallPOST req => POST req
  | CallGET => GET
  end.

(** The framework answers 500 when a handler throws. *)
Definition answer (c : Call) (w : World) : Response Data * World :=
  match handler c w with
  | (Normal r, w') => (r, w')
  | (Throw _, w') => (plain_text 500 "Internal Server Error", w')
  end.

Fixpoint serve (calls : list Call) (w : World) : list (Response Data) * World :=
  match calls with
  | [] => ([], w)
  | c :: rest =>
      let (r, w') := answer c w in
      let (rs, w'') := serve rest w' in
      (r :: rs, w'')
  end.

End Handlers.

(** The entries of the store ([null] has none). *)
Definition entries (w : World) : list MemoryVector :=
  match vectorStore w with
  | Some memoryVectors => memoryVectors
  | None => []
  end.

(** The distinct [source] file names among the chunks of the store. *)
Definition sources (w : World) : list string :=
  match vectorStore w with
  | None => []
  | Some memoryVectors => List.nodup string_dec (List.map source memoryVectors)
  end.

End Rag.

(** ** Notions the properties are stated with *)

(** Word counting as the specification words it. *)
Module Words.
Import JS.

(** The number of words of a text: the maximal runs of code units that
    are not white space.  A run starts at a code unit that is not white
    space and follows white space or the start of the text. *)
Fixpoint word_starts (after_space : bool) (s : string) : nat :=
  match s with
  | EmptyString => 0
  | String c rest =>
      if isWhiteSpace c then word_starts true rest
      else (if after_space then 1 else 0) + word_starts false rest
  end.

Definition words (s : string) : nat := word_starts true s.

(** The test of the [filter] in [countWords]: [word.length > 0]. *)
Definition nonempty (word : string) : bool := (0 <? String.length word)%nat.

(** A text of [n] words: the word [w] and a space, [n] times. *)
Fixpoint repeat_word (w : string) (n : nat) : string :=
  match n with
  | O => EmptyString
  | S k => w ++ " " ++ repeat_word w k
  end.

End Words.

(** The fallback chain of the summarization route, candidate by
    candidate. *)
Module Chain.
Import JS Eff Http Summarize.

Inductive Candidate : Type :=
| HuggingFace (modelKey : string)
| Gemini.

(** The keys of [modelOrder] that pass the guard of the loop. *)
Definition guarded (modelOrder : list string) : list string :=
  List.filter (fun modelKey => truthy (HUGGINGFACE_MODELS modelKey)) modelOrder.

(** The candidates of a request in the order the handler reaches them:
    the guarded keys of [[model, "bart-cnn", "t5-small"]], then Gemini. *)
Definition candidates (model : string) : list Candidate :=
  (List.map HuggingFace (guarded [model; "bart-cnn"; "t5-small"]) ++ [Gemini])%list.

Definition attempt (remote : Remote) (text summaryType : string) (c : Candidate)
  : M World value :=
  match c with
  | HuggingFace modelKey => tryHuggingFaceSummarization remote text modelKey
  | Gemini => tryGeminiSummarization remote text summaryType
  end.

(** Attempts the candidates one after the other as long as each fails
    (returns a falsy value); [Some] of the final state when all of them
    failed. *)
Fixpoint all_fail (remote : Remote) (text summaryType : string)
  (cs : list Candidate) (w : World) : option World :=
  match cs with
  | [] => Some w
  | c :: rest =>
      match attempt remote text summaryType c w with
      | (Normal v, w') =>
          if truthy v then None else all_fail remote text summaryType rest w'
      | (Throw _, _) => None
      end
  end.

(** The state reached from [w] by recording [events]. *)
Definition after (w : World) (events : list Event) : World :=
  mkWorld (env w) (history w ++ events)%list.

(** The candidates a history shows as attempted, in order. *)
Fixpoint attempted (events : list Event) : list Candidate :=
  match events with
  | [] => []
  | TryHuggingFace modelKey :: rest => HuggingFace modelKey :: attempted rest
  | TryGemini _ :: rest => Gemini :: attempted rest
  | _ :: rest => attempted rest
  end.

(** The Hugging Face model keys a history shows as attempted. *)
Fixpoint attempted_models (events : list Event) : list string :=
  match events with
  | [] => []
  | TryHuggingFace modelKey :: rest => modelKey :: attempted_models rest
  | _ :: rest => attempted_models rest
  end.

(** The remote calls a history shows. *)
Fixpoint remote_calls (events : list Event) : nat :=
  match events with
  | [] => 0
  | FetchInference _ _ :: rest => S (remote_calls rest)
  | GenerateContent _ :: rest => S (remote_calls rest)
  | _ :: rest => remote_calls rest
  end.

(** The response data for a provider's summary. *)
Definition normalized (text providerSummary : string) : SummarizationResult :=
  {| originalText := text;
     summary := trim providerSummary;
     wordCount := countWords (trim providerSummary);
     compressionRatio := calculateCompressionRatio text (trim providerSummary) |}.

(** The [text] field passes the three checks of the handler. *)
Definition valid_text (v : value) : bool :=
  match v with
  | VStr s => negb (s =? EmptyString) && (50 <=? length s)%Z && (length s <=? 10000)%Z
  | _ => false
  end.

End Chain.

(** The candidate order as the specification words it: the preferred
    key first when it is a key of the table, every key of the table
    among the candidates, and none of them twice. *)
Module ClaimedOrder.
Import Summarize.

Definition holds (model : string) (tried : list string) : Prop :=
  (In model model_keys -> List.hd_error tried = Some model)
  /\ (forall key, In key model_keys -> In key tried)
  /\ NoDup tried.

End ClaimedOrder.

(** Concrete environments, texts and providers to run the handlers on. *)
Module Scenario.
Import JS Eff Http.

Definition env_configured : Env :=
  mkEnv (Some "hf_live_token") (Some "gemini_live_key") (Some "sk-or-live-key").

Definition env_empty : Env := mkEnv None None None.

(** One hundred words, twenty words. *)
Definition text100 : string := Words.repeat_word "lorem" 100.
Definition summary20 : string := Words.repeat_word "ipsum" 20.

(** The inference API is loading [bart-large-cnn] and serves [t5-small];
    Gemini is out of quota. *)
Definition t5_serves : Summarize.Remote :=
  Summarize.mkRemote
    (fun _ model _ =>
       match model with
       | VStr "t5-small" =>
           Summarize.Json (VArr [VObj [("summary_text", VStr summary20)]])
       | _ => Summarize.HttpError "Model is currently loading"
       end)
    (fun _ _ => Summarize.GeminiRejects "429 Too Many Requests").

(** Every provider is down. *)
Definition all_down : Summarize.Remote :=
  Summarize.mkRemote
    (fun _ _ _ => Summarize.HttpError "Service Unavailable")
    (fun _ _ => Summarize.GeminiRejects "fetch failed").

Definition summarize_request (model : option string) : Summarize.Request :=
  Summarize.Parsed (Summarize.mkInput (VStr text100) model None).

Definition summarize_world (e : Env) : Summarize.World := Summarize.mkWorld e [].

(** Local libraries: the extractors reject their input, a text is one
    chunk, and the search returns the first [k] entries. *)
Definition one_chunk : Rag.Library :=
  Rag.mkLibrary
    (fun _ => Throw "Invalid PDF structure")
    (fun _ => Throw "Could not find the body element")
    (fun bytes => bytes)
    (fun text => [text])
    (fun memoryVectors _ k => List.firstn k memoryVectors).

(** Embeddings and chat completion are up. *)
Definition rag_up : Rag.Remote :=
  Rag.mkRemote
    (fun _ texts => Normal (List.map (fun _ => [1%float; 0%float]) texts))
    (fun _ _ => Normal [1%float; 0%float])
    (fun _ _ => Normal (VStr "The notes say so.")).

Definition upload_request (name type bytes : string) : Rag.Request :=
  Rag.mkRequest (Some "upload")
    (Normal (Some (Rag.mkFile name type bytes)))
    (Throw "Unexpected token - in JSON at position 0").

Definition query_request (question : string) : Rag.Request :=
  Rag.mkRequest (Some "query")
    (Throw "Content-Type was not one of multipart/form-data")
    (Normal (VStr question)).

Definition clear_request : Rag.Request :=
  Rag.mkRequest (Some "clear")
    (Throw "Content-Type was not one of multipart/form-data")
    (Throw "Unexpected end of JSON input").

(** A process with one chunk in the store and no credential. *)
Definition loaded_without_key : Rag.World :=
  Rag.mkWorld env_empty
    (Some [Rag.mkMemoryVector "Meeting notes of Monday." [1%float; 0%float] "notes.txt"])
    1 [].

Definition notes : Rag.Call :=
  Rag.CallPOST (upload_request "notes.txt" "text/plain" "Meeting notes of Monday.").

(** The conversation chain streams three chunks, one of them empty. *)
Definition chat_up : ChatEnhanced.Remote :=
  ChatEnhanced.mkRemote
    (fun _ _ _ _ => Normal (ChatEnhanced.mkScript ["Hel"; EmptyString; "lo"] None)).

Definition no_messages : ChatEnhanced.Request :=
  ChatEnhanced.Parsed (ChatEnhanced.mkInput (VArr []) None None).

Definition chat_world (e : Env) : ChatEnhanced.World := ChatEnhanced.mkWorld e [] [].

(** The classification providers are down; [JSON.parse] and the
    shaping of results never get anything to work on. *)
Definition classify_down : Classify.Remote :=
  Classify.mkRemote
    (fun _ _ _ _ => Classify.HttpError "Service Unavailable")
    (fun _ _ => Classify.GeminiRejects "fetch failed").

Definition parse_nothing : string -> Completion value :=
  fun _ => Throw "Unexpected end of JSON input".

Definition shape_nothing : string -> value -> Completion Classify.ClassificationResult :=
  fun _ _ => Throw "Cannot read properties of undefined (reading 'label')".

Definition sentiment_request : Classify.Request :=
  Classify.Parsed
    (Classify.mkInput (VStr "What a wonderful day!") (Some "sentiment-analysis") None).

Definition classify_world (e : Env) : Classify.World := Classify.mkWorld e [].

(** The Q&A chain answers. *)
Definition qa_up : QnA.Remote :=
  QnA.mkRemote (fun _ _ _ => Normal (VStr "Forty-two.")).

Definition qa_request : QnA.Request :=
  QnA.Parsed (QnA.mkInput (VStr "What is the answer?") VUndefined).

Definition qa_world (e : Env) : QnA.World := QnA.mkWorld e [].

End Scenario.

(** The ingestions a client has seen succeed since the last clear. *)
Module Ledger.
Import JS Eff Http Rag.

Definition is_clear (c : Call) : bool :=
  match c with
  | CallPOST req => action_is (action req) "clear"
  | CallGET => false
  end.

Definition is_upload (c : Call) : bool :=
  match c with
  | CallPOST req => action_is (action req) "upload"
  | CallGET => false
  end.

(** The response reports a processed file. *)
Definition upload_succeeded (r : Response Data) : bool :=
  match body r with
  | JsonData (Uploaded _ _ _ _) => true
  | _ => false
  end.

(** Starting from [count], one more for every successful upload and
    back to zero at every clear, along the calls and their responses. *)
Fixpoint ingested (count : nat) (trace : list (Call * Response Data)) : nat :=
  match trace with
  | [] => count
  | (c, r) :: rest =>
      ingested (if is_clear c then 0
                else if upload_succeeded r then count + 1 else count) rest
  end.

End Ledger.

(** The files a client has seen processed since the last clear. *)
Module Provenance.
Import JS Eff Http Rag.

(** The file name an upload response reports. *)
Definition reported_name (r : Response Data) : option string :=
  match body r with
  | JsonData (Uploaded filename _ _ _) => Some filename
  | _ => None
  end.

(** Starting from [names], the name of every processed file is added
    and a clear forgets them all, along the calls and their responses. *)
Fixpoint uploaded (names : list string) (trace : list (Call * Response Data))
  : list string :=
  match trace with
  | [] => names
  | (c, r) :: rest =>
      uploaded (if Ledger.is_clear c then []
                else match reported_name r with
                     | Some filename => (names ++ [filename])%list
                     | None => names
                     end) rest
  end.

End Provenance.

(** ** The document route under interleaved requests

    A handler runs until it awaits a remote call, and other requests are
    handled while it waits.  An upload is the one request that waits
    with the state in its hands: [processDocument] reads [vectorStore],
    awaits the embedding of the chunks, and writes [vectorStore] and
    [documentCount] when the vectors are there.  The other requests
    read and write the state without a remote call in between. *)
Module Interleaved.
Import JS Eff Http Rag.

(** The store object an upload adds its chunks to: the new one of
    [MemoryVectorStore.fromDocuments], which is assigned to
    [vectorStore] afterwards, or the one [vectorStore] referred to when
    [addDocuments] was called.  A store object is identified by the
    order of its creation. *)
Inductive Target : Type :=
| Fresh (object : nat)
| Existing (object : nat).

(** An upload suspended at the embedding call: its file, the documents
    of the splitter, the store object, and what the call delivers. *)
Record Pending : Type := mkPending {
  file : File;
  docs : list Document;
  target : Target;
  reply : Completion (list Vector)
}.

(** The process: the module-level state, the object [vectorStore]
    refers to (when it is not [null]), the number of store objects
    created so far, and the suspended uploads. *)
Record System : Type := mkSystem {
  world : World;
  object : nat;
  objects : nat;
  pending : list Pending
}.

Definition start (e : Env) : System := mkSystem (initial e) 0 0 [].

(** What a client does to the process: a request arrives, or the
    embedding call of the [i]-th suspended upload returns. *)
Inductive Action : Type :=
| Arrive (c : Call)
| Complete (i : nat).

Fixpoint remove_nth {A} (i : nat) (l : list A) : list A :=
  match l, i with
  | [], _ => []
  | _ :: rest, O => rest
  | a :: rest, S j => a :: remove_nth j rest
  end.

Section Handlers.
Variable library : Library.
Variable remote : Remote.

(** [processDocument] up to its [await]: the documents are made, the
    store object is chosen by [if (!vectorStore)] and the embedding call
    is on its way. *)
Definition suspend (f : File) (text : string) (s : System) : System :=
  let docs := List.map (fun chunk => mkDocument chunk (file_name f))
                       (splitText library text) in
  let w := world s in
  let texts := List.map pageContent docs in
  let called := mkWorld (env w) (vectorStore w) (documentCount w)
                        (history w ++ [EmbedDocuments texts])%list in
  let reply := embedDocuments remote (history w) texts in
  match vectorStore w with
  | None =>
      mkSystem called (object s) (S (objects s))
               (pending s ++ [mkPending f docs (Fresh (objects s)) reply])%list
  | Some _ =>
      mkSystem called (object s) (objects s)
               (pending s ++ [mkPending f docs (Existing (object s)) reply])%list
  end.

(** A request arrives: an upload runs up to the embedding call, any
    other request runs to its response. *)
Definition arrive (c : Call) (s : System) : option (Response Data) * System :=
  match c with
  | CallPOST req =>
      if action_is (action req) "upload" then
        match formData req with
        | Normal (Some f) =>
            match fst (extractTextFromFile library f (world s)) with
            | Normal text => (None, suspend f text s)
            | Throw e => (Some (json_error 500 ("Server error: " ++ e)), s)
            end
        | Normal None => (Some (json_error 400 "No file uploaded"), s)
        | Throw e => (Some (json_error 500 ("Server error: " ++ e)), s)
        end
      else
        let (r, w') := answer library remote c (world s) in
        (Some r, mkSystem w' (object s) (objects s) (pending s))
  | CallGET =>
      let (r, w') := answer library remote c (world s) in
      (Some r, mkSystem w' (object s) (objects s) (pending s))
  end.

(** [processDocument] from its [await] on, and the response of the
    upload.  The vectors go into the store object of the upload, which
    [vectorStore] may no longer refer to; a new object is assigned to
    [vectorStore]; then [documentCount] is read and written. *)
Definition resume (p : Pending) (s : System) : Response Data * System :=
  let w := world s in
  match reply p with
  | Throw e => (json_error 500 ("Server error: " ++ e), s)
  | Normal vectors =>
      let added := List.map (fun dv => mkMemoryVector (pageContent (fst dv)) (snd dv)
                                                      (metadata_source (fst dv)))
                            (List.combine (docs p) vectors) in
      let store :=
        match target p with
        | Fresh o => (Some added, o)
        | Existing o =>
            match vectorStore w with
            | Some memoryVectors =>
                if (object s =? o)%nat then (Some (memoryVectors ++ added)%list, o)
                else (Some memoryVectors, object s)
            | None => (None, object s)
            end
        end in
      let total := documentCount w + 1 in
      (json_data
         (Uploaded (file_name (file p)) (List.length (docs p)) total
            ("Successfully processed " ++ file_name (file p) ++ " into "
             ++ decimal (List.length (docs p)) ++ " chunks.")),
       mkSystem (mkWorld (env w) (fst store) total (history w)) (snd store)
                (objects s) (pending s))
  end.

Definition step (a : Action) (s : System) : option (Response Data) * System :=
  match a with
  | Arrive c => arrive c s
  | Complete i =>
      match List.nth_error (pending s) i with
      | Some p =>
          let (r, s') := resume p (mkSystem (world s) (object s) (objects s)
                                            (remove_nth i (pending s))) in
          (Some r, s')
      | None => (None, s)
      end
  end.

(** The actions of a schedule with what each is answered with. *)
Fixpoint log (schedule : list Action) (s : System)
  : list (Action * option (Response Data)) :=
  match schedule with
  | [] => []
  | a :: rest => let (r, s') := step a s in (a, r) :: log rest s'
  end.

(** The responses of a schedule, in the order they are given. *)
Fixpoint run (schedule : list Action) (s : System) : list (Response Data) * System :=
  match schedule with
  | [] => ([], s)
  | a :: rest =>
      let (r, s') := step a s in
      let (rs, s'') := run rest s' in
      (match r with Some r => r :: rs | None => rs end, s'')
  end.

End Handlers.

(** The schedule that takes the calls one after the other. *)
Definition sequential (calls : list Call) : list Action :=
  List.flat_map (fun c => [Arrive c; Complete 0]) calls.

(** Starting from [count], one more for every upload answered with
    success and back to zero at every clear, along the actions of a
    schedule and what each was answered with. *)
Fixpoint counted (count : nat) (answered : list (Action * option (Response Data))) : nat :=
  match answered with
  | [] => count
  | (a, r) :: rest =>
      counted
        (if match a with Arrive c => Ledger.is_clear c | Complete _ => false end then 0
         else if match r with Some r => Ledger.upload_succeeded r | None => false end
              then count + 1 else count)
        rest
  end.

End Interleaved.

(** Notions for the properties of the Q&A, summarization and
    classification routes. *)
Module Notions.
Import JS Eff Http.

(** The [context] the Q&A handler works with: the one sent, or the
    empty string. *)
Definition context_or_empty (input : QnA.Input) : value :=
  match QnA.input_context input with
  | VUndefined => VStr EmptyString
  | c => c
  end.

(** A provider value that, when truthy, is a string. *)
Definition string_if_truthy (v : value) : Prop :=
  truthy v = true -> is_string v = true.

(** The text has no backtick. *)
Fixpoint no_backtick (s : string) : bool :=
  match s with
  | EmptyString => true
  | String c rest => negb (Ascii.eqb c "`") && no_backtick rest
  end.

(** The model keys for which [tryGeminiClassification] has a prompt. *)
Definition gemini_classifies (model : string) (customLabels : option (list string)) : bool :=
  (model =? "sentiment-analysis")
  || ((model =? "topic-classification")
      && match customLabels with Some _ => true | None => false end)
  || (model =? "emotion-detection").

End Notions.

(** ** The shaping of a classification result (the [if]/[else] chain of
    [api/classify/route.ts] that builds [normalizedResult]) *)
Module Shape.
Import JS Eff.

(** The object literals the chain builds; a label is whatever value the
    provider sent. *)
Record Category : Type := mkCategory {
  name : value;
  score : float
}.

Record Result : Type := mkResult {
  label : value;
  confidence : float;
  categories : list Category
}.

Definition and_then {A B} (c : Completion A) (k : A -> Completion B) : Completion B :=
  match c with
  | Normal a => k a
  | Throw e => Throw e
  end.

(** [v[i]] for a value that came out of [JSON.parse]. *)
Definition index (v : value) (i : nat) : Completion value :=
  match v with
  | VUndefined =>
      Throw ("Cannot read properties of undefined (reading '" ++ decimal i ++ "')")
  | VNull =>
      Throw ("Cannot read properties of null (reading '" ++ decimal i ++ "')")
  | VArr elems => Normal (List.nth i elems VUndefined)
  | VStr s =>
      Normal (match String.get i s with
              | Some c => VStr (String c EmptyString)
              | None => VUndefined
              end)
  | VObj fields => Normal (assoc (decimal i) fields)
  | VBool _ | VNum _ | VNative _ => Normal VUndefined
  end.

(** [v.key] for a key that no prototype defines. *)
Definition member (v : value) (key : string) : Completion value :=
  match v with
  | VUndefined =>
      Throw ("Cannot read properties of undefined (reading '" ++ key ++ "')")
  | VNull =>
      Throw ("Cannot read properties of null (reading '" ++ key ++ "')")
  | VObj fields => Normal (assoc key fields)
  | _ => Normal VUndefined
  end.

(** [classificationResult.flat()]: one level of nesting is removed. *)
Definition flat (v : value) : Completion (list value) :=
  match v with
  | VArr elems =>
      Normal (List.flat_map (fun e => match e with
                                      | VArr inner => inner
                                      | other => [other]
                                      end) elems)
  | VUndefined => Throw "Cannot read properties of undefined (reading 'flat')"
  | VNull => Throw "Cannot read properties of null (reading 'flat')"
  | _ => Throw "classificationResult.flat is not a function"
  end.

(** [array.map(callback)] with a callback that may throw; the callback
    gets the element and its index. *)
Fixpoint map_from {A B} (callback : A -> nat -> Completion B) (i : nat) (l : list A)
  : Completion (list B) :=
  match l with
  | [] => Normal []
  | a :: rest =>
      and_then (callback a i) (fun b =>
      and_then (map_from callback (S i) rest) (fun bs =>
      Normal (b :: bs)))
  end.

Section Block.

(** ToNumber, the conversion behind [*]; the properties below only use
    what it does to a Number. *)
Variable ToNumber : value -> Completion float.

(** [Math.round(v * 100)] *)
Definition percent (v : value) : Completion float :=
  and_then (ToNumber v) (fun x => Normal (Math_round (x * 100)%float)).

(** The branch for [sentiment-analysis] and the final [else]. *)
Definition shape_label_list (classificationResult : value) : Completion Result :=
  and_then (if isArray classificationResult
            then and_then (index classificationResult 0) (fun first => index first 0)
            else index classificationResult 0) (fun topResult =>
  and_then (member topResult "label") (fun label =>
  and_then (member topResult "score") (fun topScore =>
  and_then (percent topScore) (fun confidence =>
  and_then (flat classificationResult) (fun flattened =>
  and_then (map_from (fun c _ =>
              and_then (member c "label") (fun name =>
              and_then (member c "score") (fun score =>
              and_then (percent score) (fun rounded =>
              Normal (mkCategory name rounded)))))
              0 flattened) (fun categories =>
  Normal (mkResult label confidence categories))))))).

(** The branch for [topic-classification]. *)
Definition shape_topic (classificationResult : value) : Completion Result :=
  and_then (member classificationResult "labels") (fun labels =>
  and_then (index labels 0) (fun label =>
  and_then (member classificationResult "scores") (fun scores =>
  and_then (index scores 0) (fun topScore =>
  and_then (percent topScore) (fun confidence =>
  and_then (match labels with
            | VArr elems =>
                map_from (fun label index_ =>
                  and_then (index scores index_) (fun score =>
                  and_then (percent score) (fun rounded =>
                  Normal (mkCategory label rounded))))
                  0 elems
            | _ => Throw "classificationResult.labels.map is not a function"
            end) (fun categories =>
  Normal (mkResult label confidence categories))))))).

Definition normalizedResult (model : string) (classificationResult : value)
  : Completion Result :=
  if model =? "sentiment-analysis" then shape_label_list classificationResult
  else if model =? "topic-classification" then shape_topic classificationResult
  else shape_label_list classificationResult.

End Block.

(** The Number behind the [score] of a label object. *)
Definition score_of (fields : list (string * value)) : float :=
  match assoc "score" fields with
  | VNum x => x
  | _ => PrimFloat.nan
  end.

(** The category of a label object. *)
Definition category_of (fields : list (string * value)) : Category :=
  mkCategory (assoc "label" fields) (Math_round (score_of fields * 100)%float).

(** The label object has a Number as score. *)
Definition has_number_score (fields : list (string * value)) : Prop :=
  exists x, assoc "score" fields = VNum x.

End Shape.

(** ** The compression ratio over the word counts a request can have *)
Module Percent.
Import JS.

(** A text of at most 10,000 code units has at most 5,000 words. *)
Definition max_words : nat := Z.to_nat 5000.

(** A word count as a machine integer. *)
Definition int_of (n : nat) : int := Uint63.of_Z (Z.of_nat n).

(** What [calculateCompressionRatio] computes from the two word counts. *)
Definition ratio (originalWords summaryWords : int) : float :=
  Math_round ((1 - PrimFloat.of_uint63 summaryWords / PrimFloat.of_uint63 originalWords)
              * 100)%float.

(** [k] is an integer percentage at most 100 and nearest to
    [100 * (o - s) / o]: twice the distance is at most one, that is
    [|200 * (o - s) - 2 * o * k| <= o]. *)
Definition nearest (o s k : int) : bool :=
  ((k <=? 100) && (2 * o * k <=? 200 * (o - s) + o)
   && (200 * (o - s) <=? 2 * o * k + o))%uint63.

(** The ratio for [o] and [s] is a nearest percentage: the rounded-up
    quotient, or the integer below it. *)
Definition ok (o s : int) : bool :=
  let r := ratio o s in
  let k := ((200 * (o - s) + o) / (2 * o))%uint63 in
  (PrimFloat.Leibniz.eqb r (PrimFloat.of_uint63 k) && nearest o s k)
  || (PrimFloat.Leibniz.eqb r (PrimFloat.of_uint63 (k - 1)%uint63)
      && (1 <=? k)%uint63 && nearest o s (k - 1)%uint63).

(** [ok] for the summary counts [s], [s - 1], ..., [s - n]. *)
Fixpoint check_upto (n : nat) (s o : int) : bool :=
  ok o s && match n with
            | O => true
            | S m => check_upto m (s - 1)%uint63 o
            end.

(** [ok] for the original counts [o], [o - 1], ..., [o - n + 1] and
    every summary count up to the original one. *)
Fixpoint check_all (n : nat) (o : int) : bool :=
  match n with
  | O => true
  | S m => check_upto n o o && check_all m (o - 1)%uint63
  end.

End Percent.

(** ** Further concrete services and requests *)
Module Cases.
Import JS Eff Http.

(** The first message of session [s1], for the developer persona, and
    the response it gets when the chain streams. *)
Definition greeting : ChatEnhanced.Input :=
  ChatEnhanced.mkInput (VArr [VObj [("role", VStr "user"); ("content", VStr "Hi")]])
    (Some ChatEnhanced.developer) (Some "s1").

Definition greeting_response : Response unit :=
  plain_text 500
    "Error: Cannot convert argument to a ByteString because the character at index 0 has a value of 55357 which is greater than 255.".

(** A body whose [messages] is a string. *)
Definition messages_as_text : ChatEnhanced.Input :=
  ChatEnhanced.mkInput (VStr "Hi") None None.

(** The embeddings and the chat model are over quota. *)
Definition embeddings_down : Rag.Remote :=
  Rag.mkRemote
    (fun _ _ => Throw "429 Too Many Requests")
    (fun _ _ => Throw "429 Too Many Requests")
    (fun _ _ => Throw "429 Too Many Requests").

Definition picture : Rag.File := Rag.mkFile "photo.png" "image/png" "PNG".

Definition notes_file : Rag.File :=
  Rag.mkFile "notes.txt" "text/plain" "Meeting notes of Monday.".

Definition notes_entry : Rag.MemoryVector :=
  Rag.mkMemoryVector "Meeting notes of Monday." [1%float; 0%float] "notes.txt".

(** A process with one chunk in the store and every credential. *)
Definition loaded : Rag.World :=
  Rag.mkWorld Scenario.env_configured (Some [notes_entry]) 1 [].

(** A Q&A body without a question, and the answer to the one of
    [Scenario.qa_request]. *)
Definition no_question : QnA.Input := QnA.mkInput VUndefined VUndefined.

Definition the_question : QnA.Input :=
  QnA.mkInput (VStr "What is the answer?") VUndefined.

Definition the_answer : Response QnA.QnAResult :=
  json_data (QnA.mkResult "What is the answer?" (VStr "Forty-two.") (VStr EmptyString) 95).

(** Only the Gemini key is configured. *)
Definition env_gemini_only : Env := mkEnv None (Some "gemini_live_key") None.

Definition long_text : Summarize.Input :=
  Summarize.mkInput (VStr Scenario.text100) None None.

(** The inference API is down and Gemini summarizes. *)
Definition gemini_serves : Summarize.Remote :=
  Summarize.mkRemote
    (fun _ _ _ => Summarize.HttpError "Service Unavailable")
    (fun _ _ => Summarize.GeminiText Scenario.summary20).

(** The inference API summarizes with every model. *)
Definition bart_serves : Summarize.Remote :=
  Summarize.mkRemote
    (fun _ _ _ => Summarize.Json (VArr [VObj [("summary_text", VStr Scenario.summary20)]]))
    (fun _ _ => Summarize.GeminiRejects "fetch failed").

(** The label objects of a sentiment model, and its nested answer. *)
Definition positive : list (string * value) :=
  [("label", VStr "positive"); ("score", VNum 0.875%float)].

Definition neutral : list (string * value) :=
  [("label", VStr "neutral"); ("score", VNum 0.125%float)].

Definition sentiment_scores : value := VArr [VArr [VObj positive; VObj neutral]].

(** The answer of a zero-shot model. *)
Definition topic_scores : list (string * value) :=
  [("sequence", VStr "The match went to extra time.");
   ("labels", VArr [VStr "sports"; VStr "politics"]);
   ("scores", VArr [VNum 0.75%float; VNum 0.25%float])].

Definition sentiment_up : Classify.Remote :=
  Classify.mkRemote
    (fun _ _ _ _ => Classify.Json sentiment_scores)
    (fun _ _ => Classify.GeminiRejects "fetch failed").

Definition sentiment_input : Classify.Input :=
  Classify.mkInput (VStr "What a wonderful day!") (Some "sentiment-analysis") None.

(** A topic request without custom labels. *)
Definition zero_shot : Classify.Input :=
  Classify.mkInput (VStr "The match went to extra time.") (Some "topic-classification") None.

(** Gemini answers in the format its prompt asks for, inside a fence. *)
Definition gemini_answer : string :=
  "```json
" ++ Classify.label_score_format "positive" ++ "```".

Definition gemini_only : Classify.Remote :=
  Classify.mkRemote
    (fun _ _ _ _ => Classify.HttpError "Service Unavailable")
    (fun _ _ => Classify.GeminiText gemini_answer).

(** [JSON.parse] on that answer; [0.99] is read as the nearest double. *)
#[local] Set Warnings "-inexact-float".
Definition parsed_answer : list (string * value) :=
  [("label", VStr "positive"); ("score", VNum 0.99%float)].
#[local] Set Warnings "+inexact-float".

Definition parse_answer : string -> Completion value :=
  fun s =>
    if s =? Classify.label_score_format "positive"
    then Normal (VObj parsed_answer)
    else Throw "Unexpected token in JSON".

(** ToNumber of a Number; NaN stands in for every other value. *)
Definition numbers_only : value -> Completion float :=
  fun v => match v with
           | VNum x => Normal x
           | _ => Normal PrimFloat.nan
           end.

(** The shaping block for providers whose labels are strings. *)
Definition typed_shape : string -> value -> Completion Classify.ClassificationResult :=
  fun model result =>
    match Shape.normalizedResult numbers_only model result with
    | Normal r =>
        Normal (Classify.mkResult
                  (Classify.string_of (Shape.label r)) (Shape.confidence r)
                  (List.map (fun c => Classify.mkCategory
                                        (Classify.string_of (Shape.name c)) (Shape.score c))
                            (Shape.categories r)))
    | Throw e => Throw e
    end.

End Cases.

(** * Properties *)

(** ** Numbers *)
Module NumberFacts.
Import JS.

(** [Math.round] rounds ties towards +infinity and keeps the sign of
    zero. *)
Example Math_round_ties :
  List.map Math_round [2.5; -2.5; 0.5; -0.5; 1.5; -1.5; 0.25; -0.75; 7; -0]%float
  = [3; -2; 1; -0; 2; -1; 0; -1; 7; -0]%float.
Proof. vm_compute. reflexivity. Qed.

Example Math_round_not_finite :
  List.map Math_round [PrimFloat.nan; PrimFloat.infinity; PrimFloat.neg_infinity]
  = [PrimFloat.nan; PrimFloat.infinity; PrimFloat.neg_infinity].
Proof. vm_compute. reflexivity. Qed.

End NumberFacts.

(** ** Word counts *)
Module WordFacts.
Import JS Words.

Lemma split_from_cons (in_sep : bool) (s : string) :
  exists field fields, split_from in_sep s = field :: fields.
Proof.
  revert in_sep. induction s as [|c rest IH]; intros in_sep; simpl.
  - eauto.
  - destruct (isWhiteSpace c).
    + destruct in_sep; eauto.
    + destruct (IH false) as (f & fs & ->). eauto.
Qed.

(** The first field of a split is empty exactly when the text is empty
    or starts with white space. *)
Lemma first_field_nonempty (s : string) :
  match split_from false s with
  | field :: _ =>
      nonempty field =
      match s with
      | EmptyString => false
      | String c _ => negb (isWhiteSpace c)
      end
  | [] => False
  end.
Proof.
  destruct s as [|c rest]; simpl; [reflexivity|].
  destruct (isWhiteSpace c); simpl; [reflexivity|].
  destruct (split_from_cons false rest) as (f & fs & ->). reflexivity.
Qed.

Lemma word_starts_true_false (s : string) :
  word_starts true s =
  (match s with
   | EmptyString => 0
   | String c _ => if isWhiteSpace c then 0 else 1
   end) + word_starts false s.
Proof.
  destruct s as [|c rest]; simpl; [reflexivity|].
  destruct (isWhiteSpace c); reflexivity.
Qed.

(** Counting the non-empty fields of a split counts the words. *)
Lemma nonempty_fields (in_sep : bool) (s : string) :
  List.length (List.filter nonempty (split_from in_sep s)) = words s.
Proof.
  unfold words. revert in_sep.
  induction s as [|c rest IH]; intros in_sep; [reflexivity|].
  simpl. destruct (isWhiteSpace c) eqn:Hc.
  - destruct in_sep; simpl; apply IH.
  - specialize (IH false).
    pose proof (first_field_nonempty rest) as Hf.
    destruct (split_from false rest) as [|f fs]; [contradiction|].
    simpl in IH |- *.
    rewrite (word_starts_true_false rest) in IH.
    destruct rest as [|c' rest']; simpl in *.
    + rewrite Hf in IH. simpl in IH. lia.
    + rewrite Hf in IH. destruct (isWhiteSpace c'); simpl in IH; lia.
Qed.

Lemma words_trimStart (s : string) : words (trimStart s) = words s.
Proof.
  unfold words. induction s as [|c rest IH]; [reflexivity|].
  simpl. destruct (isWhiteSpace c) eqn:Hc; [exact IH|].
  simpl. rewrite Hc. reflexivity.
Qed.

Lemma word_starts_trimEnd (b : bool) (s : string) :
  word_starts b (trimEnd s) = word_starts b s.
Proof.
  revert b. induction s as [|c rest IH]; intros b; [reflexivity|].
  simpl. destruct (trimEnd rest) as [|c' r] eqn:Hr.
  - destruct (isWhiteSpace c) eqn:Hc; simpl.
    + rewrite <- IH. reflexivity.
    + rewrite Hc, <- IH. reflexivity.
  - simpl. destruct (isWhiteSpace c); rewrite <- IH; reflexivity.
Qed.

Lemma words_trim (s : string) : words (trim s) = words s.
Proof.
  unfold trim, words. rewrite word_starts_trimEnd. apply words_trimStart.
Qed.

(** [countWords] counts the words of the text. *)
Lemma countWords_words (s : string) : Summarize.countWords s = words s.
Proof.
  unfold Summarize.countWords, split_whitespace.
  change (fun word => (0 <? String.length word)%nat) with nonempty.
  rewrite nonempty_fields. apply words_trim.
Qed.

Lemma trimEnd_idempotent (s : string) : trimEnd (trimEnd s) = trimEnd s.
Proof.
  induction s as [|c rest IH]; [reflexivity|].
  simpl. destruct (trimEnd rest) as [|c' r] eqn:Hr.
  - destruct (isWhiteSpace c) eqn:Hc; simpl; [reflexivity|]. rewrite Hc. reflexivity.
  - simpl. simpl in IH. rewrite IH. reflexivity.
Qed.

Lemma trimEnd_cons_nonspace (c : ascii) (s : string) :
  isWhiteSpace c = false -> exists r, trimEnd (String c s) = String c r.
Proof.
  intros Hc. simpl. rewrite Hc. destruct (trimEnd s); eauto.
Qed.

(** Trimming the end of a text that starts with a word leaves the start
    alone. *)
Lemma trimStart_trimEnd (s : string) :
  trimStart (trimEnd (trimStart s)) = trimEnd (trimStart s).
Proof.
  induction s as [|c rest IH]; [reflexivity|].
  cbn [trimStart]. destruct (isWhiteSpace c) eqn:Hc; [exact IH|].
  destruct (trimEnd_cons_nonspace c rest Hc) as (r & ->).
  cbn [trimStart]. rewrite Hc. reflexivity.
Qed.

End WordFacts.

(** ** The summarization route *)
Module SummarizeFacts.
Import JS Eff Http Summarize Chain.

#[local] Arguments String.append : simpl never.

Ltac run_eff :=
  unfold tryHuggingFaceSummarization, tryGeminiSummarization, callHuggingFaceAPI,
    fetch_inference, generateContent, summary_trim, record,
    bind, ret, throw, try_catch, get, modify, lift in *;
  cbn [fst snd env history] in *.

Ltac run_monad :=
  unfold bind, ret, throw, try_catch, get, modify, lift in *.

Ltac tidy_history := repeat rewrite <- app_assoc; cbn [app].

Lemma after_nil (w : World) : after w [] = w.
Proof. destruct w. unfold after. cbn. rewrite app_nil_r. reflexivity. Qed.

Lemma after_after (w : World) (e1 e2 : list Event) :
  after (after w e1) e2 = after w (e1 ++ e2).
Proof. unfold after. cbn. rewrite app_assoc. reflexivity. Qed.

Lemma attempted_app (e1 e2 : list Event) :
  attempted (e1 ++ e2) = (attempted e1 ++ attempted e2)%list.
Proof.
  induction e1 as [|e rest IH]; [reflexivity|].
  destruct e; cbn; rewrite ?IH; reflexivity.
Qed.

Lemma attempted_models_app (e1 e2 : list Event) :
  attempted_models (e1 ++ e2) = (attempted_models e1 ++ attempted_models e2)%list.
Proof.
  induction e1 as [|e rest IH]; [reflexivity|].
  destruct e; cbn; rewrite ?IH; reflexivity.
Qed.

Lemma remote_calls_app (e1 e2 : list Event) :
  remote_calls (e1 ++ e2) = remote_calls e1 + remote_calls e2.
Proof.
  induction e1 as [|e rest IH]; [reflexivity|].
  destruct e; cbn; rewrite ?IH; reflexivity.
Qed.

Section WithRemote.
Variable remote : Remote.

(** A Hugging Face attempt returns normally whatever happens inside:
    a thrown exception is logged and becomes [null]. *)
Lemma tryHuggingFace_caught (text modelKey : string) (w : World) :
  exists v events,
    tryHuggingFaceSummarization remote text modelKey w = (Normal v, after w events)
    /\ attempted events = [HuggingFace modelKey]
    /\ attempted_models events = [modelKey]
    /\ (not_configured (HUGGINGFACE_API_TOKEN (env w)) "your_huggingface_token_here" = true ->
        v = VNull /\ remote_calls events = 0).
Proof.
  unfold after. run_eff.
  destruct (not_configured _ _) eqn:Htoken; cbn.
  - eexists _, [_; _]. tidy_history. repeat split; reflexivity.
  - destruct (inference remote _ _ _) as [e|bodyText|result]; cbn.
    + eexists _, [_; _; _]. tidy_history. repeat split; try reflexivity; discriminate.
    + eexists _, [_; _; _]. tidy_history. repeat split; try reflexivity; discriminate.
    + destruct (isArray result && truthy (opt_member (first_elem result) "summary_text"));
        [|destruct (isArray result && truthy (opt_member (first_elem result) "generated_text"));
          [|destruct (is_string result)]]; cbn.
      * eexists _, [_; _]. tidy_history. repeat split; try reflexivity; discriminate.
      * eexists _, [_; _]. tidy_history. repeat split; try reflexivity; discriminate.
      * eexists _, [_; _]. tidy_history. repeat split; try reflexivity; discriminate.
      * eexists _, [_; _; _]. tidy_history. repeat split; try reflexivity; discriminate.
Qed.

Lemma tryGemini_caught (text summaryType : string) (w : World) :
  exists v events,
    tryGeminiSummarization remote text summaryType w = (Normal v, after w events)
    /\ attempted events = [Gemini]
    /\ attempted_models events = []
    /\ (v = VNull \/ exists t, v = VStr t)
    /\ (not_configured (GOOGLE_GEMINI_API_KEY (env w)) "your_gemini_api_key_here" = true ->
        v = VNull /\ remote_calls events = 0).
Proof.
  unfold after. run_eff.
  destruct (not_configured _ _) eqn:Hkey; cbn.
  - eexists _, [_; _]. tidy_history. repeat split; auto.
  - destruct (gemini remote _ _) as [e|t]; cbn.
    + eexists _, [_; _; _]. tidy_history. repeat split; auto; discriminate.
    + eexists _, [_; _]. tidy_history. repeat split; eauto; discriminate.
Qed.

Lemma attempt_caught (text summaryType : string) (c : Candidate) (w : World) :
  exists v events,
    attempt remote text summaryType c w = (Normal v, after w events)
    /\ attempted events = [c]
    /\ attempted_models events =
       match c with HuggingFace modelKey => [modelKey] | Gemini => [] end.
Proof.
  destruct c as [modelKey|]; cbn.
  - destruct (tryHuggingFace_caught text modelKey w) as (v & ev & H & Ha & Hm & _). eauto.
  - destruct (tryGemini_caught text summaryType w) as (v & ev & H & Ha & Hm & _). eauto.
Qed.

(** A run of failing candidates records exactly their attempts. *)
Lemma all_fail_after (text summaryType : string) (cs : list Candidate) (w w' : World) :
  all_fail remote text summaryType cs w = Some w' ->
  exists events,
    w' = after w events /\ attempted events = cs.
Proof.
  revert w. induction cs as [|c rest IH]; intros w H; cbn in H.
  - injection H as <-. exists []. rewrite after_nil. split; reflexivity.
  - destruct (attempt_caught text summaryType c w) as (v & ev & Hrun & Hatt & _).
    rewrite Hrun in H. destruct (truthy v); [discriminate|].
    destruct (IH _ H) as (ev' & -> & Hatt').
    exists (ev ++ ev')%list. rewrite after_after, attempted_app, Hatt, Hatt'.
    split; reflexivity.
Qed.

(** The loop over [modelOrder] is the chain of its guarded keys: when
    all of them fail the loop ends with a falsy [summary] ... *)
Lemma loop_all_fail (text summaryType : string) (modelOrder : list string)
  (summary : value) (w w1 : World) :
  truthy summary = false ->
  all_fail remote text summaryType (List.map HuggingFace (guarded modelOrder)) w = Some w1 ->
  exists summary',
    for_modelOrder remote text modelOrder summary w = (Normal summary', w1)
    /\ truthy summary' = false.
Proof.
  revert summary w. induction modelOrder as [|modelKey rest IH]; intros summary w Hs H.
  - cbn in H. injection H as <-. exists summary. split; [reflexivity | exact Hs].
  - cbn [for_modelOrder]. unfold guarded in H. cbn [List.filter] in H.
    fold (guarded rest) in H.
    destruct (truthy (HUGGINGFACE_MODELS modelKey)); [|eauto].
    cbn [List.map all_fail attempt] in H. unfold bind.
    destruct (tryHuggingFaceSummarization remote text modelKey w) as [[v|e] w0];
      [|discriminate].
    destruct (truthy v) eqn:Hv; [discriminate|]. eauto.
Qed.

(** ... and the first guarded key whose attempt returns a truthy value
    breaks out of it with that value. *)
Lemma loop_first_success (text summaryType : string) (modelOrder : list string)
  (summary : value) (w w1 w2 : World) (pre post : list Candidate) (c : Candidate)
  (v : value) :
  List.map HuggingFace (guarded modelOrder) = (pre ++ c :: post)%list ->
  all_fail remote text summaryType pre w = Some w1 ->
  attempt remote text summaryType c w1 = (Normal v, w2) ->
  truthy v = true ->
  for_modelOrder remote text modelOrder summary w = (Normal v, w2).
Proof.
  revert summary w pre. induction modelOrder as [|modelKey rest IH];
    intros summary w pre Hsplit Hpre Hc Hv.
  - destruct pre; discriminate.
  - cbn [for_modelOrder]. unfold guarded in Hsplit. cbn [List.filter] in Hsplit.
    fold (guarded rest) in Hsplit.
    destruct (truthy (HUGGINGFACE_MODELS modelKey)); [|eauto].
    cbn [List.map] in Hsplit. unfold bind.
    destruct pre as [|p pre'].
    + cbn in Hsplit, Hpre. injection Hsplit as <- _. injection Hpre as <-.
      cbn [attempt] in Hc. rewrite Hc, Hv. reflexivity.
    + cbn [app] in Hsplit. injection Hsplit as <- Hsplit.
      cbn [all_fail attempt] in Hpre.
      destruct (tryHuggingFaceSummarization remote text modelKey w) as [[v0|e] w0];
        [|discriminate].
      destruct (truthy v0) eqn:Hv0; [discriminate|]. eauto.
Qed.

(** The handler on a body whose [text] passed the checks. *)
Lemma summarize_valid (input : Input) (w : World) (text : string) :
  Summarize.text input = VStr text ->
  valid_text (VStr text) = true ->
  POST remote (Parsed input) w =
  match for_modelOrder remote text
          [with_default "bart-cnn" (model input); "bart-cnn"; "t5-small"] VNull w with
  | (Normal summary, w1) =>
      match (if falsy summary
             then tryGeminiSummarization remote text
                    (with_default "concise" (summaryType input)) w1
             else (Normal summary, w1)) with
      | (Normal summary, w2) =>
          if falsy summary then
            (Normal (json_error 503
               "All summarization services are currently unavailable. Please check your API keys and try again later."),
             w2)
          else
            match summary with
            | VStr s => (Normal (json_data (normalized text s)), w2)
            | _ => (Normal (json_error 500 "Server error: summary.trim is not a function"), w2)
            end
      | (Throw e, w2) => (Normal (json_error 500 ("Server error: " ++ e)), w2)
      end
  | (Throw e, w1) => (Normal (json_error 500 ("Server error: " ++ e)), w1)
  end.
Proof.
  intros Htext Hvalid. unfold POST, summary_trim. run_monad. rewrite Htext.
  cbn in Hvalid. apply andb_prop in Hvalid as [Hvalid Hmax].
  apply andb_prop in Hvalid as [Hne Hmin].
  unfold falsy. cbn [truthy is_string string_of negb orb].
  rewrite Hne. cbn [negb orb].
  apply Z.leb_le in Hmin, Hmax.
  destruct (Z.ltb_spec (length text) 50); [lia|].
  destruct (Z.ltb_spec 10000 (length text)); [lia|].
  destruct (for_modelOrder remote text _ VNull w) as [[summary|e] w1]; [|reflexivity].
  destruct (truthy summary) eqn:Hs; cbn [negb].
  - rewrite Hs. cbn [negb]. destruct summary; reflexivity.
  - destruct (tryGeminiSummarization remote text _ w1) as [[summary2|e] w2]; [|reflexivity].
    destruct (truthy summary2); cbn [negb]; [|reflexivity].
    destruct summary2; reflexivity.
Qed.

(** The handler on a body whose [text] fails a check: 400, and the
    state is left as it was. *)
Lemma summarize_invalid (input : Input) (w : World) :
  valid_text (Summarize.text input) = false ->
  exists error,
    POST remote (Parsed input) w = (Normal (json_error 400 error), w).
Proof.
  intros Hinvalid. unfold POST. run_eff.
  destruct (Summarize.text input) as [| |b|x|s|elems|fields|name] eqn:Htext;
    unfold falsy; cbn [truthy is_string negb orb];
    try (rewrite ?orb_true_r; eexists; reflexivity).
  cbn in Hinvalid.
  destruct (s =? EmptyString) eqn:Hne; cbn [negb orb]; [eexists; reflexivity|].
  cbn [negb andb] in Hinvalid. cbn [string_of].
  destruct (Z.ltb_spec (length s) 50); [eexists; reflexivity|].
  destruct (Z.ltb_spec 10000 (length s)); [eexists; reflexivity|].
  apply andb_false_iff in Hinvalid as [H1|H1]; apply Z.leb_gt in H1; lia.
Qed.

(** The loop goes through the guarded keys of [modelOrder] in order:
    either all of them fail, or it stops at the first whose attempt
    returns a truthy value. *)
Lemma loop_outcome (text summaryType : string) (modelOrder : list string)
  (summary : value) (w : World) :
  (exists w1 summary',
      all_fail remote text summaryType (List.map HuggingFace (guarded modelOrder)) w
        = Some w1
      /\ for_modelOrder remote text modelOrder summary w = (Normal summary', w1)
      /\ (truthy summary = false -> truthy summary' = false))
  \/ (exists pre modelKey post w1 v w2,
        guarded modelOrder = (pre ++ modelKey :: post)%list
        /\ all_fail remote text summaryType (List.map HuggingFace pre) w = Some w1
        /\ tryHuggingFaceSummarization remote text modelKey w1 = (Normal v, w2)
        /\ truthy v = true
        /\ for_modelOrder remote text modelOrder summary w = (Normal v, w2)).
Proof.
  revert summary w. induction modelOrder as [|modelKey rest IH]; intros summary w.
  - left. exists w, summary. cbn. auto.
  - cbn [for_modelOrder]. unfold guarded. cbn [List.filter]. fold (guarded rest).
    destruct (truthy (HUGGINGFACE_MODELS modelKey)); [|apply IH].
    unfold bind. cbn [List.map all_fail attempt].
    destruct (tryHuggingFace_caught text modelKey w) as (v & ev & Hrun & _).
    rewrite Hrun. destruct (truthy v) eqn:Hv.
    + right. exists [], modelKey, (guarded rest), w, v, (after w ev).
      cbn. auto.
    + destruct (IH v (after w ev))
        as [(w1 & s' & Hall & Hloop & Hfalsy)
           | (pre & k & post & w1 & v' & w2 & Hsplit & Hpre & Hk & Hv' & Hloop)].
      * left. exists w1, s'. auto.
      * right. exists (modelKey :: pre), k, post, w1, v', w2.
        rewrite Hsplit. cbn [List.map all_fail attempt app]. rewrite Hrun, Hv. auto.
Qed.

Lemma split_before_last {A} (l pre post : list A) (x c : A) :
  (l ++ [x] = pre ++ c :: post)%list ->
  (post = [] /\ l = pre /\ c = x)
  \/ (exists post', post = (post' ++ [x])%list /\ l = (pre ++ c :: post')%list).
Proof.
  destruct post as [|p post0] using rev_ind; intros H.
  - left. apply app_inj_tail in H as [-> ->]. auto.
  - right. clear IHpost0. exists post0.
    change (pre ++ c :: post0 ++ [p])%list with (pre ++ (c :: post0) ++ [p])%list in H.
    rewrite app_assoc in H. apply app_inj_tail in H as [-> ->]. auto.
Qed.

(** Without the Hugging Face token the loop ends with a falsy
    [summary] and without a remote call. *)
Lemma loop_not_configured (text : string) (modelOrder : list string) (summary : value)
  (w : World) :
  truthy summary = false ->
  not_configured (HUGGINGFACE_API_TOKEN (env w)) "your_huggingface_token_here" = true ->
  exists summary' events,
    for_modelOrder remote text modelOrder summary w = (Normal summary', after w events)
    /\ truthy summary' = false
    /\ remote_calls events = 0.
Proof.
  revert summary w. induction modelOrder as [|modelKey rest IH]; intros summary w Hs Htoken.
  - exists summary, []. rewrite after_nil. repeat split. exact Hs.
  - cbn [for_modelOrder]. destruct (truthy (HUGGINGFACE_MODELS modelKey)); [|eauto].
    unfold bind.
    destruct (tryHuggingFace_caught text modelKey w) as (v & ev & -> & _ & _ & Hnull).
    destruct (Hnull Htoken) as [-> Hcalls]. cbn [truthy].
    destruct (IH VNull (after w ev) eq_refl Htoken) as (v' & ev' & -> & Hv' & Hcalls').
    exists v', (ev ++ ev')%list. rewrite after_after, remote_calls_app, Hcalls, Hcalls'.
    repeat split. exact Hv'.
Qed.

(** With neither the Hugging Face token nor the Gemini key, a request
    that passes the checks is answered 503 and no remote call is made. *)
Lemma summarize_not_configured (input : Input) (w : World) (text : string) :
  Summarize.text input = VStr text ->
  valid_text (VStr text) = true ->
  not_configured (HUGGINGFACE_API_TOKEN (env w)) "your_huggingface_token_here" = true ->
  not_configured (GOOGLE_GEMINI_API_KEY (env w)) "your_gemini_api_key_here" = true ->
  exists events,
    POST remote (Parsed input) w
    = (Normal (json_error 503
         "All summarization services are currently unavailable. Please check your API keys and try again later."),
       after w events)
    /\ remote_calls events = 0.
Proof.
  intros Htext Hvalid Htoken Hkey. rewrite (summarize_valid input w text Htext Hvalid).
  destruct (loop_not_configured text
              [with_default "bart-cnn" (model input); "bart-cnn"; "t5-small"] VNull w
              eq_refl Htoken) as (v & ev & -> & Hv & Hcalls).
  unfold falsy. rewrite Hv. cbn [negb].
  destruct (tryGemini_caught text (with_default "concise" (summaryType input)) (after w ev))
    as (v2 & ev2 & -> & _ & _ & _ & Hnull).
  destruct (Hnull Hkey) as [-> Hcalls2]. cbn [truthy negb].
  exists (ev ++ ev2)%list. rewrite after_after, remote_calls_app, Hcalls, Hcalls2.
  split; reflexivity.
Qed.

(** When every candidate of the chain fails, the answer is 503. *)
Lemma summarize_all_fail (input : Input) (w w' : World) (text : string) :
  Summarize.text input = VStr text ->
  valid_text (VStr text) = true ->
  all_fail remote text (with_default "concise" (summaryType input))
    (candidates (with_default "bart-cnn" (model input))) w = Some w' ->
  POST remote (Parsed input) w
  = (Normal (json_error 503
       "All summarization services are currently unavailable. Please check your API keys and try again later."),
     w').
Proof.
  intros Htext Hvalid Hfail. rewrite (summarize_valid input w text Htext Hvalid).
  unfold candidates in Hfail.
  assert (Hsplit : forall cs w0,
            all_fail remote text (with_default "concise" (summaryType input))
              (cs ++ [Gemini]) w0 = Some w' ->
            exists w1 v,
              all_fail remote text (with_default "concise" (summaryType input)) cs w0
                = Some w1
              /\ tryGeminiSummarization remote text
                   (with_default "concise" (summaryType input)) w1 = (Normal v, w')
              /\ truthy v = false).
  { induction cs as [|c rest IH]; intros w0 H; cbn [app all_fail] in H |- *.
    - cbn [attempt] in H.
      destruct (tryGeminiSummarization remote text _ w0) as [[v|e] w1] eqn:Hg;
        [|discriminate].
      destruct (truthy v) eqn:Hv; [discriminate|]. injection H as <-. eauto.
    - destruct (attempt remote text _ c w0) as [[v|e] w1]; [|discriminate].
      destruct (truthy v); [discriminate|]. apply IH. exact H. }
  destruct (Hsplit _ _ Hfail) as (w1 & v & Hhf & Hg & Hv).
  destruct (loop_all_fail text _ _ VNull w w1 eq_refl Hhf) as (v' & -> & Hv').
  unfold falsy. rewrite Hv'. cbn [negb]. rewrite Hg, Hv. reflexivity.
Qed.

Lemma summarize_unparsable (e : Exception) (w : World) :
  POST remote (Unparsable e) w = (Normal (json_error 500 ("Server error: " ++ e)), w).
Proof. reflexivity. Qed.

(** C4.  In the fallback chain of a summarization request, when the
    candidates before some candidate all fail and that candidate returns
    a summary, the response carries the normalized output of that
    candidate, the state is the one right after its attempt (so the
    attempts recorded are those of the failed candidates and this one,
    and no later candidate is invoked), and an attempt never throws:
    an exception of the call inside it is caught, logged and turned
    into [null], which counts as a failure. *)
Theorem C4_first_success_wins (input : Input) (w w1 w2 : World) (text s : string)
  (pre post : list Candidate) (c : Candidate) :
  Summarize.text input = VStr text ->
  valid_text (VStr text) = true ->
  candidates (with_default "bart-cnn" (model input)) = (pre ++ c :: post)%list ->
  all_fail remote text (with_default "concise" (summaryType input)) pre w = Some w1 ->
  attempt remote text (with_default "concise" (summaryType input)) c w1
    = (Normal (VStr s), w2) ->
  s <> EmptyString ->
  POST remote (Parsed input) w = (Normal (json_data (normalized text s)), w2)
  /\ (exists events,
        history w2 = (history w ++ events)%list
        /\ attempted events = (pre ++ [c])%list)
  /\ (forall c' w0, exists v w0',
        attempt remote text (with_default "concise" (summaryType input)) c' w0
          = (Normal v, w0'))
  /\ (forall modelKey w0 e w0',
        callHuggingFaceAPI remote text (HUGGINGFACE_MODELS modelKey)
          (after w0 [TryHuggingFace modelKey]) = (Throw e, w0') ->
        tryHuggingFaceSummarization remote text modelKey w0
        = (Normal VNull,
           after w0' [ConsoleLog ("Hugging Face " ++ modelKey ++ " failed:") e])).
Proof.
  intros Htext Hvalid Hsplit Hpre Hc Hs.
  assert (Htruthy : truthy (VStr s) = true).
  { cbn. destruct (String.eqb_spec s EmptyString); [contradiction | reflexivity]. }
  split; [|split; [|split]].
  - rewrite (summarize_valid input w text Htext Hvalid).
    unfold candidates in Hsplit.
    apply split_before_last in Hsplit as [(-> & Hall & ->) | (post' & -> & Hhf)].
    + rewrite <- Hall in Hpre.
      destruct (loop_all_fail text _ _ VNull w w1 eq_refl Hpre) as (v' & -> & Hv').
      unfold falsy. rewrite Hv'. cbn [negb]. cbn [attempt] in Hc.
      rewrite Hc, Htruthy. reflexivity.
    + rewrite (loop_first_success text _ _ VNull w w1 w2 pre post' c (VStr s)
                 Hhf Hpre Hc Htruthy).
      unfold falsy. rewrite Htruthy. cbn [negb]. rewrite Htruthy. reflexivity.
  - destruct (all_fail_after text _ pre w w1 Hpre) as (ev1 & -> & Ha1).
    destruct (attempt_caught text (with_default "concise" (summaryType input)) c
                (after w ev1)) as (v & ev2 & Hrun & Ha2 & _).
    rewrite Hrun in Hc. injection Hc as _ <-.
    exists (ev1 ++ ev2)%list. rewrite attempted_app, Ha1, Ha2.
    cbn. rewrite app_assoc. split; reflexivity.
  - intros c' w0.
    destruct (attempt_caught text (with_default "concise" (summaryType input)) c' w0)
      as (v & ev & Hrun & _). eauto.
  - intros modelKey w0 e w0' Hthrow.
    unfold tryHuggingFaceSummarization, record, bind, try_catch, modify, ret.
    unfold after in Hthrow. rewrite Hthrow. reflexivity.
Qed.

(** C5, as the code has it.  For a summarization request with preferred
    model key [m] whose text passes the checks, the Hugging Face
    candidates are the keys of [[m, "bart-cnn", "t5-small"]] that the
    table answers with a truthy value, in that order; each is attempted
    once all before it have failed, and either all of them are attempted
    and fail, after which Gemini is attempted, or the attempts stop at
    the first that returns a truthy value. *)
Theorem C5_attempted_models (input : Input) (w w' : World) (text : string)
  (c : Completion (Response SummarizationResult)) :
  Summarize.text input = VStr text ->
  valid_text (VStr text) = true ->
  POST remote (Parsed input) w = (c, w') ->
  exists events,
    history w' = (history w ++ events)%list
    /\ ((all_fail remote text (with_default "concise" (summaryType input))
           (List.map HuggingFace
              (guarded [with_default "bart-cnn" (model input); "bart-cnn"; "t5-small"])) w
         <> None
         /\ attempted events
            = (List.map HuggingFace
                 (guarded [with_default "bart-cnn" (model input); "bart-cnn"; "t5-small"])
               ++ [Gemini])%list)
        \/ (exists pre modelKey post w1 v,
              guarded [with_default "bart-cnn" (model input); "bart-cnn"; "t5-small"]
              = (pre ++ modelKey :: post)%list
              /\ all_fail remote text (with_default "concise" (summaryType input))
                   (List.map HuggingFace pre) w = Some w1
              /\ tryHuggingFaceSummarization remote text modelKey w1 = (Normal v, w')
              /\ truthy v = true
              /\ attempted events = List.map HuggingFace (pre ++ [modelKey])%list)).
Proof.
  intros Htext Hvalid Hpost.
  rewrite (summarize_valid input w text Htext Hvalid) in Hpost.
  destruct (loop_outcome text (with_default "concise" (summaryType input))
              [with_default "bart-cnn" (model input); "bart-cnn"; "t5-small"] VNull w)
    as [(w1 & s' & Hall & Hloop & Hfalsy)
       | (pre & k & post & w1 & v & w2 & Hsplit & Hpre & Hk & Hv & Hloop)];
    rewrite Hloop in Hpost.
  - specialize (Hfalsy eq_refl). unfold falsy in Hpost. rewrite Hfalsy in Hpost.
    cbn [negb] in Hpost.
    destruct (all_fail_after text _ _ w w1 Hall) as (ev1 & -> & Ha1).
    destruct (tryGemini_caught text (with_default "concise" (summaryType input))
                (after w ev1)) as (v2 & ev2 & Hg & Ha2 & _).
    rewrite Hg, after_after in Hpost.
    assert (w' = after w (ev1 ++ ev2)) as ->.
    { destruct (truthy v2); cbn [negb] in Hpost; [destruct v2|]; congruence. }
    exists (ev1 ++ ev2)%list. split; [reflexivity|]. left.
    split; [rewrite Hall; discriminate|].
    rewrite attempted_app, Ha1, Ha2. reflexivity.
  - unfold falsy in Hpost. rewrite Hv in Hpost. cbn [negb] in Hpost.
    rewrite Hv in Hpost. cbn [negb] in Hpost.
    assert (w' = w2) as -> by (destruct v; congruence).
    destruct (all_fail_after text _ _ w w1 Hpre) as (ev1 & -> & Ha1).
    destruct (tryHuggingFace_caught text k (after w ev1)) as (v' & ev2 & Hrun & Ha2 & _).
    rewrite Hrun in Hk. injection Hk as -> <-.
    exists (ev1 ++ ev2)%list. rewrite after_after. split; [reflexivity|]. right.
    exists pre, k, post, (after w ev1), v.
    rewrite attempted_app, Ha1, Ha2, List.map_app, <- after_after. auto.
Qed.

(** C9.  A summarization request whose [text] field is missing, is not
    a string, has fewer than 50 characters or more than 10000 is answered
    with status 400 and an error body, and the state is untouched: no
    provider was attempted or called. *)
Theorem C9_text_rejected (input : Input) (w : World) :
  Summarize.text input = VUndefined
  \/ is_string (Summarize.text input) = false
  \/ (exists s, Summarize.text input = VStr s
                /\ (length s < 50 \/ 10000 < length s)%Z) ->
  exists error,
    POST remote (Parsed input) w = (Normal (json_error 400 error), w).
Proof.
  intros H. apply summarize_invalid.
  destruct H as [-> | [H | (s & -> & H)]]; [reflexivity | |].
  - destruct (Summarize.text input); try reflexivity; discriminate.
  - cbn. destruct (Z.leb_spec 50 (length s)), (Z.leb_spec (length s) 10000);
      rewrite ?andb_false_r; try reflexivity; lia.
Qed.

End WithRemote.

Import Scenario.

(** With [bart-large-cnn] loading and [t5-small] serving, the default
    request fails twice on [bart-cnn] and answers with the summary of
    [t5-small]. *)
Lemma C4_first_success_wins_witness :
  exists w2,
    POST t5_serves (summarize_request None) (summarize_world env_configured)
    = (Normal (json_data (normalized text100 summary20)), w2).
Proof.
  eexists.
  refine (proj1 (C4_first_success_wins t5_serves
                   (mkInput (VStr text100) None None)
                   (summarize_world env_configured) _ _ text100 summary20
                   [HuggingFace "bart-cnn"; HuggingFace "bart-cnn"] [Gemini]
                   (HuggingFace "t5-small") eq_refl _ _ _ _ _)).
  - vm_compute. reflexivity.
  - vm_compute. reflexivity.
  - vm_compute. reflexivity.
  - vm_compute. reflexivity.
  - discriminate.
Defined.

(** With every provider down and [pegasus] preferred, the attempts are
    [pegasus], [bart-cnn], [t5-small] and then Gemini. *)
Lemma C5_attempted_models_witness :
  exists events,
    history (snd (POST all_down (summarize_request (Some "pegasus"))
                    (summarize_world env_configured)))
    = ([] ++ events)%list
    /\ ((all_fail all_down text100 "concise"
           (List.map HuggingFace (guarded ["pegasus"; "bart-cnn"; "t5-small"]))
           (summarize_world env_configured) <> None
         /\ attempted events
            = (List.map HuggingFace (guarded ["pegasus"; "bart-cnn"; "t5-small"])
               ++ [Gemini])%list)
        \/ (exists pre modelKey post w1 v,
              guarded ["pegasus"; "bart-cnn"; "t5-small"] = (pre ++ modelKey :: post)%list
              /\ all_fail all_down text100 "concise" (List.map HuggingFace pre)
                   (summarize_world env_configured) = Some w1
              /\ tryHuggingFaceSummarization all_down text100 modelKey w1
                 = (Normal v,
                    snd (POST all_down (summarize_request (Some "pegasus"))
                           (summarize_world env_configured)))
              /\ truthy v = true
              /\ attempted events = List.map HuggingFace (pre ++ [modelKey])%list)).
Proof.
  refine (C5_attempted_models all_down (mkInput (VStr text100) (Some "pegasus") None)
            (summarize_world env_configured) _ text100 _ eq_refl _ _).
  - vm_compute. reflexivity.
  - apply surjective_pairing.
Defined.

(** When every provider is down and the preferred model is [bart-cnn],
    the models attempted are [bart-cnn], [bart-cnn] again and
    [t5-small]: one model twice, and [pegasus] never. *)
Lemma C5_counterexample :
  let w' := snd (POST all_down (summarize_request (Some "bart-cnn"))
                   (summarize_world env_configured)) in
  attempted_models (history w') = ["bart-cnn"; "bart-cnn"; "t5-small"]
  /\ ~ ClaimedOrder.holds "bart-cnn" (attempted_models (history w')).
Proof.
  assert (H : attempted_models
                (history (snd (POST all_down (summarize_request (Some "bart-cnn"))
                                 (summarize_world env_configured))))
              = ["bart-cnn"; "bart-cnn"; "t5-small"]) by (vm_compute; reflexivity).
  cbv zeta. rewrite H. split; [reflexivity|].
  intros (_ & _ & Hnodup).
  inversion Hnodup as [|x l Hnotin _]; subst. apply Hnotin. left. reflexivity.
Qed.

Lemma C9_text_rejected_witness :
  exists error,
    POST all_down (Parsed (mkInput (VStr "Too short to summarize.") None None))
      (summarize_world env_configured)
    = (Normal (json_error 400 error), summarize_world env_configured).
Proof.
  apply (C9_text_rejected all_down
           (mkInput (VStr "Too short to summarize.") None None)).
  right. right. exists "Too short to summarize.". split; [reflexivity|].
  left. reflexivity.
Defined.

(** The text of the run has 100 words and its summary 20. *)
Example scenario_word_counts :
  Words.words text100 = 100 /\ Words.words (trim summary20) = 20
  /\ calculateCompressionRatio text100 (trim summary20) = 80%float.
Proof. vm_compute. repeat split; reflexivity. Qed.

End SummarizeFacts.

(** ** The document route *)
Module RagFacts.
Import JS Eff Http Rag Ledger.
Local Open Scope list_scope.

#[local] Arguments String.append : simpl never.

Ltac run_monad :=
  unfold bind, ret, throw, try_catch, get, modify, lift in *.

Section WithServices.
Variable library : Library.
Variable remote : Remote.

(** [processDocument] either embeds, appends and counts one more, or
    throws with store and count as they were. *)
Lemma processDocument_run (text filename : string) (w : World) :
  (exists added,
      processDocument library remote text filename w
      = (Normal (List.length (splitText library text)),
         mkWorld (env w) (Some (entries w ++ added)) (documentCount w + 1)
                 (history w ++ [EmbedDocuments (splitText library text)]))
      /\ Forall (fun m => source m = filename) added)
  \/ (exists e,
      processDocument library remote text filename w
      = (Throw e,
         mkWorld (env w) (vectorStore w) (documentCount w)
                 (history w ++ [EmbedDocuments (splitText library text)]))).
Proof.
  unfold processDocument, embed_entries, set_vectorStore, set_documentCount, record, entries.
  run_monad. rewrite !List.map_map. cbn [pageContent]. rewrite List.map_id.
  set (docs := List.map (fun chunk => mkDocument chunk filename) (splitText library text)).
  assert (Hsrc : forall vectors,
             Forall (fun m => source m = filename)
               (List.map (fun dv => mkMemoryVector (pageContent (fst dv)) (snd dv)
                                                    (metadata_source (fst dv)))
                         (List.combine docs vectors))).
  { intros vectors. apply Forall_forall. intros m Hin.
    apply in_map_iff in Hin as ((d & v) & <- & Hin). cbn.
    apply in_combine_l in Hin. unfold docs in Hin.
    apply in_map_iff in Hin as (chunk & <- & _). reflexivity. }
  destruct w as [e0 [memoryVectors|] count events]; cbn;
    destruct (embedDocuments remote events (splitText library text))
      as [vectors|e]; cbn.
  - left. eexists. unfold docs. rewrite List.length_map. split; [reflexivity | apply Hsrc].
  - right. eexists. reflexivity.
  - left. eexists. unfold docs. rewrite List.length_map. split; [reflexivity | apply Hsrc].
  - right. eexists. reflexivity.
Qed.

Lemma extractTextFromFile_pure (file : File) (w : World) :
  exists c, extractTextFromFile library file w = (c, w).
Proof.
  unfold extractTextFromFile. run_monad.
  repeat match goal with |- context [if ?b then _ else _] => destruct b end; eauto.
Qed.

Lemma action_is_exclusive (action : option string) (a b : string) :
  action_is action a = true -> a <> b -> action_is action b = false.
Proof.
  destruct action as [x|]; [|discriminate]. cbn. intros Ha Hab.
  apply String.eqb_eq in Ha. subst x. apply String.eqb_neq. exact Hab.
Qed.

(** What one upload does: it succeeds, adding entries of one source and
    counting one more, or it fails and leaves store and count alone. *)
Lemma POST_upload (req : Request) (w : World) :
  action_is (action req) "upload" = true ->
  exists r w' events,
    POST library remote req w = (Normal r, w')
    /\ env w' = env w /\ history w' = history w ++ events
    /\ ((upload_succeeded r = true /\ status r = 200
         /\ documentCount w' = documentCount w + 1
         /\ exists filename added,
              vectorStore w' = Some (entries w ++ added)
              /\ Forall (fun m => source m = filename) added)
        \/ (upload_succeeded r = false /\ status r <> 200
            /\ documentCount w' = documentCount w
            /\ vectorStore w' = vectorStore w)).
Proof.
  intros Haction. unfold POST. rewrite Haction. run_monad.
  destruct (formData req) as [[file|]|e].
  - destruct (extractTextFromFile_pure file w) as ([text|e] & ->).
    + destruct (processDocument_run text (file_name file) w)
        as [(added & -> & Hsrc) | (e & ->)].
      * eexists _, _, [_]. split; [reflexivity|]. cbn.
        repeat split. left. repeat split. eauto.
      * eexists _, _, [_]. split; [reflexivity|]. cbn.
        repeat split. right. repeat split. discriminate.
    + eexists _, _, []. split; [reflexivity|]. rewrite app_nil_r.
      repeat split. right. repeat split. discriminate.
  - eexists _, _, []. split; [reflexivity|]. rewrite app_nil_r.
    repeat split. right. repeat split. discriminate.
  - eexists _, _, []. split; [reflexivity|]. rewrite app_nil_r.
    repeat split. right. repeat split. discriminate.
Qed.

(** A query never touches store or count. *)
Lemma POST_query (req : Request) (w : World) :
  action_is (action req) "query" = true ->
  exists r events,
    POST library remote req w
    = (Normal r, mkWorld (env w) (vectorStore w) (documentCount w) (history w ++ events))
    /\ upload_succeeded r = false.
Proof.
  intros Haction. unfold POST.
  rewrite (action_is_exclusive _ "query" "upload" Haction) by discriminate.
  rewrite Haction. unfold queryDocuments, ragChain_invoke, embedQuery_of, record. run_monad.
  destruct w as [e0 store count events]. cbn.
  destruct (json_question req) as [question|e]; cbn.
  2:{ eexists _, []. rewrite app_nil_r. split; reflexivity. }
  destruct (falsy question || negb (is_string question)); cbn.
  { eexists _, []. rewrite app_nil_r. split; reflexivity. }
  destruct store as [memoryVectors|]; cbn.
  2:{ eexists _, []. rewrite app_nil_r. split; reflexivity. }
  destruct (not_configured _ _); cbn.
  { eexists _, []. rewrite app_nil_r. split; reflexivity. }
  eexists _, []. rewrite app_nil_r. split; reflexivity.
Qed.

Lemma POST_clear (req : Request) (w : World) :
  action_is (action req) "clear" = true ->
  POST library remote req w
  = (Normal (json_data (Cleared "All documents cleared from memory.")),
     mkWorld (env w) None 0 (history w)).
Proof.
  intros Haction. unfold POST.
  rewrite (action_is_exclusive _ "clear" "upload" Haction) by discriminate.
  rewrite (action_is_exclusive _ "clear" "query" Haction) by discriminate.
  rewrite Haction. reflexivity.
Qed.

Lemma POST_invalid_action (req : Request) (w : World) :
  action_is (action req) "upload" = false ->
  action_is (action req) "query" = false ->
  action_is (action req) "clear" = false ->
  POST library remote req w = (Normal (json_error 400 "Invalid action"), w).
Proof.
  intros H1 H2 H3. unfold POST. rewrite H1, H2, H3. reflexivity.
Qed.

(** One call, whatever it is: a clear empties store and count, a
    successful upload adds entries of one source and counts one more,
    and anything else leaves store and count alone. *)
Lemma answer_step (c : Call) (w : World) :
  exists r w',
    answer library remote c w = (r, w')
    /\ env w' = env w
    /\ ((is_clear c = true /\ vectorStore w' = None /\ documentCount w' = 0)
        \/ (is_clear c = false /\ is_upload c = true /\ upload_succeeded r = true
            /\ status r = 200
            /\ documentCount w' = documentCount w + 1
            /\ exists filename added,
                 vectorStore w' = Some (entries w ++ added)
                 /\ Forall (fun m => source m = filename) added)
        \/ (is_clear c = false /\ upload_succeeded r = false
            /\ documentCount w' = documentCount w
            /\ vectorStore w' = vectorStore w)).
Proof.
  unfold answer. destruct c as [req|]; cbn [handler is_clear is_upload].
  - destruct (action_is (action req) "upload") eqn:Hup.
    + destruct (POST_upload req w Hup) as (r & w' & ev & -> & Henv & _ & Hcases).
      exists r, w'. split; [reflexivity|]. split; [exact Henv|].
      rewrite (action_is_exclusive _ "upload" "clear" Hup) by discriminate.
      destruct Hcases as [(H1 & H2 & H3 & H4) | (H1 & _ & H3 & H4)].
      * right. left. auto 10.
      * right. right. auto.
    + destruct (action_is (action req) "query") eqn:Hq.
      * destruct (POST_query req w Hq) as (r & ev & -> & Hr).
        eexists _, _. split; [reflexivity|]. split; [reflexivity|].
        rewrite (action_is_exclusive _ "query" "clear" Hq) by discriminate.
        right. right. auto.
      * destruct (action_is (action req) "clear") eqn:Hc.
        -- rewrite (POST_clear req w Hc).
           eexists _, _. split; [reflexivity|]. split; [reflexivity|]. left. auto.
        -- rewrite (POST_invalid_action req w Hup Hq Hc).
           eexists _, _. split; [reflexivity|]. split; [reflexivity|]. right. right. auto.
  - unfold GET. run_monad.
    eexists _, _. split; [reflexivity|]. split; [reflexivity|]. right. right. auto.
Qed.

(** A query with documents loaded and no OpenRouter credential. *)
Lemma POST_query_not_configured (req : Request) (w : World) (question : string)
  (memoryVectors : list MemoryVector) :
  action_is (action req) "query" = true ->
  json_question req = Normal (VStr question) ->
  question <> EmptyString ->
  vectorStore w = Some memoryVectors ->
  not_configured (OPENROUTER_API_KEY (env w)) "your_openrouter_api_key_here" = true ->
  POST library remote req w
  = (Normal (json_error 500 "Server error: OpenRouter API key not configured"), w).
Proof.
  intros Haction Hjson Hq Hstore Hkey. unfold POST.
  rewrite (action_is_exclusive _ "query" "upload" Haction) by discriminate.
  rewrite Haction, Hjson. unfold queryDocuments. run_monad.
  unfold falsy. cbn [truthy is_string negb orb string_of].
  destruct (String.eqb_spec question EmptyString) as [|_]; [contradiction|].
  cbn [negb orb]. rewrite Hstore, Hkey. reflexivity.
Qed.

(** Entries of one more source add at most one distinct source. *)
Lemma nodup_sources_app (store added : list MemoryVector) (filename : string) :
  Forall (fun m => source m = filename) added ->
  List.length (List.nodup string_dec (List.map source (store ++ added)))
  <= List.length (List.nodup string_dec (List.map source store)) + 1.
Proof.
  intros Hsrc. rewrite Nat.add_1_r.
  change (S (List.length (List.nodup string_dec (List.map source store))))
    with (List.length (filename :: List.nodup string_dec (List.map source store))).
  apply NoDup_incl_length; [apply NoDup_nodup|].
  intros x Hin. apply nodup_In in Hin. rewrite List.map_app in Hin.
  apply in_app_or in Hin as [Hin|Hin].
  - right. apply nodup_In. exact Hin.
  - left. apply in_map_iff in Hin as (m & <- & Hm).
    rewrite Forall_forall in Hsrc. symmetry. apply Hsrc. exact Hm.
Qed.

Lemma sources_entries (w : World) :
  sources w = List.nodup string_dec (List.map source (entries w)).
Proof. unfold sources, entries. destruct (vectorStore w); reflexivity. Qed.

(** Along any sequence of calls the count follows the ledger, and the
    distinct sources never outnumber it. *)
Lemma serve_count (calls : list Call) (w : World) :
  List.length (sources w) <= documentCount w ->
  documentCount (snd (serve library remote calls w))
  = ingested (documentCount w) (List.combine calls (fst (serve library remote calls w)))
  /\ List.length (sources (snd (serve library remote calls w)))
     <= documentCount (snd (serve library remote calls w)).
Proof.
  revert w. induction calls as [|c rest IH]; intros w Hinv; [split; [reflexivity | exact Hinv]|].
  cbn [serve].
  destruct (answer_step c w) as (r & w' & -> & _ & Hstep).
  specialize (IH w').
  destruct (serve library remote rest w') as [rs w''] eqn:Hrest.
  cbn [fst snd List.combine ingested] in *.
  destruct Hstep as [(Hc & Hstore & Hcount)
                    | [(Hc & _ & Hr & _ & Hcount & filename & added & Hstore & Hsrc)
                      | (Hc & Hr & Hcount & Hstore)]].
  - rewrite Hc, <- Hcount. apply IH. unfold sources. rewrite Hstore. cbn. lia.
  - rewrite Hc, Hr, <- Hcount. apply IH.
    unfold sources. rewrite Hstore, Hcount.
    pose proof (nodup_sources_app (entries w) added filename Hsrc) as Hle.
    rewrite <- sources_entries in Hle. lia.
  - rewrite Hc, Hr, <- Hcount. apply IH.
    unfold sources in *. rewrite Hstore, Hcount. exact Hinv.
Qed.

(** C3, as the code has it.  After any sequence of calls from the start
    of the process, [documentCount] is the number of uploads that
    succeeded since the last clear; the distinct source files of the
    chunks in the store are at most that many; and a call that lowers
    [documentCount] is a clear. *)
Theorem C3_document_count (e : Env) (calls : list Call) :
  documentCount (snd (serve library remote calls (initial e)))
  = ingested 0 (List.combine calls (fst (serve library remote calls (initial e))))
  /\ List.length (sources (snd (serve library remote calls (initial e))))
     <= documentCount (snd (serve library remote calls (initial e)))
  /\ forall c,
       documentCount
         (snd (answer library remote c (snd (serve library remote calls (initial e)))))
       < documentCount (snd (serve library remote calls (initial e))) ->
       is_clear c = true.
Proof.
  destruct (serve_count calls (initial e)) as [Hcount Hsources]; [cbn; lia|].
  split; [exact Hcount|]. split; [exact Hsources|].
  intros c Hlt.
  destruct (answer_step c (snd (serve library remote calls (initial e))))
    as (r & w' & Hrun & _ & Hstep).
  rewrite Hrun in Hlt. cbn [snd] in Hlt.
  destruct Hstep as [(Hc & _) | [(_ & _ & _ & _ & Hn & _) | (_ & _ & Hn & _)]];
    [exact Hc | lia | lia].
Qed.

(** C7.  An upload that is answered with success has raised
    [documentCount] by exactly one, whatever the number of chunks the
    splitter made of the file (the entries added to the store all carry
    the one file name), and a clear leaves [documentCount] at 0 and the
    store empty. *)
Theorem C7_count_per_ingestion (req : Request) (w w' : World) (r : Response Data) :
  POST library remote req w = (Normal r, w') ->
  (action_is (action req) "upload" = true -> status r = 200 ->
   documentCount w' = documentCount w + 1
   /\ exists filename added,
        vectorStore w' = Some (entries w ++ added)
        /\ Forall (fun m => source m = filename) added)
  /\ (action_is (action req) "clear" = true ->
      documentCount w' = 0 /\ vectorStore w' = None).
Proof.
  intros Hpost. split.
  - intros Hup Hstatus.
    destruct (POST_upload req w Hup) as (r0 & w0 & ev & Hrun & _ & _ & Hcases).
    rewrite Hrun in Hpost. injection Hpost as -> ->.
    destruct Hcases as [(_ & _ & Hn & Hstore) | (_ & Hbad & _)]; [auto | contradiction].
  - intros Hclear. rewrite (POST_clear req w Hclear) in Hpost.
    injection Hpost as _ <-. split; reflexivity.
Qed.

(** C1, as the code has it.  A query with a question (a non-empty
    string) while no document is in the store ([vectorStore] is [null])
    fails with the no-documents error, which the handler surfaces as
    HTTP 500 with [success: false]; the state is untouched, so neither
    the embedding nor the chat capability was invoked. *)
Theorem C1_query_without_documents (req : Request) (w : World) (question : string) :
  action_is (action req) "query" = true ->
  json_question req = Normal (VStr question) ->
  question <> EmptyString ->
  vectorStore w = None ->
  POST library remote req w
  = (Normal (json_error 500 "Server error: No documents have been uploaded yet."), w).
Proof.
  intros Haction Hjson Hq Hstore. unfold POST.
  rewrite (action_is_exclusive _ "query" "upload" Haction) by discriminate.
  rewrite Haction, Hjson. unfold queryDocuments. run_monad.
  unfold falsy. cbn [truthy is_string negb orb string_of].
  destruct (String.eqb_spec question EmptyString) as [|_]; [contradiction|].
  cbn [negb orb]. rewrite Hstore. reflexivity.
Qed.

End WithServices.

Import Scenario.

(** An upload, a query, a status request, a clear and a status request:
    the query is answered 500 and the others 200, with the count at 1
    and then at 0. *)
Example upload_query_clear :
  let run := serve one_chunk rag_up
               [notes; CallPOST (query_request "What was decided?"); CallGET;
                CallPOST clear_request; CallGET]
               (initial env_configured) in
  List.map status (fst run) = [200; 500; 200; 200; 200]
  /\ List.map body (firstn 3 (skipn 1 (fst run)))
     = [JsonError "Server error: text.replace is not a function";
        JsonData (Status 1 true "Ready to answer questions");
        JsonData (Cleared "All documents cleared from memory.")]
  /\ documentCount (snd run) = 0.
Proof. vm_compute. repeat split; reflexivity. Qed.

(** A query with a chunk in the store and no OpenRouter credential is
    answered 500 with the credential message. *)
Example query_without_key :
  POST one_chunk rag_up (query_request "What was decided?") loaded_without_key
  = (Normal (json_error 500 "Server error: OpenRouter API key not configured"),
     loaded_without_key).
Proof.
  apply (POST_query_not_configured one_chunk rag_up _ _ "What was decided?"
           [mkMemoryVector "Meeting notes of Monday." [1%float; 0%float] "notes.txt"]);
    try reflexivity; discriminate.
Qed.

(** The first query of a fresh process is answered 500, not 400 or 409. *)
Lemma C1_counterexample :
  status (fst (answer one_chunk rag_up (CallPOST (query_request "What was decided?"))
                 (initial env_configured))) = 500
  /\ ~ (status (fst (answer one_chunk rag_up
                       (CallPOST (query_request "What was decided?"))
                       (initial env_configured))) = 400
        \/ status (fst (answer one_chunk rag_up
                          (CallPOST (query_request "What was decided?"))
                          (initial env_configured))) = 409).
Proof.
  split; [reflexivity|]. intros [H|H]; vm_compute in H; discriminate.
Qed.

Lemma C1_query_without_documents_witness :
  POST one_chunk rag_up (query_request "What was decided?") (initial env_configured)
  = (Normal (json_error 500 "Server error: No documents have been uploaded yet."),
     initial env_configured).
Proof.
  apply (C1_query_without_documents one_chunk rag_up
           (query_request "What was decided?") (initial env_configured)
           "What was decided?"); [reflexivity | reflexivity | discriminate | reflexivity].
Defined.

(** The same file uploaded twice: the count is 2, the store holds the
    chunks of one source. *)
Lemma C3_counterexample :
  documentCount (snd (serve one_chunk rag_up [notes; notes] (initial env_configured))) = 2
  /\ List.length
       (sources (snd (serve one_chunk rag_up [notes; notes] (initial env_configured)))) = 1
  /\ documentCount (snd (serve one_chunk rag_up [notes; notes] (initial env_configured)))
     <> List.length
          (sources (snd (serve one_chunk rag_up [notes; notes] (initial env_configured)))).
Proof.
  repeat split; try (vm_compute; reflexivity). vm_compute. discriminate.
Qed.

(** After one upload the count is 1, and the call that lowers it is a
    clear. *)
Lemma C3_document_count_witness :
  is_clear (CallPOST clear_request) = true.
Proof.
  apply (proj2 (proj2 (C3_document_count one_chunk rag_up env_configured [notes]))
           (CallPOST clear_request)).
  vm_compute. lia.
Defined.

(** An upload into a fresh process counts one document, and a clear
    counts none. *)
Lemma C7_count_per_ingestion_witness :
  (documentCount (snd (POST one_chunk rag_up
                         (upload_request "notes.txt" "text/plain" "Meeting notes of Monday.")
                         (initial env_configured))) = 0 + 1
   /\ exists filename added,
        vectorStore (snd (POST one_chunk rag_up
                            (upload_request "notes.txt" "text/plain"
                               "Meeting notes of Monday.")
                            (initial env_configured)))
        = Some (entries (initial env_configured) ++ added)
        /\ Forall (fun m => source m = filename) added)
  /\ (documentCount (snd (POST one_chunk rag_up clear_request (initial env_configured))) = 0
      /\ vectorStore (snd (POST one_chunk rag_up clear_request (initial env_configured)))
         = None).
Proof.
  split.
  - refine (proj1 (C7_count_per_ingestion one_chunk rag_up
                     (upload_request "notes.txt" "text/plain" "Meeting notes of Monday.")
                     (initial env_configured) _ _ _) eq_refl _).
    + vm_compute. reflexivity.
    + reflexivity.
  - refine (proj2 (C7_count_per_ingestion one_chunk rag_up clear_request
                     (initial env_configured) _ _ _) eq_refl).
    vm_compute. reflexivity.
Defined.

End RagFacts.

(** ** The enhanced-chat route *)
Module ChatFacts.
Import JS Eff Http ChatEnhanced.

Section WithRemote.
Variable remote : Remote.

(** A missing credential is answered before the body is looked at. *)
Lemma chat_not_configured (input : Input) (w : World) :
  not_configured (OPENROUTER_API_KEY (env w)) "your_openrouter_api_key_here" = true ->
  POST remote (Parsed input) w
  = (Normal (plain_text 400
       "OpenRouter API key not configured. Please add your API key to .env.local"), w).
Proof.
  intros Hkey. unfold POST, bind, ret, throw, try_catch, get. rewrite Hkey. reflexivity.
Qed.

(** C10, as the code has it.  With the OpenRouter credential
    configured, a request whose [messages] is an empty array passes the
    validation (presence and array-ness), a conversation memory is set
    up for the session, reading the [content] of the last message
    throws, and the handler answers HTTP 500 with a plain-text error,
    without having called the chain. *)
Theorem C10_empty_messages (input : Input) (w : World) :
  messages input = VArr [] ->
  not_configured (OPENROUTER_API_KEY (env w)) "your_openrouter_api_key_here" = false ->
  exists w',
    POST remote (Parsed input) w
    = (Normal (plain_text 500
         "Error: Cannot read properties of undefined (reading 'content')"), w')
    /\ env w' = env w
    /\ history w' = history w.
Proof.
  intros Hmessages Hkey.
  unfold POST, getOrCreateMemory, bind, ret, throw, try_catch, get, modify, lift.
  rewrite Hkey, Hmessages. cbn.
  destruct (Map_has _ (conversationMemories w)); eexists; repeat split.
Qed.

End WithRemote.

Import Scenario.

(** Without the credential the same request is answered 400. *)
Lemma C10_counterexample :
  POST chat_up no_messages (chat_world env_empty)
  = (Normal (plain_text 400
       "OpenRouter API key not configured. Please add your API key to .env.local"),
     chat_world env_empty)
  /\ status (plain_text (D := unit) 400
       "OpenRouter API key not configured. Please add your API key to .env.local") <> 500.
Proof. split; [reflexivity | discriminate]. Qed.

Lemma C10_empty_messages_witness :
  exists w',
    POST chat_up no_messages (chat_world env_configured)
    = (Normal (plain_text 500
         "Error: Cannot read properties of undefined (reading 'content')"), w')
    /\ env w' = env (chat_world env_configured)
    /\ history w' = history (chat_world env_configured).
Proof.
  apply (C10_empty_messages chat_up (mkInput (VArr []) None None)
           (chat_world env_configured)); reflexivity.
Defined.

(** A conversation with a last message reaches the chain, and is
    answered with the error of the persona header. *)
Example chat_header_error :
  fst (POST chat_up
         (Parsed (mkInput (VArr [VObj [("role", VStr "user"); ("content", VStr "Hi")]])
                    (Some developer) (Some "s1")))
         (chat_world env_configured))
  = Normal (plain_text 500
      "Error: Cannot convert argument to a ByteString because the character at index 0 has a value of 55357 which is greater than 255.").
Proof. reflexivity. Qed.

End ChatFacts.

(** ** The Q&A route *)
Module QnAFacts.
Import JS Eff Http QnA.

Section WithRemote.
Variable remote : Remote.

Lemma qna_not_configured (input : Input) (w : World) :
  falsy (input_question input) || negb (is_string (input_question input)) = false ->
  not_configured (OPENROUTER_API_KEY (env w)) "your_openrouter_api_key_here" = true ->
  POST remote (Parsed input) w
  = (Normal (plain_text 400 "OpenRouter API key not configured"), w).
Proof.
  intros Hquestion Hkey. unfold POST, bind, ret, throw, try_catch, get.
  rewrite Hquestion, Hkey. reflexivity.
Qed.

End WithRemote.

End QnAFacts.

(** ** The classification route *)
Module ClassifyFacts.
Import JS Eff Http Classify.

#[local] Arguments String.append : simpl never.

Section WithRemote.
Variable remote : Remote.
Variable JSON_parse : string -> Completion value.
Variable normalize : string -> value -> Completion ClassificationResult.

(** The handler on a body with a text and a model key. *)
Lemma classify_valid (input : Input) (w : World) (text model : string) :
  Classify.text input = VStr text -> text <> EmptyString ->
  Classify.model input = Some model -> model <> EmptyString ->
  POST remote JSON_parse normalize (Parsed input) w =
  match tryHuggingFaceClassification remote text model (customLabels input) w with
  | (Normal result, w1) =>
      match (if falsy result
             then tryGeminiClassification remote JSON_parse text model
                    (customLabels input) w1
             else (Normal result, w1)) with
      | (Normal result, w2) =>
          if falsy result then
            (Normal (json_error 503
               "All classification services are currently unavailable."), w2)
          else
            match normalize model result with
            | Normal normalizedResult => (Normal (json_data normalizedResult), w2)
            | Throw e => (Normal (json_error 500 ("Server error: " ++ e)), w2)
            end
      | (Throw e, w2) => (Normal (json_error 500 ("Server error: " ++ e)), w2)
      end
  | (Throw e, w1) => (Normal (json_error 500 ("Server error: " ++ e)), w1)
  end.
Proof.
  intros Htext Hne Hmodel Hm.
  unfold POST, bind, ret, throw, try_catch, lift. rewrite Htext, Hmodel.
  unfold falsy, model_missing. cbn [truthy is_string negb orb string_of].
  destruct (String.eqb_spec text EmptyString) as [|_]; [contradiction|].
  destruct (String.eqb_spec model EmptyString) as [|_]; [contradiction|].
  cbn [negb orb].
  destruct (tryHuggingFaceClassification remote text model (customLabels input) w)
    as [[result|e] w1]; [|reflexivity].
  destruct (truthy result) eqn:Hr; cbn [negb].
  - rewrite Hr. cbn [negb]. destruct (normalize model result); reflexivity.
  - destruct (tryGeminiClassification remote JSON_parse text model (customLabels input) w1)
      as [[result2|e] w2]; [|reflexivity].
    destruct (truthy result2); cbn [negb]; [|reflexivity].
    destruct (normalize model result2); reflexivity.
Qed.

(** Without the Hugging Face token the first provider fails without a
    remote call ... *)
Lemma tryHuggingFace_not_configured (text model : string)
  (customLabels : option (list string)) (w : World) :
  not_configured (HUGGINGFACE_API_TOKEN (env w)) "your_huggingface_token_here" = true ->
  tryHuggingFaceClassification remote text model customLabels w
  = (Normal VNull,
     mkWorld (env w)
       (history w ++
        [TryHuggingFace model;
         ConsoleLog ("Hugging Face classification (" ++ model ++ ") failed:")
                    "Hugging Face API token not configured"])%list).
Proof.
  intros Htoken.
  unfold tryHuggingFaceClassification, callHuggingFaceClassificationAPI, record,
    bind, ret, throw, try_catch, get, modify.
  cbn [env history]. rewrite Htoken. cbn [env history].
  rewrite <- app_assoc. reflexivity.
Qed.

(** ... and without the Gemini key so does the second. *)
Lemma tryGemini_not_configured (text model : string)
  (customLabels : option (list string)) (w : World) :
  not_configured (GOOGLE_GEMINI_API_KEY (env w)) "your_gemini_api_key_here" = true ->
  tryGeminiClassification remote JSON_parse text model customLabels w
  = (Normal VNull,
     mkWorld (env w)
       (history w ++
        [TryGemini model;
         ConsoleLog "Gemini classification failed:" "Gemini API key not configured"])%list).
Proof.
  intros Hkey.
  unfold tryGeminiClassification, record, bind, ret, throw, try_catch, get, modify.
  cbn [env history]. rewrite Hkey. cbn [env history].
  rewrite <- app_assoc. reflexivity.
Qed.

End WithRemote.

End ClassifyFacts.

(** ** Across the routes: credentials and exhausted fallbacks *)
Module RouteFacts.
Import JS Eff Http Scenario.

(** C2, as the code has it.  While the OpenRouter credential is absent,
    empty or the placeholder, the Q&A route (for a body with a question)
    and the enhanced-chat route (for any body) answer HTTP 400 with a
    plain-text message and leave the state untouched.  A missing
    Hugging Face token or Gemini key is never surfaced as such: the
    provider counts as failed, and with both missing the summarization
    and classification routes answer 503 without a remote call. *)
Theorem C2_missing_credentials :
  (forall (remote : QnA.Remote) (input : QnA.Input) (w : QnA.World),
      falsy (QnA.input_question input)
        || negb (is_string (QnA.input_question input)) = false ->
      not_configured (OPENROUTER_API_KEY (QnA.env w)) "your_openrouter_api_key_here" = true ->
      QnA.POST remote (QnA.Parsed input) w
      = (Normal (plain_text 400 "OpenRouter API key not configured"), w))
  /\ (forall (remote : ChatEnhanced.Remote) (input : ChatEnhanced.Input)
             (w : ChatEnhanced.World),
        not_configured (OPENROUTER_API_KEY (ChatEnhanced.env w))
          "your_openrouter_api_key_here" = true ->
        ChatEnhanced.POST remote (ChatEnhanced.Parsed input) w
        = (Normal (plain_text 400
             "OpenRouter API key not configured. Please add your API key to .env.local"),
           w))
  /\ (forall (remote : Summarize.Remote) (input : Summarize.Input) (w : Summarize.World)
             (text : string),
        Summarize.text input = VStr text ->
        Chain.valid_text (VStr text) = true ->
        not_configured (HUGGINGFACE_API_TOKEN (Summarize.env w))
          "your_huggingface_token_here" = true ->
        not_configured (GOOGLE_GEMINI_API_KEY (Summarize.env w))
          "your_gemini_api_key_here" = true ->
        exists events,
          Summarize.POST remote (Summarize.Parsed input) w
          = (Normal (json_error 503
               "All summarization services are currently unavailable. Please check your API keys and try again later."),
             Summarize.mkWorld (Summarize.env w) (Summarize.history w ++ events)%list)
          /\ Chain.remote_calls events = 0)
  /\ (forall (remote : Classify.Remote) (JSON_parse : string -> Completion value)
             (normalize : string -> value -> Completion Classify.ClassificationResult)
             (input : Classify.Input) (w : Classify.World) (text model : string),
        Classify.text input = VStr text -> text <> EmptyString ->
        Classify.model input = Some model -> model <> EmptyString ->
        not_configured (HUGGINGFACE_API_TOKEN (Classify.env w))
          "your_huggingface_token_here" = true ->
        not_configured (GOOGLE_GEMINI_API_KEY (Classify.env w))
          "your_gemini_api_key_here" = true ->
        exists w',
          Classify.POST remote JSON_parse normalize (Classify.Parsed input) w
          = (Normal (json_error 503
               "All classification services are currently unavailable."), w')
          /\ Classify.remote_calls (Classify.history w')
             = Classify.remote_calls (Classify.history w)).
Proof.
  split; [|split; [|split]].
  - exact QnAFacts.qna_not_configured.
  - exact ChatFacts.chat_not_configured.
  - exact SummarizeFacts.summarize_not_configured.
  - intros remote JSON_parse normalize input w text model Htext Hne Hmodel Hm Htoken Hkey.
    rewrite (ClassifyFacts.classify_valid remote JSON_parse normalize input w text model
               Htext Hne Hmodel Hm).
    rewrite (ClassifyFacts.tryHuggingFace_not_configured remote text model _ w Htoken).
    cbn [falsy truthy negb].
    rewrite ClassifyFacts.tryGemini_not_configured by exact Hkey.
    cbn [falsy truthy negb]. eexists. split; [reflexivity|].
    cbn [Classify.history Classify.env]. unfold Classify.remote_calls.
    rewrite !List.filter_app. cbn. rewrite !app_nil_r. reflexivity.
Qed.

(** With no credential at all, a summarization request that the
    provider would serve is answered 503, not 400. *)
Lemma C2_counterexample :
  status_of (Summarize.POST t5_serves (summarize_request None) (summarize_world env_empty))
  = Some 503
  /\ status_of (Summarize.POST t5_serves (summarize_request None)
                  (summarize_world env_empty))
     <> Some 400.
Proof. split; [vm_compute; reflexivity | vm_compute; discriminate]. Qed.

Lemma C2_missing_credentials_witness :
  QnA.POST qa_up qa_request (qa_world env_empty)
  = (Normal (plain_text 400 "OpenRouter API key not configured"), qa_world env_empty)
  /\ ChatEnhanced.POST chat_up no_messages (chat_world env_empty)
     = (Normal (plain_text 400
          "OpenRouter API key not configured. Please add your API key to .env.local"),
        chat_world env_empty)
  /\ (exists events,
        Summarize.POST t5_serves (summarize_request None) (summarize_world env_empty)
        = (Normal (json_error 503
             "All summarization services are currently unavailable. Please check your API keys and try again later."),
           Summarize.mkWorld env_empty ([] ++ events)%list)
        /\ Chain.remote_calls events = 0)
  /\ (exists w',
        Classify.POST classify_down parse_nothing shape_nothing sentiment_request
          (classify_world env_empty)
        = (Normal (json_error 503
             "All classification services are currently unavailable."), w')
        /\ Classify.remote_calls (Classify.history w') = []).
Proof.
  split; [|split; [|split]].
  - apply (proj1 C2_missing_credentials qa_up
             (QnA.mkInput (VStr "What is the answer?") VUndefined) (qa_world env_empty));
      reflexivity.
  - apply (proj1 (proj2 C2_missing_credentials) chat_up
             (ChatEnhanced.mkInput (VArr []) None None) (chat_world env_empty)).
    reflexivity.
  - apply (proj1 (proj2 (proj2 C2_missing_credentials)) t5_serves
             (Summarize.mkInput (VStr text100) None None) (summarize_world env_empty)
             text100); reflexivity.
  - apply (proj2 (proj2 (proj2 C2_missing_credentials)) classify_down
             parse_nothing shape_nothing
             (Classify.mkInput (VStr "What a wonderful day!")
                (Some "sentiment-analysis") None)
             (classify_world env_empty) "What a wonderful day!" "sentiment-analysis");
      try reflexivity; discriminate.
Defined.

(** C6.  A summarization request in which every candidate of the chain
    (the Hugging Face models and then Gemini) fails, and a
    classification request in which the Hugging Face call and then
    Gemini fail, are answered with [success: false] and HTTP 503. *)
Theorem C6_fallback_exhausted :
  (forall (remote : Summarize.Remote) (input : Summarize.Input) (w w' : Summarize.World)
          (text : string),
      Summarize.text input = VStr text ->
      Chain.valid_text (VStr text) = true ->
      Chain.all_fail remote text (Summarize.with_default "concise" (Summarize.summaryType input))
        (Chain.candidates (Summarize.with_default "bart-cnn" (Summarize.model input))) w
      = Some w' ->
      exists r,
        Summarize.POST remote (Summarize.Parsed input) w = (Normal r, w')
        /\ status r = 503 /\ success r = Some false)
  /\ (forall (remote : Classify.Remote) (JSON_parse : string -> Completion value)
             (normalize : string -> value -> Completion Classify.ClassificationResult)
             (input : Classify.Input) (w w1 w2 : Classify.World) (text model : string)
             (primary secondary : value),
        Classify.text input = VStr text -> text <> EmptyString ->
        Classify.model input = Some model -> model <> EmptyString ->
        Classify.tryHuggingFaceClassification remote text model
          (Classify.customLabels input) w = (Normal primary, w1) ->
        truthy primary = false ->
        Classify.tryGeminiClassification remote JSON_parse text model
          (Classify.customLabels input) w1 = (Normal secondary, w2) ->
        truthy secondary = false ->
        exists r,
          Classify.POST remote JSON_parse normalize (Classify.Parsed input) w
          = (Normal r, w2)
          /\ status r = 503 /\ success r = Some false).
Proof.
  split.
  - intros remote input w w' text Htext Hvalid Hfail.
    rewrite (SummarizeFacts.summarize_all_fail remote input w w' text Htext Hvalid Hfail).
    eexists. repeat split.
  - intros remote JSON_parse normalize input w w1 w2 text model primary secondary
      Htext Hne Hmodel Hm Hprimary Hp Hsecondary Hs.
    rewrite (ClassifyFacts.classify_valid remote JSON_parse normalize input w text model
               Htext Hne Hmodel Hm).
    rewrite Hprimary. unfold falsy. rewrite Hp. cbn [negb].
    rewrite Hsecondary, Hs. cbn [negb]. eexists. repeat split.
Qed.

Lemma C6_fallback_exhausted_witness :
  (exists r,
      Summarize.POST all_down (summarize_request (Some "pegasus"))
        (summarize_world env_configured)
      = (Normal r,
         snd (Summarize.POST all_down (summarize_request (Some "pegasus"))
                (summarize_world env_configured)))
      /\ status r = 503 /\ success r = Some false)
  /\ (exists r,
        Classify.POST classify_down parse_nothing shape_nothing sentiment_request
          (classify_world env_configured)
        = (Normal r,
           snd (Classify.POST classify_down parse_nothing shape_nothing sentiment_request
                  (classify_world env_configured)))
        /\ status r = 503 /\ success r = Some false).
Proof.
  split.
  - apply (proj1 C6_fallback_exhausted all_down
             (Summarize.mkInput (VStr text100) (Some "pegasus") None)
             (summarize_world env_configured) _ text100 eq_refl eq_refl).
    vm_compute. reflexivity.
  - apply (proj2 C6_fallback_exhausted classify_down parse_nothing shape_nothing
             (Classify.mkInput (VStr "What a wonderful day!")
                (Some "sentiment-analysis") None)
             (classify_world env_configured)
             (snd (Classify.tryHuggingFaceClassification classify_down
                     "What a wonderful day!" "sentiment-analysis" None
                     (classify_world env_configured)))
             _ "What a wonderful day!" "sentiment-analysis" VNull VNull eq_refl).
    + discriminate.
    + reflexivity.
    + discriminate.
    + vm_compute. reflexivity.
    + reflexivity.
    + vm_compute. reflexivity.
    + reflexivity.
Defined.

End RouteFacts.

(** ** The enhanced-chat route: sessions, messages and the stream *)
Module SessionFacts.
Import JS Eff Http ChatEnhanced.
Local Open Scope list_scope.

#[local] Arguments String.append : simpl never.

Lemma Map_has_get (key : string) (map : list (string * nat)) :
  Map_has key map = true -> exists memory, Map_get key map = Some memory.
Proof.
  induction map as [|[k m] rest IH]; [discriminate|].
  unfold Map_has. cbn [existsb Map_get fst].
  destruct (key =? k); [eauto | exact IH].
Qed.

Lemma Map_get_In (key : string) (map : list (string * nat)) (memory : nat) :
  Map_get key map = Some memory -> In (key, memory) map.
Proof.
  induction map as [|[k m] rest IH]; [discriminate|]. cbn [Map_get].
  destruct (String.eqb_spec key k) as [->|_].
  - intros H. injection H as ->. left. reflexivity.
  - intros H. right. exact (IH H).
Qed.

Lemma Map_get_app (key : string) (map more : list (string * nat)) (memory : nat) :
  Map_get key map = Some memory -> Map_get key (map ++ more) = Some memory.
Proof.
  induction map as [|[k m] rest IH]; [discriminate|]. cbn [Map_get app].
  destruct (key =? k); [auto | exact IH].
Qed.

Lemma Map_get_new (key : string) (map : list (string * nat)) (memory : nat) :
  Map_has key map = false -> Map_get key (map ++ [(key, memory)]) = Some memory.
Proof.
  induction map as [|[k m] rest IH].
  - intros _. cbn. rewrite String.eqb_refl. reflexivity.
  - unfold Map_has. cbn [existsb Map_get app fst].
    destruct (key =? k); [discriminate | exact IH].
Qed.

Lemma Map_has_keys (key : string) (map : list (string * nat)) :
  Map_has key map = false -> ~ In key (List.map fst map).
Proof.
  induction map as [|[k m] rest IH]; [intros _ []|].
  unfold Map_has. cbn [existsb List.map fst].
  destruct (String.eqb_spec key k) as [|Hne]; [discriminate|].
  intros H [Heq|Hin]; [congruence | exact (IH H Hin)].
Qed.

(** Two sessions bound to one memory are one session. *)
Lemma kept_apart_injective (map : list (string * nat)) :
  kept_apart map ->
  forall s1 s2 memory,
    Map_get s1 map = Some memory -> Map_get s2 map = Some memory -> s1 = s2.
Proof.
  intros [_ Hvalues] s1 s2 memory H1 H2.
  apply Map_get_In in H1, H2.
  assert (Hnodup : NoDup (List.map snd map)) by (rewrite Hvalues; apply List.seq_NoDup).
  clear Hvalues. induction map as [|[k m] rest IH]; [contradiction|].
  cbn [List.map snd] in Hnodup. inversion Hnodup as [|? ? Hnotin Hrest]; subst.
  destruct H1 as [H1|H1], H2 as [H2|H2].
  - congruence.
  - injection H1 as -> ->. exfalso. apply Hnotin.
    apply in_map_iff. exists (s2, memory). split; [reflexivity | exact H2].
  - injection H2 as -> ->. exfalso. apply Hnotin.
    apply in_map_iff. exists (s1, memory). split; [reflexivity | exact H1].
  - exact (IH H1 H2 Hrest).
Qed.

(** A new session gets a new memory, and the map stays as it should. *)
Lemma kept_apart_new (key : string) (map : list (string * nat)) :
  kept_apart map -> Map_has key map = false ->
  kept_apart (map ++ [(key, List.length map)]).
Proof.
  intros [Hkeys Hvalues] Hhas. split.
  - rewrite List.map_app. cbn [List.map fst].
    apply NoDup_app; [exact Hkeys | repeat constructor; intros [] |].
    intros x Hx [<-|[]]. exact (Map_has_keys key map Hhas Hx).
  - rewrite List.map_app, List.length_app, Hvalues. cbn [List.map snd List.length].
    rewrite List.seq_app. reflexivity.
Qed.

(** The value of every persona's header starts with a surrogate. *)
Lemma persona_header_throws (p : Persona) :
  exists e, ByteString (AI_PERSONAS_name p) = Throw e.
Proof. destruct p; eexists; reflexivity. Qed.

Section WithRemote.
Variable remote : Remote.

(** What a request does: it is answered 400 or 500 in plain text; the
    map of memories is left alone or gets a new memory for the session
    of the request; and the chain is called at most once, with the
    memory of that session. *)
Lemma POST_run (req : Request) (w : World) :
  exists r w',
    POST remote req w = (Normal r, w')
    /\ env w' = env w
    /\ (status r = 400 \/ status r = 500)
    /\ (exists text, body r = PlainText text)
    /\ (conversationMemories w' = conversationMemories w
        \/ exists input,
             req = Parsed input
             /\ Map_has (session_of input) (conversationMemories w) = false
             /\ conversationMemories w'
                = conversationMemories w
                  ++ [(session_of input, List.length (conversationMemories w))])
    /\ (history w' = history w
        \/ exists input memory content e,
             req = Parsed input
             /\ content_of (last_message (messages input)) = Normal content
             /\ Map_get (session_of input) (conversationMemories w') = Some memory
             /\ history w'
                = history w
                  ++ [ChainStream (createPromptTemplate (persona_of input)) (Some memory)
                        content]
             /\ r = plain_text 500 ("Error: " ++ e)
             /\ match stream remote (history w) (createPromptTemplate (persona_of input))
                        (Some memory) content with
                | Throw rejection => e = rejection
                | Normal _ => ByteString (AI_PERSONAS_name (persona_of input)) = Throw e
                end).
Proof.
  destruct req as [e|input].
  { eexists _, _. split; [reflexivity|]. cbn. repeat split; eauto. }
  unfold POST, getOrCreateMemory, chain_stream, bind, ret, throw, try_catch, get, modify, lift.
  fold (session_of input). fold (persona_of input).
  destruct (not_configured _ _).
  { eexists _, _. split; [reflexivity|]. cbn. repeat split; eauto. }
  destruct (falsy (messages input) || negb (isArray (messages input))).
  { eexists _, _. split; [reflexivity|]. cbn. repeat split; eauto. }
  destruct (persona_header_throws (persona_of input)) as (eh & Hheader).
  destruct (Map_has (session_of input) (conversationMemories w)) eqn:Hhas;
    cbn [env history conversationMemories].
  - destruct (Map_has_get _ _ Hhas) as (memory & Hget). rewrite Hget.
    destruct (content_of _) as [content|e] eqn:Hcontent; cbn.
    2:{ eexists _, _. split; [reflexivity|]. cbn. repeat split; eauto. }
    destruct (stream remote (history w) _ _ content) as [script|e] eqn:Hs; cbn.
    + rewrite Hheader. cbn.
      eexists _, _. split; [reflexivity|]. cbn. repeat split; eauto.
      all: right; exists input, memory, content, eh; rewrite Hs; repeat split; auto.
    + eexists _, _. split; [reflexivity|]. cbn. repeat split; eauto.
      all: right; exists input, memory, content, e; rewrite Hs; repeat split; auto.
  - rewrite (Map_get_new _ _ (List.length (conversationMemories w)) Hhas).
    destruct (content_of _) as [content|e] eqn:Hcontent; cbn.
    2:{ eexists _, _. split; [reflexivity|]. cbn. repeat split; eauto.
        all: right; exists input; auto. }
    destruct (stream remote (history w) _ _ content) as [script|e] eqn:Hs; cbn.
    + rewrite Hheader. cbn.
      eexists _, _. split; [reflexivity|]. cbn. repeat split; eauto.
      all: try (right; exists input; solve [auto]).
      all: right; exists input, (List.length (conversationMemories w)), content, eh;
        rewrite Hs; repeat split; auto; apply Map_get_new; exact Hhas.
    + eexists _, _. split; [reflexivity|]. cbn. repeat split; eauto.
      all: try (right; exists input; solve [auto]).
      all: right; exists input, (List.length (conversationMemories w)), content, e;
        rewrite Hs; repeat split; auto; apply Map_get_new; exact Hhas.
Qed.

(** X1.  Conversation memories are kept apart.  From a state whose
    memories are distinct objects bound to distinct sessions, a request
    leaves every session with the memory it had, adds at most one memory
    (a new object, for a session that had none), no two sessions share a
    memory afterwards, and a call to the chain that the request makes
    carries the memory bound to the session of the request. *)
Theorem sessions_stay_distinct (req : Request) (w w' : World)
  (c : Completion (Response unit)) :
  kept_apart (conversationMemories w) ->
  POST remote req w = (c, w') ->
  kept_apart (conversationMemories w')
  /\ (forall s memory,
        Map_get s (conversationMemories w) = Some memory ->
        Map_get s (conversationMemories w') = Some memory)
  /\ (forall s1 s2 memory,
        Map_get s1 (conversationMemories w') = Some memory ->
        Map_get s2 (conversationMemories w') = Some memory -> s1 = s2)
  /\ (List.length (conversationMemories w') <= List.length (conversationMemories w) + 1)%nat
  /\ (forall events prompt memory content,
        history w' = history w ++ events ->
        In (ChainStream prompt memory content) events ->
        exists input,
          req = Parsed input
          /\ memory <> None
          /\ memory = Map_get (session_of input) (conversationMemories w')).
Proof.
  intros Hkept Hpost.
  destruct (POST_run req w) as (r & w0 & Hrun & _ & _ & _ & Hmap & Hhistory).
  rewrite Hrun in Hpost. injection Hpost as _ <-.
  assert (Hkept' : kept_apart (conversationMemories w0)).
  { destruct Hmap as [-> | (input & _ & Hhas & ->)];
      [exact Hkept | apply kept_apart_new; assumption]. }
  split; [exact Hkept'|]. split; [|split; [|split]].
  - intros s memory Hget.
    destruct Hmap as [-> | (input & _ & _ & ->)]; [exact Hget | apply Map_get_app; exact Hget].
  - apply kept_apart_injective. exact Hkept'.
  - destruct Hmap as [-> | (input & _ & _ & ->)]; [lia|].
    rewrite List.length_app. cbn. lia.
  - intros events prompt memory content Hevents Hin.
    destruct Hhistory as [Hsame | (input & m & content0 & e & -> & _ & Hget & Hh & _)].
    + rewrite Hsame in Hevents.
      rewrite <- (app_nil_r (history w)) in Hevents at 1.
      apply app_inv_head in Hevents. subst events. contradiction.
    + rewrite Hh in Hevents. apply app_inv_head in Hevents. subst events.
      destruct Hin as [Hin|[]]. injection Hin as _ <- _.
      exists input. split; [reflexivity|]. split; [discriminate|].
      symmetry. exact Hget.
Qed.

(** X2.  Only the last message of a request reaches the chain: two
    requests that differ in the messages before the last one are
    answered alike. *)
Theorem only_last_message_counts (before before' : list value) (lastMessage : value)
  (p : option Persona) (s : option string) (w : World) :
  POST remote (Parsed (mkInput (VArr (before ++ [lastMessage])) p s)) w
  = POST remote (Parsed (mkInput (VArr (before' ++ [lastMessage])) p s)) w.
Proof.
  unfold POST, bind, ret, throw, try_catch, get, lift.
  cbn [messages persona sessionId falsy truthy isArray negb orb last_message].
  rewrite !List.last_last. reflexivity.
Qed.

(** X3.  No stream is delivered.  When the credential is configured,
    [messages] is an array and its last message has a [content] to read,
    the chain is called once, with the prompt of the persona, the memory
    of the session and that content, and the request is answered 500 in
    plain text: with the rejection of [chain.stream], or else with the
    [TypeError] of the [X-AI-Persona] header, whose value starts with a
    code unit above 255.  So every request to the route is answered 400
    or 500, in plain text. *)
Theorem stream_is_not_delivered (input : Input) (w : World) (content : value) :
  not_configured (OPENROUTER_API_KEY (env w)) "your_openrouter_api_key_here" = false ->
  isArray (messages input) = true ->
  content_of (last_message (messages input)) = Normal content ->
  (exists memory e w',
     POST remote (Parsed input) w = (Normal (plain_text 500 ("Error: " ++ e)), w')
     /\ Map_get (session_of input) (conversationMemories w') = Some memory
     /\ history w'
        = history w
          ++ [ChainStream (createPromptTemplate (persona_of input)) (Some memory) content]
     /\ match stream remote (history w) (createPromptTemplate (persona_of input))
                (Some memory) content with
        | Throw rejection => e = rejection
        | Normal _ =>
            ByteString (AI_PERSONAS_name (persona_of input)) = Throw e
            /\ exists unit, first_above_255 0 (AI_PERSONAS_name (persona_of input))
                            = Some (0, unit)
        end)
  /\ (forall req w0,
        exists r w1,
          POST remote req w0 = (Normal r, w1)
          /\ (status r = 400 \/ status r = 500)
          /\ exists text, body r = PlainText text).
Proof.
  intros Hkey Harray Hcontent. split.
  - destruct (POST_run (Parsed input) w) as (r & w' & Hrun & _ & _ & _ & _ & Hhistory).
    destruct Hhistory as [Hsame | (input0 & m & content0 & e & Heq & Hc & Hget & Hh & -> & Hs)].
    + exfalso. revert Hrun.
      unfold POST, getOrCreateMemory, chain_stream, bind, ret, throw, try_catch, get,
        modify, lift.
      rewrite Hkey, Harray. unfold falsy.
      assert (Htruthy : truthy (messages input) = true)
        by (destruct (messages input); try discriminate; reflexivity).
      rewrite Htruthy. cbn [negb orb].
      destruct (persona_header_throws
                  (match persona input with Some p => p | None => general end))
        as (eh & Hheader).
      destruct (Map_has _ (conversationMemories w));
        cbn [env history conversationMemories]; rewrite Hcontent; cbn;
        destruct (stream remote (history w) _ _ content); cbn;
        rewrite ?Hheader; cbn; intros H; injection H as _ <-; cbn in Hsame;
        rewrite <- (app_nil_r (history w)) in Hsame at 2;
        apply app_inv_head in Hsame; discriminate.
    + injection Heq as <-. rewrite Hcontent in Hc. injection Hc as <-.
      exists m, e, w'. split; [exact Hrun|]. split; [exact Hget|]. split; [exact Hh|].
      destruct (stream remote (history w) _ _ content); [|exact Hs].
      split; [exact Hs|]. destruct (persona_of input); eexists; reflexivity.
  - intros req w0.
    destruct (POST_run req w0) as (r & w1 & Hrun & _ & Hstatus & Hbody & _).
    exists r, w1. auto.
Qed.

(** X4.  With the credential configured, a request whose [messages] is
    missing, [null] or not an array is answered 400 with a plain-text
    message; no memory is created and the chain is not called. *)
Theorem invalid_messages_rejected (input : Input) (w : World) :
  not_configured (OPENROUTER_API_KEY (env w)) "your_openrouter_api_key_here" = false ->
  isArray (messages input) = false ->
  POST remote (Parsed input) w = (Normal (plain_text 400 "Invalid messages format"), w).
Proof.
  intros Hkey Harr. unfold POST, bind, ret, throw, try_catch, get.
  rewrite Hkey, Harr. cbn [negb]. rewrite orb_true_r. reflexivity.
Qed.

End WithRemote.

End SessionFacts.

(** ** The document route: failures, reads and provenance *)
Module StoreFacts.
Import JS Eff Http Rag Ledger Provenance.
Local Open Scope list_scope.

#[local] Arguments String.append : simpl never.

Section WithServices.
Variable library : Library.
Variable remote : Remote.

(** X5.  A file whose declared type is not PDF, DOCX or plain text is
    answered 500 with the unsupported-type message; nothing is embedded
    and store and count are untouched. *)
Theorem unsupported_type_rejected (req : Request) (w : World) (file : File) :
  action_is (action req) "upload" = true ->
  formData req = Normal (Some file) ->
  file_type file <> "application/pdf" ->
  file_type file
    <> "application/vnd.openxmlformats-officedocument.wordprocessingml.document" ->
  file_type file <> "text/plain" ->
  POST library remote req w
  = (Normal (json_error 500
       "Server error: Unsupported file type. Please upload PDF, DOCX, or TXT files."), w).
Proof.
  intros Haction Hform Hpdf Hdocx Htxt.
  unfold POST, extractTextFromFile, bind, ret, throw, try_catch, lift.
  rewrite Haction, Hform.
  destruct (String.eqb_spec (file_type file) "application/pdf"); [contradiction|].
  destruct (String.eqb_spec (file_type file)
              "application/vnd.openxmlformats-officedocument.wordprocessingml.document");
    [contradiction|].
  destruct (String.eqb_spec (file_type file) "text/plain"); [contradiction|].
  reflexivity.
Qed.

(** X6.  Ingestion is all or nothing: when the embedding service
    rejects the chunks of a file, the upload is answered 500 with the
    service's message, and the store and the count are as before. *)
Theorem embedding_failure_keeps_store (req : Request) (w : World) (file : File)
  (text : string) (e : Exception) :
  action_is (action req) "upload" = true ->
  formData req = Normal (Some file) ->
  extractTextFromFile library file w = (Normal text, w) ->
  embedDocuments remote (history w) (splitText library text) = Throw e ->
  POST library remote req w
  = (Normal (json_error 500 ("Server error: " ++ e)%string),
     mkWorld (env w) (vectorStore w) (documentCount w)
             (history w ++ [EmbedDocuments (splitText library text)])).
Proof.
  intros Haction Hform Htext Hembed.
  unfold POST, bind, ret, try_catch, lift. rewrite Haction, Hform, Htext.
  unfold processDocument, embed_entries, set_vectorStore, set_documentCount, record,
    bind, ret, get, modify, lift.
  rewrite !List.map_map. cbn [pageContent]. rewrite List.map_id.
  destruct w as [e0 [memoryVectors|] count events]; cbn in *; rewrite Hembed; reflexivity.
Qed.


(** X8.  Only uploads and clears write: a query, a status request or a
    request with another action leaves the store and the count as they
    were, whatever it is answered. *)
Theorem reads_leave_store (c : Call) (w : World) :
  is_upload c = false ->
  is_clear c = false ->
  vectorStore (snd (answer library remote c w)) = vectorStore w
  /\ documentCount (snd (answer library remote c w)) = documentCount w
  /\ env (snd (answer library remote c w)) = env w.
Proof.
  intros Hup Hclear.
  destruct (RagFacts.answer_step library remote c w) as (r & w' & -> & Henv & Hstep).
  cbn [snd].
  destruct Hstep as [(Hc & _) | [(_ & Hu & _) | (_ & _ & Hn & Hs)]]; [congruence.. | auto].
Qed.

(** When the requests are answered one after the other, the store is
    [null] exactly when the count is zero. *)
Lemma store_null_iff_zero (calls : list Call) (w : World) :
  (vectorStore w = None <-> documentCount w = 0) ->
  (vectorStore (snd (serve library remote calls w)) = None
   <-> documentCount (snd (serve library remote calls w)) = 0).
Proof.
  revert w. induction calls as [|c rest IH]; intros w Hinv; [exact Hinv|].
  cbn [serve].
  destruct (RagFacts.answer_step library remote c w) as (r & w' & -> & _ & Hstep).
  specialize (IH w').
  destruct (serve library remote rest w') as [rs w'']. cbn [snd] in *.
  apply IH.
  destruct Hstep as [(_ & -> & ->)
                    | [(_ & _ & _ & _ & -> & _ & added & -> & _) | (_ & _ & -> & ->)]].
  - split; reflexivity.
  - split; [discriminate | lia].
  - exact Hinv.
Qed.

(** An upload answered with success reports the name of its file, and
    the entries it adds carry that name. *)
Lemma upload_reports_name (req : Request) (w : World) :
  action_is (action req) "upload" = true ->
  exists r w',
    POST library remote req w = (Normal r, w')
    /\ ((exists filename added,
           reported_name r = Some filename
           /\ vectorStore w' = Some (entries w ++ added)
           /\ Forall (fun m => source m = filename) added)
        \/ (reported_name r = None /\ vectorStore w' = vectorStore w)).
Proof.
  intros Haction. unfold POST. rewrite Haction.
  unfold bind, ret, throw, try_catch, get, lift.
  destruct (formData req) as [[file|]|e].
  - destruct (RagFacts.extractTextFromFile_pure library file w) as ([text|e] & ->).
    + destruct (RagFacts.processDocument_run library remote text (file_name file) w)
        as [(added & -> & Hsrc) | (e & ->)].
      * eexists _, _. split; [reflexivity|]. left. exists (file_name file), added.
        repeat split. exact Hsrc.
      * eexists _, _. split; [reflexivity|]. right. split; reflexivity.
    + eexists _, _. split; [reflexivity|]. right. split; reflexivity.
  - eexists _, _. split; [reflexivity|]. right. split; reflexivity.
  - eexists _, _. split; [reflexivity|]. right. split; reflexivity.
Qed.

Lemma serve_provenance (calls : list Call) (w : World) (names : list string) :
  incl (List.map source (entries w)) names ->
  incl (List.map source (entries (snd (serve library remote calls w))))
       (uploaded names (List.combine calls (fst (serve library remote calls w)))).
Proof.
  revert w names. induction calls as [|c rest IH]; intros w names Hinv; [exact Hinv|].
  cbn [serve]. unfold answer.
  assert (Hstep : exists r w',
             handler library remote c w = (Normal r, w')
             /\ incl (List.map source (entries w'))
                     (if is_clear c then []
                      else match reported_name r with
                           | Some filename => names ++ [filename]
                           | None => names
                           end)).
  { destruct c as [req|]; cbn [handler is_clear].
    - destruct (action_is (action req) "upload") eqn:Hup.
      + rewrite (RagFacts.action_is_exclusive _ "upload" "clear" Hup) by discriminate.
        destruct (upload_reports_name req w Hup)
          as (r & w' & -> & [(filename & added & Hname & Hstore & Hsrc) | (Hname & Hstore)]).
        * exists r, w'. split; [reflexivity|]. rewrite Hname.
          unfold entries at 1. rewrite Hstore.
          rewrite List.map_app. apply incl_app; [apply incl_appl; exact Hinv|].
          apply incl_appr. intros x Hx. apply in_map_iff in Hx as (m & <- & Hm).
          rewrite Forall_forall in Hsrc. rewrite (Hsrc m Hm). left. reflexivity.
        * exists r, w'. split; [reflexivity|]. rewrite Hname.
          unfold entries in *. rewrite Hstore. exact Hinv.
      + destruct (action_is (action req) "query") eqn:Hq.
        * rewrite (RagFacts.action_is_exclusive _ "query" "clear" Hq) by discriminate.
          destruct (RagFacts.POST_query library remote req w Hq) as (r & ev & -> & Hr).
          eexists _, _. split; [reflexivity|].
          unfold upload_succeeded in Hr. unfold reported_name.
          destruct (body r) as [[]| | |]; try discriminate; exact Hinv.
        * destruct (action_is (action req) "clear") eqn:Hc.
          -- rewrite (RagFacts.POST_clear library remote req w Hc).
             eexists _, _. split; [reflexivity|]. intros x [].
          -- rewrite (RagFacts.POST_invalid_action library remote req w Hup Hq Hc).
             eexists _, _. split; [reflexivity|]. exact Hinv.
    - eexists _, _. split; [reflexivity|]. exact Hinv. }
  destruct Hstep as (r & w' & -> & Hincl).
  specialize (IH w' _ Hincl).
  destruct (serve library remote rest w') as [rs w'']. exact IH.
Qed.

(** X10.  Every chunk in the store comes from a file the client saw
    processed: after any sequence of calls, the source of each entry is
    the name reported by a successful upload since the last clear. *)
Theorem sources_were_uploaded (e : Env) (calls : list Call) (m : MemoryVector) :
  In m (entries (snd (serve library remote calls (initial e)))) ->
  In (source m)
     (uploaded [] (List.combine calls (fst (serve library remote calls (initial e))))).
Proof.
  intros Hin. apply (serve_provenance calls (initial e) []); [intros x []|].
  apply in_map. exact Hin.
Qed.

(** X11.  No query is answered.  With documents loaded and the
    credential configured, the chain is invoked with the object
    [{ question }]; the retriever hands that object to [embedQuery],
    which throws a [TypeError] before any request is made, and the
    handler answers 500 with its message.  So every query is answered
    400 or 500 with [success: false], and the state, with its history of
    remote calls, is as before. *)
Theorem queries_are_not_answered (req : Request) (w : World) :
  action_is (action req) "query" = true ->
  (exists error,
     POST library remote req w = (Normal (json_error 400 error), w)
     \/ POST library remote req w = (Normal (json_error 500 error), w))
  /\ (forall question memoryVectors,
        json_question req = Normal (VStr question) ->
        question <> EmptyString ->
        vectorStore w = Some memoryVectors ->
        not_configured (OPENROUTER_API_KEY (env w)) "your_openrouter_api_key_here" = false ->
        ragChain_invoke library remote memoryVectors (VObj [("question", VStr question)]) w
        = (Throw "text.replace is not a function", w)
        /\ POST library remote req w
           = (Normal (json_error 500 "Server error: text.replace is not a function"), w)).
Proof.
  intros Haction. unfold POST.
  rewrite (RagFacts.action_is_exclusive _ "query" "upload" Haction) by discriminate.
  rewrite Haction.
  unfold queryDocuments, ragChain_invoke, embedQuery_of, record, bind, ret, throw,
    try_catch, get, modify, lift.
  split.
  - destruct (json_question req) as [question|e]; [|eauto].
    destruct (falsy question || negb (is_string question)); [eauto|].
    destruct (vectorStore w) as [memoryVectors|]; [|eauto].
    destruct (not_configured _ _); eauto.
  - intros question memoryVectors Hjson Hq Hstore Hkey.
    split; [reflexivity|]. rewrite Hjson.
    unfold falsy. cbn [truthy is_string negb orb string_of].
    destruct (String.eqb_spec question EmptyString) as [|_]; [contradiction|].
    cbn [negb orb]. rewrite Hstore, Hkey. reflexivity.
Qed.

End WithServices.

End StoreFacts.

(** ** The document route under interleaved requests *)
Module InterleavedFacts.
Import JS Eff Http Rag Ledger Interleaved.
Local Open Scope list_scope.

#[local] Arguments String.append : simpl never.

Section WithServices.
Variable library : Library.
Variable remote : Remote.

(** A request that is answered before the next one arrives does what
    its handler does in one piece. *)
Lemma call_runs (c : Call) (s : System) :
  pending s = [] ->
  exists s',
    run library remote [Arrive c; Complete 0] s
    = ([fst (answer library remote c (world s))], s')
    /\ world s' = snd (answer library remote c (world s))
    /\ pending s' = [].
Proof.
  intros Hidle.
  assert (Hother : forall r w',
             answer library remote c (world s) = (r, w') ->
             arrive library remote c s
             = (Some r, mkSystem w' (object s) (objects s) (pending s)) ->
             exists s',
               run library remote [Arrive c; Complete 0] s = ([r], s')
               /\ world s' = w' /\ pending s' = []).
  { intros r w' Hanswer Harrive. cbn [run step]. rewrite Harrive.
    cbn [pending]. rewrite Hidle. cbn. eexists.
    split; [reflexivity|]. split; [reflexivity | first [reflexivity | exact Hidle]]. }
  destruct c as [req|].
  2:{ destruct (answer library remote CallGET (world s)) as [r w'] eqn:Hanswer.
      apply (Hother r w' eq_refl). cbn [arrive]. rewrite Hanswer. reflexivity. }
  destruct (action_is (action req) "upload") eqn:Hup.
  2:{ destruct (answer library remote (CallPOST req) (world s)) as [r w'] eqn:Hanswer.
      apply (Hother r w' eq_refl). cbn [arrive]. rewrite Hup, Hanswer. reflexivity. }
  clear Hother. cbn [run step arrive]. rewrite Hup.
  unfold answer, handler, POST. rewrite Hup.
  unfold bind, ret, throw, try_catch, get, lift.
  destruct (formData req) as [[f|]|e].
  - destruct (RagFacts.extractTextFromFile_pure library f (world s)) as ([text|e] & ->);
      cbn [fst].
    + unfold suspend, resume, processDocument, embed_entries, set_vectorStore,
        set_documentCount, record, bind, ret, throw, get, modify, lift.
      rewrite Hidle.
      destruct (vectorStore (world s)) as [memoryVectors|] eqn:Hstore;
        cbn [pending List.nth_error remove_nth app world object objects reply target docs
             file env vectorStore documentCount history];
        rewrite ?Hstore;
        destruct (embedDocuments remote (history (world s)) _) as [vectors|e];
        cbn [fst snd world pending env vectorStore documentCount history];
        rewrite ?Nat.eqb_refl; cbn [fst snd];
        eexists; repeat split.
    + rewrite Hidle. cbn. eexists. split; [reflexivity|]. split; [reflexivity | first [reflexivity | exact Hidle]].
  - rewrite Hidle. cbn. eexists. split; [reflexivity|]. split; [reflexivity | first [reflexivity | exact Hidle]].
  - rewrite Hidle. cbn. eexists. split; [reflexivity|]. split; [reflexivity | first [reflexivity | exact Hidle]].
Qed.

(** Answering the calls one after the other is one of the schedules. *)
Lemma serve_is_sequential (calls : list Call) (s : System) :
  pending s = [] ->
  fst (run library remote (sequential calls) s) = fst (serve library remote calls (world s))
  /\ world (snd (run library remote (sequential calls) s))
     = snd (serve library remote calls (world s))
  /\ pending (snd (run library remote (sequential calls) s)) = [].
Proof.
  revert s. induction calls as [|c rest IH]; intros s Hidle; [repeat split; exact Hidle|].
  destruct (call_runs c s Hidle) as (s' & Hrun & Hworld & Hidle').
  unfold sequential. cbn [List.flat_map app]. fold (sequential rest).
  cbn [run] in Hrun |- *.
  destruct (step library remote (Arrive c) s) as [r1 s1].
  destruct (step library remote (Complete 0) s1) as [r2 s2].
  assert (Hs2 : s2 = s' /\ (match r1 with Some r => [r] | None => [] end
                            ++ match r2 with Some r => [r] | None => [] end)
                           = [fst (answer library remote c (world s))]).
  { destruct r1, r2; cbn in Hrun |- *; split; congruence. }
  destruct Hs2 as [-> Hresponses].
  destruct (IH s' Hidle') as (Hfst & Hsnd & Hpending).
  cbn [serve]. destruct (answer library remote c (world s)) as [r w'] eqn:Hanswer.
  cbn [fst snd] in *. subst w'.
  destruct (run library remote (sequential rest) s') as [rs s''].
  destruct (serve library remote rest (world s')) as [rs' w''].
  cbn [fst snd] in *. subst rs' w''.
  repeat split; [|exact Hpending].
  destruct r1, r2; cbn in Hresponses; try discriminate;
    injection Hresponses as <-; reflexivity.
Qed.

(** Whatever the schedule, a store that is not [null] has been counted. *)
Lemma step_counted (a : Action) (s : System) :
  (vectorStore (world s) <> None -> 0 < documentCount (world s)) ->
  vectorStore (world (snd (step library remote a s))) <> None ->
  0 < documentCount (world (snd (step library remote a s))).
Proof.
  intros Hinv.
  assert (Hanswer : forall c,
             is_upload c = false ->
             vectorStore (snd (answer library remote c (world s))) <> None ->
             0 < documentCount (snd (answer library remote c (world s)))).
  { intros c Hup.
    destruct (RagFacts.answer_step library remote c (world s)) as (r & w' & -> & _ & Hstep).
    cbn [snd].
    destruct Hstep as [(_ & -> & _) | [(_ & Hu & _) | (_ & _ & -> & ->)]];
      [intros H; contradiction | congruence | exact Hinv]. }
  destruct a as [c|i]; cbn [step].
  - destruct c as [req|]; cbn [arrive].
    + destruct (action_is (action req) "upload") eqn:Hup.
      * destruct (formData req) as [[f|]|e]; try exact Hinv.
        destruct (fst (extractTextFromFile library f (world s))); [|exact Hinv].
        unfold suspend. destruct (vectorStore (world s)) eqn:Hstore; cbn.
        -- intros _. apply Hinv. discriminate.
        -- intros H. contradiction.
      * specialize (Hanswer (CallPOST req) Hup).
        destruct (answer library remote (CallPOST req) (world s)). exact Hanswer.
    + specialize (Hanswer CallGET eq_refl).
      destruct (answer library remote CallGET (world s)). exact Hanswer.
  - destruct (List.nth_error (pending s) i) as [p|]; [|exact Hinv].
    unfold resume. cbn [world]. destruct (reply p); cbn; [intros _; lia | exact Hinv].
Qed.

Lemma run_counted (schedule : list Action) (s : System) :
  (vectorStore (world s) <> None -> 0 < documentCount (world s)) ->
  vectorStore (world (snd (run library remote schedule s))) <> None ->
  0 < documentCount (world (snd (run library remote schedule s))).
Proof.
  revert s. induction schedule as [|a rest IH]; intros s Hinv; [exact Hinv|].
  cbn [run]. pose proof (step_counted a s Hinv) as Hstep.
  destruct (step library remote a s) as [r s']. cbn [snd] in Hstep.
  specialize (IH s' Hstep).
  destruct (run library remote rest s') as [rs s'']. exact IH.
Qed.

(** What one action does to the count. *)
Lemma step_count (a : Action) (s : System) :
  documentCount (world (snd (step library remote a s)))
  = counted (documentCount (world s)) [(a, fst (step library remote a s))].
Proof.
  assert (Hanswer : forall c,
             is_upload c = false ->
             documentCount (snd (answer library remote c (world s)))
             = counted (documentCount (world s))
                 [(Arrive c, Some (fst (answer library remote c (world s))))]).
  { intros c Hup. cbn [counted].
    destruct (RagFacts.answer_step library remote c (world s)) as (r & w' & -> & _ & Hstep).
    cbn [fst snd].
    destruct Hstep as [(-> & _ & ->) | [(_ & Hu & _) | (-> & -> & -> & _)]];
      [reflexivity | congruence | reflexivity]. }
  destruct a as [c|i]; cbn [step].
  - destruct c as [req|]; cbn [arrive].
    + destruct (action_is (action req) "upload") eqn:Hup.
      * cbn [counted is_clear].
        rewrite (RagFacts.action_is_exclusive _ "upload" "clear" Hup) by discriminate.
        destruct (formData req) as [[f|]|e]; try reflexivity.
        destruct (fst (extractTextFromFile library f (world s))); [|reflexivity].
        unfold suspend. destruct (vectorStore (world s)); reflexivity.
      * specialize (Hanswer (CallPOST req) Hup).
        destruct (answer library remote (CallPOST req) (world s)). exact Hanswer.
    + specialize (Hanswer CallGET eq_refl).
      destruct (answer library remote CallGET (world s)). exact Hanswer.
  - destruct (List.nth_error (pending s) i) as [p|]; [|reflexivity].
    unfold resume. cbn [world]. destruct (reply p); reflexivity.
Qed.

(** However the requests overlap, [documentCount] is the number of
    uploads answered with success since the last clear. *)
Lemma run_count (schedule : list Action) (s : System) :
  documentCount (world (snd (run library remote schedule s)))
  = counted (documentCount (world s)) (log library remote schedule s).
Proof.
  revert s. induction schedule as [|a rest IH]; intros s; [reflexivity|].
  cbn [run log]. pose proof (step_count a s) as Hstep.
  destruct (step library remote a s) as [r s']. cbn [fst snd] in Hstep.
  specialize (IH s').
  destruct (run library remote rest s') as [rs s'']. cbn [snd] in *.
  rewrite IH, Hstep. reflexivity.
Qed.

(** X9.  The status endpoint reports the two variables as they are,
    however the requests overlap: after any schedule of arrivals and
    completed embedding calls, [totalDocuments] is [documentCount],
    which is the number of uploads answered with success since the last
    clear; [hasDocuments] and the ready message say that [vectorStore]
    is not [null], and then [totalDocuments] is positive; the request
    changes nothing.  (A positive [totalDocuments] does not say that
    there is a store: see [clear_during_upload] below.) *)
Theorem status_is_consistent (e : Env) (schedule : list Action) :
  exists total hasDocuments message,
    GET (world (snd (run library remote schedule (start e))))
    = (Normal (json_data (Status total hasDocuments message)),
       world (snd (run library remote schedule (start e))))
    /\ total = documentCount (world (snd (run library remote schedule (start e))))
    /\ total = counted 0 (log library remote schedule (start e))
    /\ (hasDocuments = true
        <-> vectorStore (world (snd (run library remote schedule (start e)))) <> None)
    /\ (message = "Ready to answer questions"%string <-> hasDocuments = true)
    /\ (hasDocuments = true -> 0 < total).
Proof.
  pose proof (run_counted schedule (start e)) as Hinv.
  pose proof (run_count schedule (start e)) as Hcount.
  set (w := world (snd (run library remote schedule (start e)))) in *.
  assert (Hcounted : vectorStore w <> None -> 0 < documentCount w).
  { apply Hinv. cbn. intros H. contradiction. }
  unfold GET, bind, ret, get.
  eexists _, _, _. split; [reflexivity|]. split; [reflexivity|].
  split; [exact Hcount|].
  destruct (vectorStore w) as [memoryVectors|].
  - repeat split; intros; try reflexivity; try discriminate.
    apply Hcounted. discriminate.
  - repeat split; intros; try discriminate; contradiction.
Qed.

End WithServices.

Import Scenario.

(** A clear that is handled while an upload waits for its vectors: the
    upload counts its document afterwards, and the status endpoint
    reports one document and no store. *)
Example clear_during_upload :
  let s := snd (run one_chunk rag_up
                  [Arrive notes; Complete 0; Arrive notes; Arrive (CallPOST clear_request);
                   Complete 0]
                  (start env_configured)) in
  fst (GET (world s))
  = Normal (json_data (Status 1 false "No documents uploaded"))
  /\ pending s = [].
Proof. vm_compute. split; reflexivity. Qed.

(** Two first uploads that overlap: both are counted, and the store is
    the one of the upload that finished last. *)
Example overlapping_first_uploads :
  let s := snd (run one_chunk rag_up
                  [Arrive notes; Arrive notes; Complete 0; Complete 0]
                  (start env_configured)) in
  documentCount (world s) = 2 /\ List.length (entries (world s)) = 1.
Proof. vm_compute. split; reflexivity. Qed.

End InterleavedFacts.

(** ** The Q&A route: answers and validation *)
Module AnswerFacts.
Import JS Eff Http QnA Notions.

Section WithRemote.
Variable remote : Remote.

(** X12.  A successful answer comes from exactly one call of the chain
    with the question and the context of the request (the empty string
    when none was sent); it echoes both, carries the model's content as
    answer, and its confidence is the constant 95. *)
Theorem answer_has_fixed_confidence (req : Request) (w w' : World)
  (r : Response QnAResult) :
  POST remote req w = (Normal r, w') ->
  status r = 200 ->
  exists input q content,
    req = Parsed input
    /\ input_question input = VStr q
    /\ qaChain remote (history w) q (context_or_empty input) = Normal content
    /\ body r = JsonData {| question := q; answer := content;
                            context := context_or_empty input; confidence := 95 |}
    /\ history w' = (history w ++ [ChainInvoke q (context_or_empty input)])%list.
Proof.
  intros Hpost Hstatus.
  destruct req as [e|input]; [injection Hpost as <- _; discriminate|].
  unfold POST, invoke, bind, ret, throw, try_catch, get, modify, lift in Hpost.
  fold (context_or_empty input) in Hpost.
  destruct (falsy (input_question input) || negb (is_string (input_question input)))
    eqn:Hq; [injection Hpost as <- _; discriminate|].
  destruct (not_configured _ _); [injection Hpost as <- _; discriminate|].
  destruct (input_question input) as [| | | |q| | |] eqn:Hquestion;
    unfold falsy in Hq; cbn [truthy is_string negb orb] in Hq;
    rewrite ?orb_true_r in Hq; try discriminate.
  cbn [string_of env history] in Hpost.
  destruct (qaChain remote (history w) q (context_or_empty input)) as [content|e] eqn:Hchain;
    [|injection Hpost as <- _; discriminate].
  injection Hpost as <- <-.
  exists input, q, content. repeat split; try reflexivity; assumption.
Qed.

(** X13.  A request without a question (missing, empty or not a string)
    is answered 400 with a JSON error before the credential is looked
    at, and the chain is not called. *)
Theorem question_is_required (input : Input) (w : World) :
  (forall q, input_question input = VStr q -> q = EmptyString) ->
  POST remote (Parsed input) w = (Normal (json_error 400 "Question is required"), w).
Proof.
  intros Hq. unfold POST, bind, ret, throw, try_catch.
  destruct (input_question input) as [| |b|x|q|elems|fields|name] eqn:Hquestion;
    unfold falsy; cbn [truthy is_string negb orb]; rewrite ?orb_true_r; try reflexivity.
  rewrite (Hq q eq_refl). reflexivity.
Qed.

End WithRemote.

End AnswerFacts.

(** ** The summarization route: statuses and the Gemini fallback *)
Module FallbackFacts.
Import JS Eff Http Summarize Chain SummarizeFacts Notions.

#[local] Arguments String.append : simpl never.

Section WithRemote.
Variable remote : Remote.

(** The loop never throws and only adds to the history. *)
Lemma loop_returns (text : string) (modelOrder : list string) (summary : value)
  (w : World) :
  exists summary' events,
    for_modelOrder remote text modelOrder summary w = (Normal summary', after w events).
Proof.
  revert summary w. induction modelOrder as [|modelKey rest IH]; intros summary w.
  - exists summary, []. rewrite after_nil. reflexivity.
  - cbn [for_modelOrder]. destruct (truthy (HUGGINGFACE_MODELS modelKey)); [|apply IH].
    unfold bind.
    destruct (tryHuggingFace_caught remote text modelKey w) as (v & ev & -> & _).
    cbv beta iota. destruct (truthy v); [exists v, ev; reflexivity|].
    destruct (IH v (after w ev)) as (v' & ev' & ->).
    exists v', (ev ++ ev')%list. rewrite after_after. reflexivity.
Qed.

(** X14.  The handler never throws and only adds to its trace; every
    response has status 200, 400, 500 or 503, its [success] flag is
    [true] exactly for 200, and a 400 leaves the trace as it was. *)
Theorem summarize_statuses (req : Request) (w : World) :
  exists r events,
    POST remote req w = (Normal r, after w events)
    /\ In (status r) [200; 400; 500; 503]
    /\ (success r = Some true <-> status r = 200)
    /\ (status r = 400 -> events = []).
Proof.
  destruct req as [e|input].
  - exists (json_error 500 ("Server error: " ++ e)), []. rewrite after_nil.
    cbn. repeat split; intros; try discriminate; auto.
  - destruct (valid_text (Summarize.text input)) eqn:Hvalid.
    + destruct (Summarize.text input) as [| | | |text| | |] eqn:Htext; try discriminate.
      rewrite (summarize_valid remote input w text Htext Hvalid).
      destruct (loop_returns text [with_default "bart-cnn" (model input); "bart-cnn"; "t5-small"]
                  VNull w) as (v & ev & ->).
      assert (Hend : forall (v2 : value) (w2 : World),
                 exists r : Response SummarizationResult,
                   (if falsy v2
                    then (Normal (json_error 503
                            "All summarization services are currently unavailable. Please check your API keys and try again later."),
                          w2)
                    else match v2 with
                         | VStr s => (Normal (json_data (normalized text s)), w2)
                         | _ => (Normal (json_error 500
                                   "Server error: summary.trim is not a function"), w2)
                         end) = (Normal r, w2)
                   /\ In (status r) [200; 400; 500; 503]
                   /\ (success r = Some true <-> status r = 200)
                   /\ status r <> 400).
      { intros v2 w2. destruct (falsy v2); [|destruct v2];
          eexists; (split; [reflexivity|]); cbn;
          repeat split; intros; try discriminate; auto 6. }
      destruct (falsy v).
      * destruct (tryGemini_caught remote text (with_default "concise" (summaryType input))
                    (after w ev)) as (v2 & ev2 & -> & _).
        rewrite after_after.
        destruct (Hend v2 (after w (ev ++ ev2))) as (r & -> & H1 & H2 & H3).
        exists r, (ev ++ ev2)%list. repeat split; try apply H2; auto. contradiction.
      * destruct (Hend v (after w ev)) as (r & -> & H1 & H2 & H3).
        exists r, ev. repeat split; try apply H2; auto. contradiction.
    + destruct (summarize_invalid remote input w Hvalid) as (error & ->).
      exists (json_error 400 error), []. rewrite after_nil.
      cbn. repeat split; intros; try discriminate; auto.
Qed.

(** X15.  Without the Hugging Face token the handler goes straight to
    Gemini: when Gemini is configured and answers with a text, the
    response carries that text, normalized, and the one remote call of
    the request is the call to Gemini. *)
Theorem gemini_takes_over (input : Input) (w : World) (text t : string) :
  Summarize.text input = VStr text ->
  valid_text (VStr text) = true ->
  not_configured (HUGGINGFACE_API_TOKEN (env w)) "your_huggingface_token_here" = true ->
  not_configured (GOOGLE_GEMINI_API_KEY (env w)) "your_gemini_api_key_here" = false ->
  (forall h, gemini remote h
               (gemini_prompt text (with_default "concise" (summaryType input)))
             = GeminiText t) ->
  t <> EmptyString ->
  exists events,
    POST remote (Parsed input) w = (Normal (json_data (normalized text t)), after w events)
    /\ remote_calls events = 1
    /\ In (GenerateContent
             (gemini_prompt text (with_default "concise" (summaryType input)))) events.
Proof.
  intros Htext Hvalid Htoken Hkey Hgemini Ht.
  rewrite (summarize_valid remote input w text Htext Hvalid).
  destruct (loop_not_configured remote text
              [with_default "bart-cnn" (model input); "bart-cnn"; "t5-small"] VNull w
              eq_refl Htoken) as (v & ev & -> & Hv & Hcalls).
  unfold falsy. rewrite Hv. cbn [negb].
  unfold tryGeminiSummarization, generateContent, record, bind, ret, throw, try_catch,
    get, modify. cbn [env history after].
  rewrite Hkey, Hgemini. cbn [truthy negb].
  destruct (String.eqb_spec t EmptyString) as [|_]; [contradiction|]. cbn [negb].
  exists (ev ++ [TryGemini (with_default "concise" (summaryType input));
                 GenerateContent
                   (gemini_prompt text (with_default "concise" (summaryType input)))])%list.
  unfold after. cbn [env history]. rewrite <- !app_assoc. cbn [app].
  split; [reflexivity|]. split.
  - rewrite remote_calls_app, Hcalls. reflexivity.
  - apply in_or_app. right. right. left. reflexivity.
Qed.

(** A Hugging Face attempt against a provider whose summaries are
    strings returns a falsy value or a string. *)
Lemma tryHuggingFace_string (text modelKey : string) (w w' : World) (v : value) :
  (forall h m t result,
      inference remote h m t = Json result ->
      string_if_truthy (opt_member (first_elem result) "summary_text")
      /\ string_if_truthy (opt_member (first_elem result) "generated_text")) ->
  tryHuggingFaceSummarization remote text modelKey w = (Normal v, w') ->
  string_if_truthy v.
Proof.
  intros Hstrings Hrun.
  unfold tryHuggingFaceSummarization, callHuggingFaceAPI, fetch_inference, record,
    bind, ret, throw, try_catch, get, modify in Hrun.
  cbn [env history] in Hrun.
  destruct (not_configured _ _); [injection Hrun as <- _; discriminate|].
  destruct (inference remote _ _ _) as [e|bodyText|result] eqn:Hreply;
    try (injection Hrun as <- _; discriminate).
  destruct (Hstrings _ _ _ _ Hreply) as [Hsum Hgen].
  destruct (isArray result) eqn:Harr; cbn [andb] in Hrun.
  - destruct (truthy (opt_member (first_elem result) "summary_text")) eqn:H1.
    + injection Hrun as <- _. exact Hsum.
    + destruct (truthy (opt_member (first_elem result) "generated_text")) eqn:H2.
      * injection Hrun as <- _. exact Hgen.
      * destruct (is_string result) eqn:Hs; injection Hrun as <- _;
          [intros _; exact Hs | discriminate].
  - destruct (is_string result) eqn:Hs; injection Hrun as <- _;
      [intros _; exact Hs | discriminate].
Qed.

Lemma loop_string (text : string) (modelOrder : list string) (summary : value)
  (w w' : World) (v : value) :
  (forall h m t result,
      inference remote h m t = Json result ->
      string_if_truthy (opt_member (first_elem result) "summary_text")
      /\ string_if_truthy (opt_member (first_elem result) "generated_text")) ->
  string_if_truthy summary ->
  for_modelOrder remote text modelOrder summary w = (Normal v, w') ->
  string_if_truthy v.
Proof.
  intros Hstrings. revert summary w.
  induction modelOrder as [|modelKey rest IH]; intros summary w Hs Hrun.
  - injection Hrun as <- _. exact Hs.
  - cbn [for_modelOrder] in Hrun.
    destruct (truthy (HUGGINGFACE_MODELS modelKey)); [|eauto].
    unfold bind in Hrun.
    destruct (tryHuggingFaceSummarization remote text modelKey w) as [[v0|e] w0] eqn:Htry;
      [|discriminate].
    pose proof (tryHuggingFace_string text modelKey w w0 v0 Hstrings Htry) as Hv0.
    destruct (truthy v0) eqn:Ht.
    + injection Hrun as <- _. exact Hv0.
    + apply (IH v0 w0); [intros Hc; congruence | exact Hrun].
Qed.

(** X16.  When the summaries the inference API returns are strings
    (its [summary_text] and [generated_text] are strings whenever they
    are truthy), a request that passes the checks is answered 200 or
    503, never 500: every other failure of a provider is absorbed by the
    fallback. *)
Theorem string_summaries_never_500 (input : Input) (w w' : World) (text : string)
  (r : Response SummarizationResult) :
  (forall h m t result,
      inference remote h m t = Json result ->
      string_if_truthy (opt_member (first_elem result) "summary_text")
      /\ string_if_truthy (opt_member (first_elem result) "generated_text")) ->
  Summarize.text input = VStr text ->
  valid_text (VStr text) = true ->
  POST remote (Parsed input) w = (Normal r, w') ->
  status r = 200 \/ status r = 503.
Proof.
  intros Hstrings Htext Hvalid Hpost.
  rewrite (summarize_valid remote input w text Htext Hvalid) in Hpost.
  destruct (for_modelOrder remote text _ VNull w) as [[v|e] w1] eqn:Hloop.
  2:{ destruct (loop_returns text
                  [with_default "bart-cnn" (model input); "bart-cnn"; "t5-small"] VNull w)
        as (v & ev & Hret). rewrite Hret in Hloop. discriminate. }
  pose proof (loop_string text _ VNull w w1 v Hstrings (fun H => H) Hloop) as Hv.
  unfold falsy in Hpost. destruct (truthy v) eqn:Ht; cbn [negb] in Hpost.
  - rewrite Ht in Hpost. cbn [negb] in Hpost.
    specialize (Hv Ht). destruct v; try discriminate.
    injection Hpost as <- _. left. reflexivity.
  - destruct (tryGemini_caught remote text (with_default "concise" (summaryType input)) w1)
      as (v2 & ev2 & Hg & _ & _ & Hshape & _).
    rewrite Hg in Hpost.
    destruct Hshape as [-> | (t & ->)]; cbn [truthy negb] in Hpost.
    + injection Hpost as <- _. right. reflexivity.
    + destruct (negb (negb (t =? EmptyString))); injection Hpost as <- _; auto.
Qed.

End WithRemote.

End FallbackFacts.

(** ** The classification route: fences, short cuts and dead ends *)
Module ClassifyMore.
Import JS Eff Http Classify Notions.

#[local] Arguments String.append : simpl never.

Lemma strip_plain (s : string) :
  no_backtick s = true -> strip_fences_from 0 s = s.
Proof.
  induction s as [|c rest IH]; [reflexivity|]. cbn [no_backtick]. intros H.
  apply andb_prop in H as [Hc Hrest].
  cbn [strip_fences_from prefix].
  destruct (ascii_dec "`" c) as [<-|_]; [discriminate|].
  rewrite (IH Hrest). reflexivity.
Qed.

Lemma strip_plain_then (s tail : string) :
  no_backtick s = true ->
  strip_fences_from 0 (s ++ tail) = (s ++ strip_fences_from 0 tail)%string.
Proof.
  induction s as [|c rest IH]; [reflexivity|]. cbn [no_backtick]. intros H.
  apply andb_prop in H as [Hc Hrest].
  change (String c rest ++ tail)%string with (String c (rest ++ tail)).
  cbn [strip_fences_from prefix].
  destruct (ascii_dec "`" c) as [<-|_]; [discriminate|].
  rewrite (IH Hrest). reflexivity.
Qed.

Lemma prefix_app (p s : string) : prefix p (p ++ s) = true.
Proof.
  induction p as [|c p IH]; [destruct s; reflexivity|].
  change (String c p ++ s)%string with (String c (p ++ s)).
  cbn [prefix]. destruct (ascii_dec c c); [exact IH | contradiction].
Qed.

(** The code units of a match still to drop are dropped. *)
Lemma strip_skips (p s : string) :
  strip_fences_from (String.length p) (p ++ s) = strip_fences_from 0 s.
Proof.
  induction p as [|c p IH]; [reflexivity|].
  change (String c p ++ s)%string with (String c (p ++ s)). exact IH.
Qed.

Lemma append_empty (s : string) : (s ++ EmptyString)%string = s.
Proof.
  induction s as [|c s IH]; [reflexivity|].
  change (String c s ++ EmptyString)%string with (String c (s ++ EmptyString)).
  rewrite IH. reflexivity.
Qed.

(** X17.  Code fences are stripped from Gemini's answer before it is
    parsed: a text without backticks is left as it is, and such a text
    wrapped in a fence tagged [json] is unwrapped. *)
Theorem fences_are_unwrapped (payload : string) :
  no_backtick payload = true ->
  strip_fences payload = payload
  /\ strip_fences ("```json
" ++ payload ++ "```") = payload.
Proof.
  intros H. unfold strip_fences. split; [apply strip_plain; exact H|].
  set (fence := "```json
").
  assert (Hopen : forall rest,
             strip_fences_from 0 (fence ++ rest) = strip_fences_from 0 rest).
  { intros rest.
    change (fence ++ rest)%string with (String "`" ("``json
" ++ rest)).
    cbn [strip_fences_from].
    change (String "`" ("``json
" ++ rest)) with (fence ++ rest)%string.
    rewrite prefix_app.
    exact (strip_skips "``json
" rest). }
  rewrite Hopen, (strip_plain_then payload "```" H).
  change (strip_fences_from 0 "```") with EmptyString.
  apply append_empty.
Qed.

Section WithRemote.
Variable remote : Remote.
Variable JSON_parse : string -> Completion value.
Variable normalize : string -> value -> Completion ClassificationResult.

(** X18.  When the inference API answers with a truthy JSON value, that
    value is the one that gets shaped: Gemini is neither attempted nor
    called, the trace is the attempt and the one fetch, and the custom
    labels went along only for [topic-classification]. *)
Theorem primary_result_is_used (input : Input) (w : World) (text model : string)
  (result : value) :
  Classify.text input = VStr text -> text <> EmptyString ->
  Classify.model input = Some model -> model <> EmptyString ->
  not_configured (HUGGINGFACE_API_TOKEN (env w)) "your_huggingface_token_here" = false ->
  inference remote (history w ++ [TryHuggingFace model])%list
    (HUGGINGFACE_CLASSIFICATION_MODELS model) text
    (if model =? "topic-classification" then customLabels input else None)
  = Json result ->
  truthy result = true ->
  POST remote JSON_parse normalize (Parsed input) w
  = (match normalize model result with
     | Normal normalizedResult => Normal (json_data normalizedResult)
     | Throw e => Normal (json_error 500 ("Server error: " ++ e))
     end,
     mkWorld (env w)
       (history w ++
        [TryHuggingFace model;
         FetchInference (HUGGINGFACE_CLASSIFICATION_MODELS model) text
           (if model =? "topic-classification" then customLabels input else None)])%list).
Proof.
  intros Htext Hne Hmodel Hm Htoken Hreply Htruthy.
  rewrite (ClassifyFacts.classify_valid remote JSON_parse normalize input w text model
             Htext Hne Hmodel Hm).
  unfold tryHuggingFaceClassification, callHuggingFaceClassificationAPI, record,
    bind, ret, throw, try_catch, get, modify.
  cbn [env history]. rewrite Htoken, Hreply. cbn [env history].
  unfold falsy. rewrite Htruthy. cbn [negb]. rewrite Htruthy. cbn [negb].
  rewrite <- app_assoc. destruct (normalize model result); reflexivity.
Qed.

(** X19.  Gemini has a prompt for [sentiment-analysis], for
    [emotion-detection] and for [topic-classification] with custom
    labels only.  For any other request the fallback is a dead end:
    when the Hugging Face attempt fails, Gemini is not called and the
    answer is 503. *)
Theorem gemini_dead_end (input : Input) (w w1 : World) (text model : string)
  (primary : value) :
  Classify.text input = VStr text -> text <> EmptyString ->
  Classify.model input = Some model -> model <> EmptyString ->
  gemini_classifies model (customLabels input) = false ->
  tryHuggingFaceClassification remote text model (customLabels input) w
  = (Normal primary, w1) ->
  truthy primary = false ->
  exists w2,
    POST remote JSON_parse normalize (Parsed input) w
    = (Normal (json_error 503 "All classification services are currently unavailable."),
       w2)
    /\ env w2 = env w1
    /\ remote_calls (history w2) = remote_calls (history w1).
Proof.
  intros Htext Hne Hmodel Hm Hdead Hprimary Hfalsy.
  rewrite (ClassifyFacts.classify_valid remote JSON_parse normalize input w text model
             Htext Hne Hmodel Hm).
  rewrite Hprimary. unfold falsy. rewrite Hfalsy. cbn [negb].
  assert (Hprompt : gemini_prompt text model (customLabels input) = None).
  { unfold gemini_classifies in Hdead. unfold gemini_prompt.
    destruct (model =? "sentiment-analysis"); [discriminate|].
    destruct (model =? "topic-classification").
    - destruct (customLabels input); [discriminate|].
      destruct (model =? "emotion-detection"); [discriminate | reflexivity].
    - destruct (model =? "emotion-detection"); [discriminate | reflexivity]. }
  unfold tryGeminiClassification, record, bind, ret, throw, try_catch, get, modify.
  cbn [env history]. rewrite Hprompt.
  destruct (not_configured _ _); cbn [truthy negb env history];
    eexists; (split; [reflexivity|]); (split; [reflexivity|]);
    cbn [history]; unfold remote_calls; rewrite ?List.filter_app; cbn;
    rewrite ?app_nil_r; reflexivity.
Qed.

End WithRemote.

End ClassifyMore.

(** ** The shaping of a classification result *)
Module ShapeFacts.
Import JS Eff Shape.

Section WithToNumber.
Variable ToNumber : value -> Completion float.
Hypothesis ToNumber_number : forall x, ToNumber (VNum x) = Normal x.

Lemma categories_of_objects (items : list (list (string * value))) (i : nat) :
  Forall has_number_score items ->
  map_from (fun c (_ : nat) =>
              and_then (member c "label") (fun name =>
              and_then (member c "score") (fun score =>
              and_then (percent ToNumber score) (fun rounded =>
              Normal (mkCategory name rounded)))))
           i (List.map VObj items)
  = Normal (List.map category_of items).
Proof.
  revert i. induction items as [|f rest IH]; intros i Hall; [reflexivity|].
  inversion Hall as [|? ? (x & Hx) Hrest]; subst.
  cbn [List.map map_from member and_then]. unfold percent at 1.
  rewrite Hx, ToNumber_number. cbn [and_then].
  rewrite (IH (S i) Hrest). cbn [and_then].
  unfold category_of, score_of. rewrite Hx. reflexivity.
Qed.

(** X20.  The nested label list of the inference API is shaped as
    documented: for a model other than [topic-classification] and a
    result [[ {label, score}, ... ]] with Numbers as scores, the label
    is that of the first object, the confidence is its score times 100,
    rounded, and the categories are all the objects in the provider's
    order, each with its rounded percentage. *)
Theorem nested_labels_are_shaped (model : string) (top : list (string * value))
  (others : list (list (string * value))) :
  (model =? "topic-classification") = false ->
  Forall has_number_score (top :: others) ->
  normalizedResult ToNumber model (VArr [VArr (List.map VObj (top :: others))])
  = Normal (mkResult (assoc "label" top)
                     (Math_round (score_of top * 100)%float)
                     (List.map category_of (top :: others))).
Proof.
  intros Hmodel Hall.
  assert (Hshape : shape_label_list ToNumber (VArr [VArr (List.map VObj (top :: others))])
                   = Normal (mkResult (assoc "label" top)
                                      (Math_round (score_of top * 100)%float)
                                      (List.map category_of (top :: others)))).
  { unfold shape_label_list.
    cbn [isArray index List.nth List.map and_then member flat List.flat_map app].
    inversion Hall as [|? ? (x & Hx) Hrest]; subst.
    unfold percent at 1. rewrite Hx, ToNumber_number. cbn [and_then].
    rewrite app_nil_r.
    change (VObj top :: List.map VObj others) with (List.map VObj (top :: others)).
    rewrite (categories_of_objects (top :: others) 0 Hall). cbn [and_then].
    unfold score_of. rewrite Hx. reflexivity. }
  unfold normalizedResult. rewrite Hmodel.
  destruct (model =? "sentiment-analysis"); exact Hshape.
Qed.

End WithToNumber.

(** An object without a key [0], alone or at the head of an array, is
    no label list: the branch reads [label] of [undefined]. *)
Lemma label_of_undefined (ToNumber : value -> Completion float)
  (fields : list (string * value)) (rest : list value) :
  assoc "0" fields = VUndefined ->
  shape_label_list ToNumber (VObj fields)
  = Throw "Cannot read properties of undefined (reading 'label')"
  /\ shape_label_list ToNumber (VArr (VObj fields :: rest))
     = Throw "Cannot read properties of undefined (reading 'label')".
Proof.
  intros Hzero. unfold shape_label_list.
  cbn [isArray index List.nth and_then].
  change (decimal 0) with "0". rewrite Hzero. split; reflexivity.
Qed.

(** X21.  For a model other than [topic-classification], only the
    nested list is accepted.  The object that the Gemini prompt asks for
    ([{"label": ..., "score": ...}]) and a flat array of label objects
    both make the shaping throw, reading [label] of [undefined], which
    the handler answers with 500. *)
Theorem flat_results_throw (ToNumber : value -> Completion float) (model : string)
  (fields : list (string * value)) (rest : list value) :
  (model =? "topic-classification") = false ->
  assoc "0" fields = VUndefined ->
  normalizedResult ToNumber model (VObj fields)
  = Throw "Cannot read properties of undefined (reading 'label')"
  /\ normalizedResult ToNumber model (VArr (VObj fields :: rest))
     = Throw "Cannot read properties of undefined (reading 'label')".
Proof.
  intros Hmodel Hzero. unfold normalizedResult. rewrite Hmodel.
  destruct (model =? "sentiment-analysis");
    exact (label_of_undefined ToNumber fields rest Hzero).
Qed.

Section Topic.
Variable ToNumber : value -> Completion float.
Hypothesis ToNumber_number : forall x, ToNumber (VNum x) = Normal x.

Lemma categories_of_labels (labels : list value) (scores : list float)
  (before : list float) :
  List.length labels = List.length scores ->
  map_from (fun label index_ =>
              and_then (index (VArr (List.map VNum (before ++ scores))) index_) (fun score =>
              and_then (percent ToNumber score) (fun rounded =>
              Normal (mkCategory label rounded))))
           (List.length before) labels
  = Normal (List.map (fun ls => mkCategory (fst ls) (Math_round (snd ls * 100)%float))
                     (List.combine labels scores)).
Proof.
  revert scores before. induction labels as [|l rest IH]; intros [|x xs] before Hlen;
    try discriminate; [reflexivity|].
  cbn [map_from index and_then List.combine List.map].
  assert (Hnth : List.nth (List.length before) (List.map VNum (before ++ x :: xs)) VUndefined
                 = VNum x).
  { rewrite List.map_app, List.app_nth2; rewrite List.length_map; [|lia].
    rewrite Nat.sub_diag. reflexivity. }
  rewrite Hnth. unfold percent at 1. rewrite ToNumber_number. cbn [and_then].
  specialize (IH xs (before ++ [x])%list).
  rewrite <- app_assoc, List.length_app, Nat.add_1_r in IH.
  cbn [app index and_then] in IH.
  rewrite IH by (cbn in Hlen; lia). reflexivity.
Qed.

(** X22.  For [topic-classification], a result with as many scores as
    labels is shaped pairwise: the label is the first of [labels], the
    confidence the first of [scores] times 100, rounded, and the
    categories pair each label with its rounded percentage, in the
    provider's order. *)
Theorem topics_are_paired (fields : list (string * value)) (label : value)
  (labels : list value) (score : float) (scores : list float) :
  assoc "labels" fields = VArr (label :: labels) ->
  assoc "scores" fields = VArr (List.map VNum (score :: scores)) ->
  List.length labels = List.length scores ->
  normalizedResult ToNumber "topic-classification" (VObj fields)
  = Normal (mkResult label (Math_round (score * 100)%float)
              (List.map (fun ls => mkCategory (fst ls) (Math_round (snd ls * 100)%float))
                        (List.combine (label :: labels) (score :: scores)))).
Proof.
  intros Hlabels Hscores Hlen.
  unfold normalizedResult. cbn [String.eqb Ascii.eqb Bool.eqb andb].
  change ("topic-classification" =? "sentiment-analysis") with false.
  change ("topic-classification" =? "topic-classification") with true.
  cbv iota. unfold shape_topic. cbn [member and_then].
  rewrite Hlabels, Hscores. cbn [index List.nth List.map and_then].
  unfold percent at 1. rewrite ToNumber_number. cbn [and_then].
  pose proof (categories_of_labels (label :: labels) (score :: scores) []) as Hcat.
  assert (Hsame : List.length (label :: labels) = List.length (score :: scores))
    by (cbn; lia).
  specialize (Hcat Hsame).
  match type of Hcat with
  | ?lhs = _ => match goal with |- and_then ?m _ = _ => change m with lhs end
  end.
  rewrite Hcat. reflexivity.
Qed.

End Topic.

End ShapeFacts.

(** ** The compression ratio as a percentage *)
Module RatioFacts.
Import JS Summarize Words Percent.

Lemma checked : check_all max_words (int_of max_words) = true.
Proof. vm_compute. reflexivity. Qed.

Lemma int_of_pred (n : nat) : (int_of (S n) - 1)%uint63 = int_of n.
Proof.
  apply to_Z_inj. rewrite sub_spec, to_Z_1. unfold int_of. rewrite !of_Z_spec.
  rewrite Zminus_mod_idemp_l. f_equal. lia.
Qed.

Lemma check_upto_sound (n : nat) (o : int) :
  check_upto n (int_of n) o = true ->
  forall s, (s <= n)%nat -> ok o (int_of s) = true.
Proof.
  induction n as [|n IH]; cbn [check_upto]; intros H s Hs;
    apply andb_prop in H as [H1 H2].
  - assert (s = 0%nat) by lia. subst. exact H1.
  - destruct (Nat.eq_dec s (S n)) as [->|Hne]; [exact H1|].
    rewrite int_of_pred in H2. apply IH; [exact H2 | lia].
Qed.

Lemma check_all_sound (n : nat) :
  check_all n (int_of n) = true ->
  forall o s, (1 <= o <= n)%nat -> (s <= o)%nat -> ok (int_of o) (int_of s) = true.
Proof.
  induction n as [|n IH]; intros H o s Ho Hs; [lia|].
  cbn [check_all] in H. apply andb_prop in H as [H1 H2].
  destruct (Nat.eq_dec o (S n)) as [->|Hne].
  - apply (check_upto_sound _ _ H1). exact Hs.
  - rewrite int_of_pred in H2. apply IH; [exact H2 | lia | exact Hs].
Qed.

Lemma to_Z_int_of (n : nat) : (n <= max_words)%nat -> to_Z (int_of n) = Z.of_nat n.
Proof.
  intros H. unfold int_of. rewrite of_Z_spec. apply Z.mod_small.
  assert (Z.of_nat max_words = 5000%Z) by reflexivity.
  assert (wB = 9223372036854775808%Z) by reflexivity. lia.
Qed.

Lemma nearest_sound (o s : nat) (k : int) :
  (s <= o <= max_words)%nat ->
  nearest (int_of o) (int_of s) k = true ->
  (to_Z k <= 100
   /\ 2 * Z.of_nat o * to_Z k <= 200 * (Z.of_nat o - Z.of_nat s) + Z.of_nat o
   /\ 200 * (Z.of_nat o - Z.of_nat s) <= 2 * Z.of_nat o * to_Z k + Z.of_nat o)%Z.
Proof.
  intros Hb H. unfold nearest in H.
  apply andb_prop in H as [H H3]. apply andb_prop in H as [H1 H2].
  apply leb_spec in H1, H2, H3.
  change (to_Z 100) with 100%Z in H1.
  assert (Hmax : Z.of_nat max_words = 5000%Z) by reflexivity.
  assert (HwB : wB = 9223372036854775808%Z) by reflexivity.
  assert (Ho := to_Z_int_of o (proj2 Hb)).
  assert (Hle : (s <= max_words)%nat) by lia.
  assert (Hs := to_Z_int_of s Hle).
  pose proof (to_Z_bounded k) as Hk.
  assert (Hd : to_Z (200 * (int_of o - int_of s))%uint63
               = (200 * (Z.of_nat o - Z.of_nat s))%Z).
  { rewrite mul_spec, sub_spec, Ho, Hs. change (to_Z 200) with 200%Z.
    rewrite (Z.mod_small (Z.of_nat o - Z.of_nat s)) by lia.
    apply Z.mod_small. lia. }
  assert (Hok : to_Z (2 * int_of o * k)%uint63 = (2 * Z.of_nat o * to_Z k)%Z).
  { rewrite !mul_spec, Ho. change (to_Z 2) with 2%Z.
    rewrite (Z.mod_small (2 * Z.of_nat o)) by lia.
    apply Z.mod_small. nia. }
  rewrite add_spec, Hok, Hd, Ho in H2, H3.
  rewrite Z.mod_small in H2 by nia.
  rewrite Z.mod_small in H3 by nia.
  split; [exact H1|]. split; assumption.
Qed.

(** A text has at most one word for every two code units, rounded up. *)
Lemma word_starts_bound (b : bool) (s : string) :
  (2 * word_starts b s <= String.length s + (if b then 1 else 0))%nat.
Proof.
  revert b. induction s as [|c rest IH]; intros b; [destruct b; cbn; lia|].
  cbn [word_starts String.length]. destruct (isWhiteSpace c).
  - specialize (IH true). cbn in IH. lia.
  - specialize (IH false). destruct b; cbn in IH |- *; lia.
Qed.

(** A text of at most 10,000 code units has at most [max_words] words. *)
Lemma words_bound (text : string) :
  (JS.length text <= 10000)%Z -> (words text <= max_words)%nat.
Proof.
  intros Hlen. pose proof (word_starts_bound true text) as Hw.
  assert (Hmax : Z.of_nat max_words = 5000%Z) by reflexivity.
  unfold words. unfold JS.length in Hlen. cbv iota in Hw. lia.
Qed.

(** The ratio of two word counts within the bound, computed in floating
    point, is a whole percentage nearest to the exact one. *)
Lemma counts_ratio (o s : nat) :
  (1 <= o <= max_words)%nat -> (s <= o)%nat ->
  exists k : nat,
    (k <= 100)%nat
    /\ Math_round ((1 - Number_of_nat s / Number_of_nat o) * 100)%float = Number_of_nat k
    /\ (2 * o * k <= 200 * (o - s) + o)%nat
    /\ (200 * (o - s) <= 2 * o * k + o)%nat.
Proof.
  intros Hrange Hle.
  pose proof (check_all_sound max_words checked o s Hrange Hle) as H.
  unfold ok in H.
  assert (Hk : exists k : int,
             PrimFloat.Leibniz.eqb (ratio (int_of o) (int_of s)) (PrimFloat.of_uint63 k) = true
             /\ nearest (int_of o) (int_of s) k = true).
  { apply orb_prop in H as [H|H].
    - apply andb_prop in H as [H1 H2]. eauto.
    - apply andb_prop in H as [H H2]. apply andb_prop in H as [H1 _]. eauto. }
  destruct Hk as (k & Hr & Hn).
  apply FloatAxioms.Leibniz.eqb_spec in Hr.
  assert (Hso : (s <= o <= max_words)%nat) by lia.
  destruct (nearest_sound o s k Hso Hn) as (H1 & H2 & H3).
  pose proof (to_Z_bounded k) as Hkb.
  exists (Z.to_nat (to_Z k)). split; [lia|]. split.
  - change (Math_round ((1 - Number_of_nat s / Number_of_nat o) * 100)%float)
      with (ratio (int_of o) (int_of s)).
    rewrite Hr. unfold Number_of_nat. rewrite Z2Nat.id by lia.
    rewrite of_to_Z. reflexivity.
  - split; nia.
Qed.

(** X23.  The compression ratio is a whole percentage.  For a text of
    at most 10,000 code units with at least one word, and a summary with
    no more words than the text, the ratio computed in floating point is
    an integer from 0 to 100 that is nearest to the exact percentage of
    words saved (on a tie, either neighbour). *)
Theorem ratio_is_nearest_percent (originalText summary : string) :
  (JS.length originalText <= 10000)%Z ->
  (0 < countWords originalText)%nat ->
  (countWords summary <= countWords originalText)%nat ->
  exists k : nat,
    (k <= 100)%nat
    /\ calculateCompressionRatio originalText summary = Number_of_nat k
    /\ (2 * countWords originalText * k
        <= 200 * (countWords originalText - countWords summary)
           + countWords originalText)%nat
    /\ (200 * (countWords originalText - countWords summary)
        <= 2 * countWords originalText * k + countWords originalText)%nat.
Proof.
  intros Hlen Hpos Hle.
  assert (Hmax : Z.of_nat max_words = 5000%Z) by reflexivity.
  assert (Hbound : (countWords originalText <= max_words)%nat).
  { pose proof (word_starts_bound true originalText) as Hw.
    rewrite (WordFacts.countWords_words originalText). unfold words.
    unfold JS.length in Hlen. cbv iota in Hw. lia. }
  set (o := countWords originalText) in *. set (s := countWords summary) in *.
  assert (Hrange : (1 <= o <= max_words)%nat) by lia.
  pose proof (check_all_sound max_words checked o s Hrange Hle) as H.
  unfold ok in H.
  assert (Hk : exists k : int,
             PrimFloat.Leibniz.eqb (ratio (int_of o) (int_of s)) (PrimFloat.of_uint63 k) = true
             /\ nearest (int_of o) (int_of s) k = true).
  { apply orb_prop in H as [H|H].
    - apply andb_prop in H as [H1 H2]. eauto.
    - apply andb_prop in H as [H H2]. apply andb_prop in H as [H1 _]. eauto. }
  destruct Hk as (k & Hr & Hn).
  apply FloatAxioms.Leibniz.eqb_spec in Hr.
  assert (Hso : (s <= o <= max_words)%nat) by lia.
  destruct (nearest_sound o s k Hso Hn) as (H1 & H2 & H3).
  pose proof (to_Z_bounded k) as Hkb.
  exists (Z.to_nat (to_Z k)). split; [lia|]. split.
  - unfold calculateCompressionRatio. fold o s.
    change (Math_round ((1 - Number_of_nat s / Number_of_nat o) * 100)%float)
      with (ratio (int_of o) (int_of s)).
    rewrite Hr. unfold Number_of_nat. rewrite Z2Nat.id by lia.
    rewrite of_to_Z. reflexivity.
  - split; nia.
Qed.

End RatioFacts.

(** ** The data of a successful summarization *)
Module ResultFacts.
Import JS Eff Http Summarize Chain Words.
Local Open Scope list_scope.

#[local] Arguments String.append : simpl never.

Section WithRemote.
Variable remote : Remote.

(** The response for the summary [s] that some candidate returned. *)
Lemma normalized_fields (text s : string) :
  valid_text (VStr text) = true ->
  originalText (normalized text s) = text
  /\ summary (normalized text s) = trim s
  /\ wordCount (normalized text s) = words (trim s)
  /\ compressionRatio (normalized text s)
     = Math_round ((1 - Number_of_nat (words (trim s)) / Number_of_nat (words text))
                   * 100)%float
  /\ (words text = 100 -> words (trim s) = 20 ->
      compressionRatio (normalized text s) = 80%float)
  /\ (0 < words text -> words (trim s) <= words text ->
      exists k : nat,
        k <= 100
        /\ compressionRatio (normalized text s) = Number_of_nat k
        /\ 2 * words text * k <= 200 * (words text - words (trim s)) + words text
        /\ 200 * (words text - words (trim s)) <= 2 * words text * k + words text).
Proof.
  intros Hvalid.
  assert (Hratio : compressionRatio (normalized text s)
     = Math_round ((1 - Number_of_nat (words (trim s)) / Number_of_nat (words text))
                   * 100)%float).
  { cbn [normalized compressionRatio]. unfold calculateCompressionRatio.
    rewrite !WordFacts.countWords_words. reflexivity. }
  split; [reflexivity|]. split; [reflexivity|].
  split; [apply WordFacts.countWords_words|]. split; [exact Hratio|]. split.
  - intros H100 H20. rewrite Hratio, H100, H20. vm_compute. reflexivity.
  - intros Hpos Hle. rewrite Hratio.
    apply RatioFacts.counts_ratio; [|exact Hle].
    split; [lia|]. apply RatioFacts.words_bound.
    cbn in Hvalid. apply andb_prop in Hvalid as [_ Hmax]. apply Z.leb_le. exact Hmax.
Qed.

(** C8.  A successful summarization response is made from the text of
    the request and from the summary that the first successful
    candidate of the chain returned: [originalText] is the text,
    [summary] is the provider's summary trimmed, [wordCount] is the
    number of words of the trimmed summary (its maximal runs of
    characters that are not white space), and [compressionRatio] is
    [round((1 - summaryWords / originalWords) * 100)] over the words of
    the trimmed summary and of the text.  For 100 and 20 words it is 80;
    and whenever the summary has no more words than the text, it is the
    whole percentage from 0 to 100 nearest to the exact one. *)
Theorem C8_compression_ratio (req : Request) (w w' : World)
  (resp : Response SummarizationResult) :
  POST remote req w = (Normal resp, w') ->
  status resp = 200 ->
  exists input text providerSummary pre c post w1 r,
    req = Parsed input
    /\ Summarize.text input = VStr text
    /\ candidates (with_default "bart-cnn" (model input)) = pre ++ c :: post
    /\ all_fail remote text (with_default "concise" (summaryType input)) pre w = Some w1
    /\ attempt remote text (with_default "concise" (summaryType input)) c w1
       = (Normal (VStr providerSummary), w')
    /\ body resp = JsonData r
    /\ originalText r = text
    /\ summary r = trim providerSummary
    /\ wordCount r = words (trim providerSummary)
    /\ compressionRatio r
       = Math_round ((1 - Number_of_nat (words (trim providerSummary))
                          / Number_of_nat (words text)) * 100)%float
    /\ (words text = 100 -> words (trim providerSummary) = 20 ->
        compressionRatio r = 80%float)
    /\ (0 < words text -> words (trim providerSummary) <= words text ->
        exists k : nat,
          k <= 100
          /\ compressionRatio r = Number_of_nat k
          /\ 2 * words text * k
             <= 200 * (words text - words (trim providerSummary)) + words text
          /\ 200 * (words text - words (trim providerSummary))
             <= 2 * words text * k + words text).
Proof.
  intros Hpost Hstatus.
  destruct req as [e|input].
  { rewrite SummarizeFacts.summarize_unparsable in Hpost.
    injection Hpost as <- _. discriminate. }
  destruct (valid_text (Summarize.text input)) eqn:Hvalid.
  2:{ destruct (SummarizeFacts.summarize_invalid remote input w Hvalid) as (error & Hbad).
      rewrite Hbad in Hpost. injection Hpost as <- _. discriminate. }
  destruct (Summarize.text input) as [| | | |text| | |] eqn:Htext; try discriminate.
  rewrite (SummarizeFacts.summarize_valid remote input w text Htext Hvalid) in Hpost.
  assert (Hfound : exists providerSummary pre c post w1,
             candidates (with_default "bart-cnn" (model input)) = pre ++ c :: post
             /\ all_fail remote text (with_default "concise" (summaryType input)) pre w
                = Some w1
             /\ attempt remote text (with_default "concise" (summaryType input)) c w1
                = (Normal (VStr providerSummary), w')
             /\ resp = json_data (normalized text providerSummary)).
  { destruct (SummarizeFacts.loop_outcome remote text
                (with_default "concise" (summaryType input))
                [with_default "bart-cnn" (model input); "bart-cnn"; "t5-small"] VNull w)
      as [(w1 & s' & Hall & Hloop & Hfalsy)
         | (pre & k & post & w1 & v & w2 & Hsplit & Hpre & Hk & Hv & Hloop)];
      rewrite Hloop in Hpost.
    - specialize (Hfalsy eq_refl). unfold falsy in Hpost. rewrite Hfalsy in Hpost.
      cbn [negb] in Hpost.
      destruct (tryGeminiSummarization remote text _ w1) as [[v2|e] w2] eqn:Hg.
      2:{ injection Hpost as <- _. discriminate. }
      destruct (truthy v2); cbn [negb] in Hpost.
      2:{ injection Hpost as <- _. discriminate. }
      destruct v2 as [| | | |s| | |]; injection Hpost as <- <-; try discriminate.
      exists s, (List.map HuggingFace
                   (guarded [with_default "bart-cnn" (model input); "bart-cnn"; "t5-small"])),
             Gemini, [], w1.
      repeat split; [exact Hall | exact Hg].
    - unfold falsy in Hpost. rewrite Hv in Hpost. cbn [negb] in Hpost.
      rewrite Hv in Hpost. cbn [negb] in Hpost.
      destruct v as [| | | |s| | |]; injection Hpost as <- <-; try discriminate.
      exists s, (List.map HuggingFace pre), (HuggingFace k),
             (List.map HuggingFace post ++ [Gemini]), w1.
      split; [|repeat split; [exact Hpre | exact Hk]].
      unfold candidates. rewrite Hsplit, List.map_app, <- app_assoc. reflexivity. }
  destruct Hfound as (s & pre & c & post & w1 & Hsplit & Hpre & Hc & ->).
  destruct (normalized_fields text s Hvalid) as (H1 & H2 & H3 & H4 & H5 & H6).
  exists input, text, s, pre, c, post, w1, (normalized text s).
  repeat split; auto.
Qed.

End WithRemote.

Import Scenario.

(** With [bart-large-cnn] loading and [t5-small] serving, the response
    to the text of 100 words carries the summary of [t5-small], with its
    20 words and the ratio 80. *)
Lemma C8_compression_ratio_witness :
  exists input text providerSummary pre c post w1 r,
    summarize_request None = Parsed input
    /\ Summarize.text input = VStr text
    /\ candidates (with_default "bart-cnn" (model input)) = pre ++ c :: post
    /\ all_fail t5_serves text (with_default "concise" (summaryType input)) pre
         (summarize_world env_configured) = Some w1
    /\ attempt t5_serves text (with_default "concise" (summaryType input)) c w1
       = (Normal (VStr providerSummary),
          snd (POST t5_serves (summarize_request None) (summarize_world env_configured)))
    /\ body (json_data (normalized text100 summary20)) = JsonData r
    /\ originalText r = text
    /\ summary r = trim providerSummary
    /\ wordCount r = words (trim providerSummary)
    /\ compressionRatio r
       = Math_round ((1 - Number_of_nat (words (trim providerSummary))
                          / Number_of_nat (words text)) * 100)%float
    /\ (words text = 100 -> words (trim providerSummary) = 20 ->
        compressionRatio r = 80%float)
    /\ (0 < words text -> words (trim providerSummary) <= words text ->
        exists k : nat,
          k <= 100
          /\ compressionRatio r = Number_of_nat k
          /\ 2 * words text * k
             <= 200 * (words text - words (trim providerSummary)) + words text
          /\ 200 * (words text - words (trim providerSummary))
             <= 2 * words text * k + words text).
Proof.
  refine (C8_compression_ratio t5_serves (summarize_request None)
            (summarize_world env_configured) _ _ _ _).
  - vm_compute. reflexivity.
  - reflexivity.
Defined.

(** The response of that run, field by field. *)
Example summary_of_t5 :
  fst (POST t5_serves (summarize_request None) (summarize_world env_configured))
  = Normal (json_data {| originalText := text100;
                         summary := trim summary20;
                         wordCount := 20;
                         compressionRatio := 80%float |}).
Proof. vm_compute. reflexivity. Qed.

End ResultFacts.

(** ** The classification route: Gemini's answer meets the shaping *)
Module GeminiShape.
Import JS Eff Http Classify Notions.

#[local] Arguments String.append : simpl never.

Section WithRemote.
Variable remote : Remote.
Variable JSON_parse : string -> Completion value.
Variable ToNumber : value -> Completion float.
Variable normalize : string -> value -> Completion ClassificationResult.

(** The shaping of the handler throws where the block does. *)
Hypothesis normalize_throws :
  forall model result e,
    Shape.normalizedResult ToNumber model result = Throw e ->
    normalize model result = Throw e.

(** X24.  The Gemini fallback cannot succeed for [sentiment-analysis]
    or [emotion-detection]: when the Hugging Face attempt fails and
    Gemini answers with the JSON object its prompt asks for, the shaping
    reads [label] of [undefined] and the request is answered 500, after
    the one call to Gemini. *)
Theorem gemini_object_is_not_shaped (input : Input) (w w1 : World) (text model : string)
  (primary : value) (prompt t : string) (fields : list (string * value)) :
  Classify.text input = VStr text -> text <> EmptyString ->
  Classify.model input = Some model -> model <> EmptyString ->
  (model =? "topic-classification") = false ->
  tryHuggingFaceClassification remote text model (customLabels input) w
  = (Normal primary, w1) ->
  truthy primary = false ->
  not_configured (GOOGLE_GEMINI_API_KEY (env w1)) "your_gemini_api_key_here" = false ->
  gemini_prompt text model (customLabels input) = Some prompt ->
  gemini remote (history w1 ++ [TryGemini model])%list prompt = GeminiText t ->
  JSON_parse (strip_fences t) = Normal (VObj fields) ->
  assoc "0" fields = VUndefined ->
  POST remote JSON_parse normalize (Parsed input) w
  = (Normal (json_error 500
       "Server error: Cannot read properties of undefined (reading 'label')"),
     mkWorld (env w1) (history w1 ++ [TryGemini model; GenerateContent prompt])%list).
Proof.
  intros Htext Hne Hmodel Hm Htopic Hprimary Hfalsy Hkey Hprompt Hgemini Hparse Hzero.
  rewrite (ClassifyFacts.classify_valid remote JSON_parse normalize input w text model
             Htext Hne Hmodel Hm).
  rewrite Hprimary. unfold falsy. rewrite Hfalsy. cbn [negb].
  unfold tryGeminiClassification, record, bind, ret, throw, try_catch, get, modify, lift.
  cbn [env history]. rewrite Hkey, Hprompt. cbn [env history].
  rewrite Hgemini, Hparse. cbn [truthy negb].
  assert (Hthrow : Shape.normalizedResult ToNumber model (VObj fields)
                   = Throw "Cannot read properties of undefined (reading 'label')").
  { unfold Shape.normalizedResult. rewrite Htopic.
    destruct (model =? "sentiment-analysis");
      exact (proj1 (ShapeFacts.label_of_undefined ToNumber fields [] Hzero)). }
  rewrite (normalize_throws model (VObj fields) _ Hthrow).
  rewrite <- app_assoc. reflexivity.
Qed.

End WithRemote.

End GeminiShape.

(** ** The properties at concrete requests *)
Module ChatCases.
Import JS Eff Http ChatEnhanced Scenario Cases SessionFacts.

Lemma sessions_stay_distinct_witness :
  kept_apart (conversationMemories
                (snd (POST chat_up (Parsed greeting) (chat_world env_configured))))
  /\ (forall s memory,
        Map_get s (conversationMemories (chat_world env_configured)) = Some memory ->
        Map_get s (conversationMemories
                     (snd (POST chat_up (Parsed greeting) (chat_world env_configured))))
        = Some memory)
  /\ (forall s1 s2 memory,
        Map_get s1 (conversationMemories
                      (snd (POST chat_up (Parsed greeting) (chat_world env_configured))))
        = Some memory ->
        Map_get s2 (conversationMemories
                      (snd (POST chat_up (Parsed greeting) (chat_world env_configured))))
        = Some memory -> s1 = s2)
  /\ (List.length (conversationMemories
                     (snd (POST chat_up (Parsed greeting) (chat_world env_configured))))
      <= List.length (conversationMemories (chat_world env_configured)) + 1)%nat
  /\ (forall events prompt memory content,
        history (snd (POST chat_up (Parsed greeting) (chat_world env_configured)))
        = (history (chat_world env_configured) ++ events)%list ->
        In (ChainStream prompt memory content) events ->
        exists input,
          Parsed greeting = Parsed input
          /\ memory <> None
          /\ memory = Map_get (session_of input)
                        (conversationMemories
                           (snd (POST chat_up (Parsed greeting)
                                   (chat_world env_configured))))).
Proof.
  refine (sessions_stay_distinct chat_up (Parsed greeting) (chat_world env_configured)
            _ (Normal greeting_response) _ _).
  - split; [constructor | reflexivity].
  - vm_compute. reflexivity.
Defined.

Lemma stream_is_not_delivered_witness :
  (exists memory e w',
     POST chat_up (Parsed greeting) (chat_world env_configured)
     = (Normal (plain_text 500 ("Error: " ++ e)), w')
     /\ Map_get (session_of greeting) (conversationMemories w') = Some memory
     /\ history w'
        = (history (chat_world env_configured)
           ++ [ChainStream (createPromptTemplate (persona_of greeting)) (Some memory)
                 (VStr "Hi")])%list
     /\ match stream chat_up (history (chat_world env_configured))
                (createPromptTemplate (persona_of greeting)) (Some memory) (VStr "Hi") with
        | Throw rejection => e = rejection
        | Normal _ =>
            ByteString (AI_PERSONAS_name (persona_of greeting)) = Throw e
            /\ exists unit, first_above_255 0 (AI_PERSONAS_name (persona_of greeting))
                            = Some (0, unit)
        end)
  /\ (forall req w0,
        exists r w1,
          POST chat_up req w0 = (Normal r, w1)
          /\ (status r = 400 \/ status r = 500)
          /\ exists text, body r = PlainText text).
Proof.
  apply (stream_is_not_delivered chat_up greeting (chat_world env_configured) (VStr "Hi"));
    reflexivity.
Defined.

Lemma invalid_messages_rejected_witness :
  POST chat_up (Parsed messages_as_text) (chat_world env_configured)
  = (Normal (plain_text 400 "Invalid messages format"), chat_world env_configured).
Proof.
  apply (invalid_messages_rejected chat_up messages_as_text (chat_world env_configured));
    reflexivity.
Defined.

End ChatCases.

Module StoreCases.
Import JS Eff Http Rag Ledger Provenance Scenario Cases StoreFacts.
Local Open Scope list_scope.

Lemma unsupported_type_rejected_witness :
  POST one_chunk rag_up (upload_request "photo.png" "image/png" "PNG")
       (initial env_configured)
  = (Normal (json_error 500
       "Server error: Unsupported file type. Please upload PDF, DOCX, or TXT files."),
     initial env_configured).
Proof.
  apply (unsupported_type_rejected one_chunk rag_up
           (upload_request "photo.png" "image/png" "PNG") (initial env_configured) picture);
    try reflexivity; discriminate.
Defined.

Lemma embedding_failure_keeps_store_witness :
  POST one_chunk embeddings_down
       (upload_request "notes.txt" "text/plain" "Meeting notes of Monday.") loaded
  = (Normal (json_error 500 "Server error: 429 Too Many Requests"),
     mkWorld (env loaded) (vectorStore loaded) (documentCount loaded)
             (history loaded ++ [EmbedDocuments ["Meeting notes of Monday."]])).
Proof.
  apply (embedding_failure_keeps_store one_chunk embeddings_down
           (upload_request "notes.txt" "text/plain" "Meeting notes of Monday.") loaded
           notes_file "Meeting notes of Monday." "429 Too Many Requests");
    reflexivity.
Defined.


Lemma reads_leave_store_witness :
  vectorStore (snd (answer one_chunk rag_up (CallPOST (query_request "What was decided?"))
                      loaded)) = vectorStore loaded
  /\ documentCount (snd (answer one_chunk rag_up
                           (CallPOST (query_request "What was decided?")) loaded))
     = documentCount loaded
  /\ env (snd (answer one_chunk rag_up (CallPOST (query_request "What was decided?"))
                 loaded)) = env loaded.
Proof.
  apply (reads_leave_store one_chunk rag_up (CallPOST (query_request "What was decided?"))
           loaded); reflexivity.
Defined.

Lemma sources_were_uploaded_witness :
  In (source notes_entry)
     (uploaded [] (List.combine [notes]
                     (fst (serve one_chunk rag_up [notes] (initial env_configured))))).
Proof.
  apply (sources_were_uploaded one_chunk rag_up env_configured [notes] notes_entry).
  vm_compute. left. reflexivity.
Defined.

Lemma queries_are_not_answered_witness :
  (exists error,
     POST one_chunk rag_up (query_request "What was decided?") loaded
     = (Normal (json_error 400 error), loaded)
     \/ POST one_chunk rag_up (query_request "What was decided?") loaded
        = (Normal (json_error 500 error), loaded))
  /\ (forall question memoryVectors,
        json_question (query_request "What was decided?") = Normal (VStr question) ->
        question <> EmptyString ->
        vectorStore loaded = Some memoryVectors ->
        not_configured (OPENROUTER_API_KEY (env loaded)) "your_openrouter_api_key_here"
        = false ->
        ragChain_invoke one_chunk rag_up memoryVectors (VObj [("question", VStr question)])
          loaded
        = (Throw "text.replace is not a function", loaded)
        /\ POST one_chunk rag_up (query_request "What was decided?") loaded
           = (Normal (json_error 500 "Server error: text.replace is not a function"),
              loaded)).
Proof.
  apply (queries_are_not_answered one_chunk rag_up (query_request "What was decided?")
           loaded).
  reflexivity.
Defined.

(** With documents loaded and the credential configured, the query of
    the example is answered 500. *)
Example query_with_documents :
  POST one_chunk rag_up (query_request "What was decided?") loaded
  = (Normal (json_error 500 "Server error: text.replace is not a function"), loaded).
Proof. reflexivity. Qed.

End StoreCases.

Module AnswerCases.
Import JS Eff Http QnA Notions Scenario Cases AnswerFacts.

Lemma answer_has_fixed_confidence_witness :
  exists input q content,
    Parsed the_question = Parsed input
    /\ input_question input = VStr q
    /\ qaChain qa_up (history (qa_world env_configured)) q (context_or_empty input)
       = Normal content
    /\ body the_answer
       = JsonData {| question := q; answer := content;
                     context := context_or_empty input; confidence := 95 |}
    /\ history (snd (POST qa_up (Parsed the_question) (qa_world env_configured)))
       = (history (qa_world env_configured) ++ [ChainInvoke q (context_or_empty input)])%list.
Proof.
  apply (answer_has_fixed_confidence qa_up (Parsed the_question) (qa_world env_configured)
           (snd (POST qa_up (Parsed the_question) (qa_world env_configured))) the_answer);
    reflexivity.
Defined.

Lemma question_is_required_witness :
  POST qa_up (Parsed no_question) (qa_world env_configured)
  = (Normal (json_error 400 "Question is required"), qa_world env_configured).
Proof.
  apply (question_is_required qa_up no_question (qa_world env_configured)).
  intros q H. discriminate H.
Defined.

End AnswerCases.

Module FallbackCases.
Import JS Eff Http Summarize Chain Notions Scenario Cases FallbackFacts.

Lemma gemini_takes_over_witness :
  exists events,
    POST gemini_serves (Parsed long_text) (summarize_world env_gemini_only)
    = (Normal (json_data (normalized text100 summary20)),
       after (summarize_world env_gemini_only) events)
    /\ remote_calls events = 1
    /\ In (GenerateContent (gemini_prompt text100 "concise")) events.
Proof.
  apply (gemini_takes_over gemini_serves long_text (summarize_world env_gemini_only)
           text100 summary20).
  - reflexivity.
  - vm_compute. reflexivity.
  - reflexivity.
  - reflexivity.
  - intros h. reflexivity.
  - vm_compute. discriminate.
Defined.

Lemma string_summaries_never_500_witness :
  status (json_data (normalized text100 summary20)) = 200
  \/ status (json_data (normalized text100 summary20)) = 503.
Proof.
  refine (string_summaries_never_500 bart_serves long_text
            (summarize_world env_configured) _ text100
            (json_data (normalized text100 summary20)) _ _ _ _).
  - intros h m t result H. injection H as <-.
    split; intros Ht; [reflexivity | discriminate Ht].
  - reflexivity.
  - vm_compute. reflexivity.
  - vm_compute. reflexivity.
Defined.

End FallbackCases.

Module ClassifyCases.
Import JS Eff Http Classify Notions Scenario Cases ClassifyMore.

Lemma fences_are_unwrapped_witness :
  strip_fences (label_score_format "positive") = label_score_format "positive"
  /\ strip_fences gemini_answer = label_score_format "positive".
Proof.
  apply (fences_are_unwrapped (label_score_format "positive")).
  vm_compute. reflexivity.
Defined.

Lemma primary_result_is_used_witness :
  POST sentiment_up parse_nothing typed_shape (Parsed sentiment_input)
       (classify_world env_configured)
  = (match typed_shape "sentiment-analysis" sentiment_scores with
     | Normal normalizedResult => Normal (json_data normalizedResult)
     | Throw e => Normal (json_error 500 ("Server error: " ++ e))
     end,
     mkWorld env_configured
       [TryHuggingFace "sentiment-analysis";
        FetchInference (HUGGINGFACE_CLASSIFICATION_MODELS "sentiment-analysis")
          "What a wonderful day!" None]).
Proof.
  apply (primary_result_is_used sentiment_up parse_nothing typed_shape sentiment_input
           (classify_world env_configured) "What a wonderful day!" "sentiment-analysis"
           sentiment_scores);
    try reflexivity; discriminate.
Defined.

Lemma gemini_dead_end_witness :
  exists w2,
    POST classify_down parse_nothing shape_nothing (Parsed zero_shot)
         (classify_world env_configured)
    = (Normal (json_error 503 "All classification services are currently unavailable."),
       w2)
    /\ env w2 = env_configured
    /\ remote_calls (history w2)
       = remote_calls
           (history (snd (tryHuggingFaceClassification classify_down
                            "The match went to extra time." "topic-classification" None
                            (classify_world env_configured)))).
Proof.
  apply (gemini_dead_end classify_down parse_nothing shape_nothing zero_shot
           (classify_world env_configured)
           (snd (tryHuggingFaceClassification classify_down
                   "The match went to extra time." "topic-classification" None
                   (classify_world env_configured)))
           "The match went to extra time." "topic-classification" VNull);
    try reflexivity; discriminate.
Defined.

End ClassifyCases.

Module ShapeCases.
Import JS Eff Shape Cases ShapeFacts.

Lemma nested_labels_are_shaped_witness :
  normalizedResult numbers_only "sentiment-analysis" sentiment_scores
  = Normal (mkResult (VStr "positive")
                     (Math_round (score_of positive * 100)%float)
                     (List.map category_of [positive; neutral])).
Proof.
  refine (nested_labels_are_shaped numbers_only _ "sentiment-analysis" positive [neutral] _ _).
  - intros x. reflexivity.
  - reflexivity.
  - repeat constructor; eexists; reflexivity.
Defined.

Lemma flat_results_throw_witness :
  normalizedResult numbers_only "emotion-detection" (VObj positive)
  = Throw "Cannot read properties of undefined (reading 'label')"
  /\ normalizedResult numbers_only "emotion-detection" (VArr [VObj positive; VObj neutral])
     = Throw "Cannot read properties of undefined (reading 'label')".
Proof.
  apply (flat_results_throw numbers_only "emotion-detection" positive [VObj neutral]);
    reflexivity.
Defined.

Lemma topics_are_paired_witness :
  normalizedResult numbers_only "topic-classification" (VObj topic_scores)
  = Normal (mkResult (VStr "sports") (Math_round (0.75 * 100)%float)
              (List.map (fun ls => mkCategory (fst ls) (Math_round (snd ls * 100)%float))
                        (List.combine [VStr "sports"; VStr "politics"]
                                      [0.75%float; 0.25%float]))).
Proof.
  refine (topics_are_paired numbers_only _ topic_scores (VStr "sports") [VStr "politics"]
            0.75%float [0.25%float] _ _ _).
  - intros x. reflexivity.
  - reflexivity.
  - reflexivity.
  - reflexivity.
Defined.

End ShapeCases.

Module RatioCases.
Import JS Summarize Scenario RatioFacts.

Lemma ratio_is_nearest_percent_witness :
  exists k : nat,
    (k <= 100)%nat
    /\ calculateCompressionRatio text100 summary20 = Number_of_nat k
    /\ (2 * countWords text100 * k
        <= 200 * (countWords text100 - countWords summary20) + countWords text100)%nat
    /\ (200 * (countWords text100 - countWords summary20)
        <= 2 * countWords text100 * k + countWords text100)%nat.
Proof.
  apply (ratio_is_nearest_percent text100 summary20).
  - apply Z.leb_le. vm_compute. reflexivity.
  - apply Nat.ltb_lt. vm_compute. reflexivity.
  - apply Nat.leb_le. vm_compute. reflexivity.
Defined.

End RatioCases.

Module GeminiCases.
Import JS Eff Http Classify Notions Scenario Cases GeminiShape.

Lemma gemini_object_is_not_shaped_witness :
  fst (POST gemini_only parse_answer typed_shape (Parsed sentiment_input)
            (classify_world env_configured))
  = Normal (json_error 500
      "Server error: Cannot read properties of undefined (reading 'label')").
Proof.
  refine (f_equal fst
            (gemini_object_is_not_shaped gemini_only parse_answer numbers_only typed_shape _
               sentiment_input (classify_world env_configured)
               (snd (tryHuggingFaceClassification gemini_only "What a wonderful day!"
                       "sentiment-analysis" None (classify_world env_configured)))
               "What a wonderful day!" "sentiment-analysis" VNull
               (match gemini_prompt "What a wonderful day!" "sentiment-analysis" None with
                | Some prompt => prompt
                | None => EmptyString
                end)
               gemini_answer
               parsed_answer
               _ _ _ _ _ _ _ _ _ _ _ _)).
  - intros model result e H. unfold typed_shape. rewrite H. reflexivity.
  - reflexivity.
  - discriminate.
  - reflexivity.
  - discriminate.
  - reflexivity.
  - reflexivity.
  - reflexivity.
  - reflexivity.
  - reflexivity.
  - reflexivity.
  - vm_compute. reflexivity.
  - reflexivity.
Defined.

End GeminiCases.
